(** * Concerto import script: a shallow embedding of [ConcertoSection]

    The development follows [concerto_classes.py].  Each method of
    [ConcertoSection] that the stated properties talk about is written as a
    computation in a small state-and-exception monad over a [world] holding
    what the script reads and writes: the geodatabase workspace
    ([MAIN_PATH]), the section's input folder ([self.shape_input]), the log
    file and the clock.

    Conventions
    - [message] appends to the log; the [time.asctime()] stamp in front of
      every line is left out, so a log line is the text passed to [message].
    - arcpy is an external library.  Its calls are given the behaviour the
      script relies on: cursors raise [RuntimeError], geoprocessing tools
      raise [ExecuteError], a tool called on a dataset that is not there
      fails.
    - Method bodies are read statement by statement as they stand in the
      file, including names that are not bound where they are used; the
      stray closing parenthesis on line 465 is read as absent.
    - The script is read as Python 3: a text is a sequence of characters
      (held here as its UTF-8 encoding), and a cell of an attribute table
      is a text, a number or null.
    - Local time is UTC shifted by the offset in force at the instant
      asked about, a calendar date is a number of days since the epoch,
      and [datetime.date] holds the years 1 to 9999 only. *)

From stdpp Require Import base strings list gmap pretty.
From Stdlib Require Import ZArith Lia.

Open Scope string_scope.
Open Scope list_scope.
Open Scope nat_scope.
Open Scope stdpp_scope.

(** ** Python strings *)

Module PyStr.

(** A string is held as its UTF-8 encoding: a byte from 128 to 191
    continues the character begun before it, every other byte begins a
    character. *)
Definition is_continuation (c : Ascii.ascii) : bool :=
  let n := Ascii.nat_of_ascii c in
  bool_decide (128 ≤ n)%nat && bool_decide (n ≤ 191)%nat.

(** The characters of a string, each as the bytes that encode it. *)
Fixpoint chars (s : string) : list string :=
  match s with
  | EmptyString => []
  | String c s' =>
      match chars s' with
      | String d g :: gs =>
          if is_continuation d then String c (String d g) :: gs
          else String c EmptyString :: String d g :: gs
      | gs => String c EmptyString :: gs
      end
  end.

(** [len(s)]: the number of characters. *)
Definition len (s : string) : nat := length (chars s).

(** [s.startswith(p)] *)
Definition startswith (s p : string) : bool := String.prefix p s.

(** [s.endswith(suf)] *)
Definition endswith (s suf : string) : bool :=
  bool_decide (String.length suf ≤ String.length s)%nat &&
  String.eqb
    (String.substring (String.length s - String.length suf)
                      (String.length suf) s)
    suf.

(** [s[:-n]]: everything but the last [n] characters, empty when the
    string is shorter than [n]. *)
Definition drop_last (n : nat) (s : string) : string :=
  String.concat "" (take (len s - n) (chars s)).

(** The characters [str.strip()] removes, those for which
    [str.isspace()] holds: U+0009 to U+000D, U+001C to U+0020, U+0085,
    U+00A0, U+1680, U+2000 to U+200A, U+2028, U+2029, U+202F, U+205F and
    U+3000. *)
Definition is_whitespace (c : string) : bool :=
  let bytes := map Ascii.nat_of_ascii (String.list_ascii_of_string c) in
  bool_decide (bytes ∈ map (λ n, [n]) (seq 9 5 ++ seq 28 5) ++
                       [[194; 133]; [194; 160]; [225; 154; 128]] ++
                       map (λ n, [226; 128; n]) (seq 128 11 ++ [168; 169; 175]) ++
                       [[226; 129; 159]; [227; 128; 128]]).

Fixpoint lstrip_chars (l : list string) : list string :=
  match l with
  | [] => []
  | c :: l' => if is_whitespace c then lstrip_chars l' else l
  end.

Definition lstrip (s : string) : string :=
  String.concat "" (lstrip_chars (chars s)).

Definition rstrip (s : string) : string :=
  String.concat "" (rev (lstrip_chars (rev (chars s)))).

(** [s.strip()] *)
Definition strip (s : string) : string := rstrip (lstrip s).

(** [l.index(x)]: position of the first occurrence. *)
Fixpoint index (x : string) (l : list string) : option nat :=
  match l with
  | [] => None
  | y :: l' => if decide (y = x) then Some 0 else S <$> index x l'
  end.

(** [s.center(width)], padding with spaces: of an odd number of padding
    characters the extra one goes left when [width] is odd as well. *)
Definition center (s : string) (width : nat) : string :=
  if bool_decide (width ≤ len s)%nat then s
  else
    let marg := (width - len s)%nat in
    let left := (marg / 2 + (if Nat.odd marg && Nat.odd width then 1 else 0))%nat in
    String.concat "" (replicate left " ") +:+ s +:+
    String.concat "" (replicate (marg - left)%nat " ").

End PyStr.

(** ** Exceptions and the monad *)

Inductive exn : Type :=
  | NameError (name : string)
  | ValueError (msg : string)
  | TypeError (msg : string)
  | IndexError (msg : string)
  | AssertionError
  | AttributeError (msg : string)
  | OverflowError (msg : string)
  | OSError (msg : string)
  | RuntimeError (msg : string)
  | ExecuteError (msg : string).

(** [str(e)] *)
Definition str_exn (e : exn) : string :=
  match e with
  | NameError name => "name '" +:+ name +:+ "' is not defined"
  | ValueError msg | TypeError msg | IndexError msg | OSError msg
  | AttributeError msg | OverflowError msg
  | RuntimeError msg | ExecuteError msg => msg
  | AssertionError => ""
  end.

Definition is_RuntimeError (e : exn) : bool :=
  match e with RuntimeError _ => true | _ => false end.

Definition is_ValueError (e : exn) : bool :=
  match e with ValueError _ => true | _ => false end.

(** [except Exception]: every class above derives from [Exception]. *)
Definition is_Exception (e : exn) : bool := true.

Inductive outcome (A : Type) : Type :=
  | Return (a : A)
  | Raise (e : exn).
Arguments Return {A} a.
Arguments Raise {A} e.

(** ** Stored data *)

(** A cell of an attribute table as a cursor hands it to the script: a
    text, a number, or [None] for a null cell.  (Whole numbers stand for
    all numeric cells: the script only compares and formats them.) *)
Inductive value : Type :=
  | Text (s : string)
  | Number (n : Z)
  | Null.

#[global] Instance value_eq_dec : EqDecision value.
Proof. solve_decision. Defined.

(** The Python type of a cell, as error messages name it. *)
Definition type_name (v : value) : string :=
  match v with Text _ => "str" | Number _ => "int" | Null => "NoneType" end.

(** A row holds one cell per field, in field order. *)
Definition row : Type := list value.

(** A feature class of the geodatabase. *)
Record feature_class : Type := FC {
  fc_fields : list string;
  fc_rows : list row
}.

(** What a name in the input folder holds: a shapefile with its
    attribute table, or something arcpy cannot open. *)
Inductive content : Type :=
  | Shape (fields : list string) (rows : list row)
  | Unreadable.

Record file : Type := File {
  f_mtime : Z;          (** [os.path.getmtime], seconds since the epoch *)
  f_content : content
}.

#[global] Instance content_eq_dec : EqDecision content.
Proof. solve_decision. Defined.

#[global] Instance file_eq_dec : EqDecision file.
Proof. solve_decision. Defined.

#[global] Instance feature_class_eq_dec : EqDecision feature_class.
Proof. solve_decision. Defined.

#[global] Instance exn_eq_dec : EqDecision exn.
Proof. solve_decision. Defined.

Record world : Type := World {
  w_gdb : gmap string feature_class;   (** the workspace [MAIN_PATH] *)
  w_input : list (string * file);      (** the folder [self.shape_input] *)
  w_log : list string;                 (** [LOG_FILE], oldest line first *)
  w_now : Z                            (** [time.time()] *)
}.

Definition set_gdb (g : gmap string feature_class) (w : world) : world :=
  World g (w_input w) (w_log w) (w_now w).
Definition set_input (d : list (string * file)) (w : world) : world :=
  World (w_gdb w) d (w_log w) (w_now w).
Definition set_log (l : list string) (w : world) : world :=
  World (w_gdb w) (w_input w) l (w_now w).

Definition M (A : Type) : Type := world → outcome A * world.

#[global] Instance M_ret : MRet M := λ A a w, (Return a, w).
#[global] Instance M_bind : MBind M := λ A B k m w,
  match m w with
  | (Return a, w') => k a w'
  | (Raise e, w') => (Raise e, w')
  end.

Definition ret {A} (a : A) : M A := mret a.
Definition raise {A} (e : exn) : M A := λ w, (Raise e, w).

(** [try: m  except <class> as e: h e] *)
Definition try_except {A} (m : M A) (class : exn → bool) (h : exn → M A) : M A :=
  λ w, match m w with
       | (Raise e, w') => if class e then h e w' else (Raise e, w')
       | r => r
       end.

(** [for x in l: body x] *)
Fixpoint for_each {A} (l : list A) (body : A → M unit) : M unit :=
  match l with
  | [] => ret tt
  | x :: l' => body x;; for_each l' body
  end.

(** [message(msg)] of [concerto_v4.py]. *)
Definition message (msg : string) : M unit :=
  λ w, (Return tt, set_log (w_log w ++ [msg]) w).

(** A failure line starts with the marker ["~"]. *)
Definition is_abort_line (line : string) : bool := PyStr.startswith line "~".

(** [for x in l: body], with the local variables the body reassigns
    threaded through as [s]. *)
Fixpoint for_fold {A S} (l : list A) (s : S) (body : A → S → M S) : M S :=
  match l with
  | [] => ret s
  | x :: l' => s' ← body x s; for_fold l' s' body
  end.

(** A list comprehension [[x for x in l if cond x]] whose condition has
    effects. *)
Fixpoint comprehension {A} (l : list A) (cond : A → M bool) : M (list A) :=
  match l with
  | [] => ret []
  | x :: l' =>
      b ← cond x;
      rest ← comprehension l' cond;
      ret (if (b : bool) then x :: rest else rest)
  end.

(** ** The input folder *)

Fixpoint lookup_file (name : string) (d : list (string * file)) : option file :=
  match d with
  | [] => None
  | (n, f) :: d' => if decide (n = name) then Some f else lookup_file name d'
  end.

Fixpoint write_file (name : string) (f : file) (d : list (string * file))
  : list (string * file) :=
  match d with
  | [] => []
  | (n, g) :: d' =>
      if decide (n = name) then (n, f) :: d' else (n, g) :: write_file name f d'
  end.

Definition remove_file (name : string) (d : list (string * file))
  : list (string * file) :=
  List.filter (λ e, negb (bool_decide (e.1 = name))) d.

(** [os.listdir(self.shape_input)] *)
Definition os_listdir : M (list string) := λ w, (Return (w_input w).*1, w).

(** [os.path.getmtime(os.path.join(self.shape_input, item))] *)
Definition os_path_getmtime (item : string) : M Z :=
  λ w, match lookup_file item (w_input w) with
       | Some f => (Return (f_mtime f), w)
       | None => (Raise (OSError "No such file or directory"), w)
       end.

(** [arcpy.ListFields(os.path.join(self.shape_input, item))], names only. *)
Definition ListFields_shape (item : string) : M (list string) :=
  λ w, match f_content <$> lookup_file item (w_input w) with
       | Some (Shape fields _) => (Return fields, w)
       | _ => (Raise (RuntimeError "cannot open dataset"), w)
       end.

(** Opening [arcpy.da.UpdateCursor(path, field)] on a shapefile: the column
    of [field] and the number of rows. *)
Definition UpdateCursor_shape (item field : string) : M (nat * nat) :=
  λ w, match f_content <$> lookup_file item (w_input w) with
       | Some (Shape fields rows) =>
           match PyStr.index field fields with
           | Some k => (Return (k, length rows), w)
           | None => (Raise (RuntimeError "cannot find field"), w)
           end
       | _ => (Raise (RuntimeError "cannot open dataset"), w)
       end.

(** The cursor's current row: a one-element list holding the cell of the
    cursor's field in row [i]. *)
Definition cursor_row (item : string) (k i : nat) : M row :=
  λ w, match lookup_file item (w_input w) with
       | Some (File _ (Shape _ rows)) =>
           match rows !! i with
           | Some r => (Return [default Null (r !! k)], w)
           | None => (Raise (RuntimeError "cursor exhausted"), w)
           end
       | _ => (Raise (RuntimeError "cannot open dataset"), w)
       end.

(** [ucursor.updateRow(row)]: store [row[0]] in the cursor's field of the
    current row (a stored row too short to have that field is left as it
    is). *)
Definition updateRow (item : string) (k i : nat) (row : list value) : M unit :=
  λ w, match lookup_file item (w_input w) with
       | Some (File t (Shape fields rows)) =>
           match rows !! i with
           | Some r =>
               let r' := <[k := default Null (row !! 0)]> r in
               (Return tt,
                set_input (write_file item (File t (Shape fields (<[i := r']> rows)))
                                      (w_input w)) w)
           | None => (Raise (RuntimeError "cursor exhausted"), w)
           end
       | _ => (Raise (RuntimeError "cannot open dataset"), w)
       end.

(** ** A section of the script *)

Record ConcertoSection : Type := {
  cpad_view_name : string;
  shape_key_field : string;
  cpad_key_field : string;
  shapefile_folder : string;
  feature_class_prefix : string
}.

Definition shape_fc (self : ConcertoSection) := feature_class_prefix self +:+ "_Shape".
Definition poly_fc (self : ConcertoSection) := feature_class_prefix self +:+ "_Poly".
Definition cpad_fc (self : ConcertoSection) := feature_class_prefix self +:+ "_CPAD".
Definition layer_fc (self : ConcertoSection) := feature_class_prefix self +:+ "_Layer".
Definition live_fc (self : ConcertoSection) := feature_class_prefix self +:+ "_Live".

(** [str(x)] for the values the script formats. *)
Definition str_value (v : value) : string :=
  match v with
  | Text s => s
  | Number n => pretty n
  | Null => "None"
  end.

(** [v.strip()]: only a text has the method. *)
Definition strip_method (v : value) : M string :=
  match v with
  | Text s => ret (PyStr.strip s)
  | _ => raise (AttributeError ("'" +:+ type_name v +:+
                                "' object has no attribute 'strip'"))
  end.

(** [len(v)] *)
Definition len (v : value) : M nat :=
  match v with
  | Text s => ret (PyStr.len s)
  | _ => raise (TypeError ("object of type '" +:+ type_name v +:+
                           "' has no len()"))
  end.

(** ** Data for the worked runs *)

(** The [Sites] section as [concerto_v4.py] builds it. *)
Definition Sites : ConcertoSection := {|
  cpad_view_name := "Concerto.dbo.V_GIS_SITE";
  shape_key_field := "UPRN";
  cpad_key_field := "SITE_UPRN";
  shapefile_folder := "Sites";
  feature_class_prefix := "Sites"
|}.

(** A store that never refuses a deletion. *)
Definition never_fails {A} : A → option string := λ _, None.

(** Live rows [A:v1], [B:v1]. *)
Definition live_AB : feature_class :=
  FC ["UPRN"; "VERSION"] [[Text "A"; Text "v1"]; [Text "B"; Text "v1"]].

(** Candidate rows [A:v2], [C:v1]. *)
Definition poly_AC : feature_class :=
  FC ["UPRN"; "VERSION"] [[Text "A"; Text "v2"]; [Text "C"; Text "v1"]].

(** Candidate rows [A:v2], [A:v3]: the same key twice. *)
Definition poly_AA : feature_class :=
  FC ["UPRN"; "VERSION"] [[Text "A"; Text "v2"]; [Text "A"; Text "v3"]].

(** A candidate set with no rows. *)
Definition poly_empty : feature_class := FC ["UPRN"; "VERSION"] [].

(** A candidate set with a row but without the key field [UPRN]. *)
Definition poly_no_key : feature_class :=
  FC ["OBJECTID"; "VERSION"] [[Text "1"; Text "v2"]].

Definition world_with (live : feature_class) (poly : option feature_class) : world :=
  World (match poly with
         | Some fc => <["Sites_Poly" := fc]> (<["Sites_Live" := live]> ∅)
         | None => <["Sites_Live" := live]> ∅
         end) [] [] 0.

(** An input folder: a shapefile with three keyed rows and two blank
    ones, one with no usable key, a processed one and a locked one. *)
Definition input_folder : list (string * file) :=
  [("plots.shp",
    File 0 (Shape ["UPRN"] [[Text "S1"]; [Text ""]; [Text "S2"]; [Text ""];
                            [Text "S3"]]));
   ("blank.shp", File 0 (Shape ["UPRN"] [[Text ""]; [Text "7"]]));
   ("__done.shp", File 0 (Shape ["UPRN"] [[Text "S9"]]));
   ("busy.shp", File 0 (Shape ["UPRN"] [[Text "S4"]]));
   ("busy.shp.PC01.1234.sr.lock", File 0 Unreadable)].

Definition input_world : world := World ∅ input_folder [] 0.

(** A shapefile whose keys carry surrounding whitespace. *)
Definition padded_world : world :=
  World ∅ [("a.shp", File 0 (Shape ["UPRN"] [[Text " A"]; [Text "  "];
                                              [Text "AB "]]))] [] 0.

(** A shapefile whose only key is one character behind a blank, and one
    whose keys are blank. *)
Definition blank_keys_world : world :=
  World ∅ [("a.shp", File 0 (Shape ["UPRN"] [[Text " A"]]));
           ("b.shp", File 0 (Shape ["UPRN"] [[Text "  "]; [Text "   "]]))] [] 0.

(** Keys of one character outside ASCII next to one of two characters. *)
Definition accented_world : world :=
  World ∅ [("a.shp", File 0 (Shape ["UPRN"] [[Text "é"]; [Text "ab"];
                                              [Text "£"]]))] [] 0.

(** A shapefile whose key column holds a number, and one with a null
    key. *)
Definition numeric_world : world :=
  World ∅ [("sites.shp", File 0 (Shape ["UPRN"] [[Text ""]; [Number 10012345];
                                                  [Text "S2"]]));
           ("later.shp", File 0 (Shape ["UPRN"] [[Text "S3"]]))] [] 0.

Definition null_world : world :=
  World ∅ [("sites.shp", File 0 (Shape ["UPRN"] [[Null]]))] [] 0.

(** Processed files last modified 31 and 29 days before now. *)
Definition aged_world : world :=
  World ∅ [("__old.shp", File 0 Unreadable);
           ("__new.shp", File (2 * 86400) Unreadable);
           ("other.shp", File 0 Unreadable)] [] (31 * 86400).

(** Two shapefiles one of whose names starts with the other's stem; only
    the longer has a lock file. *)
Definition prefix_world : world :=
  World ∅ [("X.shp", File 0 Unreadable); ("XY.shp", File 0 Unreadable);
           ("XY.shp.lock", File 0 Unreadable)] [] 0.

(** The lock test in the words of the specification: a lock-file sibling
    with the same stem, that is, a name of the folder made of the
    shapefile's stem, the extension separator and a rest ending in
    [lock]. *)
Definition same_stem_lock (names : list string) (item : string) : bool :=
  existsb (λ name, PyStr.startswith name (PyStr.drop_last 4 item +:+ ".") &&
                   PyStr.endswith name "lock") names.

(** Discovery in the words of the specification. *)
Definition spec_discovery (names : list string) : list string :=
  List.filter (λ item, PyStr.endswith item ".shp" &&
                       negb (PyStr.startswith item "__") &&
                       negb (same_stem_lock names item)) names.

(** Retirement in the words of the specification: a processed shapefile
    whose last-modified timestamp is at least 30 days (of 86400 seconds)
    old. *)
Definition spec_expired (w : world) (e : string * file) : bool :=
  PyStr.startswith e.1 "__" && PyStr.endswith e.1 ".shp" &&
  bool_decide (30 * 86400 ≤ w_now w - f_mtime e.2)%Z.

(** A processed file modified at 23:00 on day 0, looked at at 01:00 on
    day 30: 29 days and 2 hours later. *)
Definition late_evening_world : world :=
  World ∅ [("__X.shp", File 82800 Unreadable)] [] (30 * 86400 + 3600).

(** A zone that never changes its offset, and one that moves to summer
    time (one hour ahead) at the start of day 10; a platform whose
    [localtime] takes every instant. *)
Definition utc : Z → Z := λ _, 0%Z.

Definition localtime_ok : Z → option exn := λ _, None.

Definition summer_time : Z → Z :=
  λ t, if bool_decide (t < 10 * 86400)%Z then 0%Z else 3600%Z.

(** A processed file modified at 23:30 on day 0, looked at exactly 29
    days later. *)
Definition summer_world : world :=
  World ∅ [("__X.shp", File 84600 Unreadable)] [] (84600 + 29 * 86400).

(** A clock in the year 10000. *)
Definition far_future_world : world :=
  World ∅ [("__X.shp", File 0 Unreadable)] [] 253402300800.

(** Validity of a key in the words of the specification: its length
    after trimming surrounding whitespace exceeds 1. *)
Definition spec_valid (key : string) : bool :=
  bool_decide (1 < PyStr.len (PyStr.strip key)).

(** A file's count of valid rows in the words of the specification,
    the key being in column [k]. *)
Definition spec_valid_rows (k : nat) (rows : list row) : nat :=
  length (List.filter (λ r, match r !! k with
                            | Some (Text key) => spec_valid key
                            | _ => false
                            end) rows).

(** A folder with a shapefile that lacks the key field and one that has
    no field at all. *)
Definition malformed_world : world :=
  World ∅ [("nokey.shp", File 0 (Shape ["PARCEL"] [[Text "P1"]]));
           ("nofields.shp", File 0 (Shape [] []))] [] 0.

(** A tool that always refuses. *)
Definition always_fails {A} : A → option string :=
  λ _, Some "ERROR 000464: Cannot get exclusive schema lock".

(** The files of the geodatabase folder, one of them a lock file. *)
Definition gdb_folder : list string :=
  ["a00000001.gdbtable"; "_gdb.PC01.4820.1234.sr.lock"].

(** The input folder next to a workspace that holds the live feature
    class, and the same with a working feature class left behind. *)
Definition live_input_world : world :=
  World (<["Sites_Live" := live_AB]> ∅) input_folder [] 0.

Definition workspace_world : world :=
  World (<["Sites_Shape" := FC ["UPRN"] []]> (<["Sites_Live" := live_AB]> ∅))
        input_folder [] 0.

(** Nothing to verify, an old processed file to retire. *)
Definition idle_world : world :=
  World (<["Sites_Live" := live_AB]> ∅)
        [("__old.shp", File 0 Unreadable); ("other.shp", File 0 Unreadable)]
        [] (31 * 86400).

(** The CPAD view of the [Sites] section. *)
Definition cpad_sites : feature_class := FC ["SITE_UPRN"; "LANDLORD"] [].

Ltac by_computation := apply (bool_decide_unpack _); vm_compute; exact I.

Section Methods.

Set Default Proof Using "Type*".

(** The instance the methods are called on. *)
Variable self : ConcertoSection.

(** What the store answers when asked to delete: [Some msg] is the text
    of the exception arcpy raises, [None] means the deletion goes
    through.  [Delete_management_fails] is asked per file of the input
    folder, [deleteRow_fails] per row of the live feature class. *)
Variable Delete_management_fails : string → option string.
Variable deleteRow_fails : row → option string.

(** Local time ([datetime.date] works in it): [utcoffset t] is the
    offset from UTC, in seconds, in force at the instant [t], and
    [localtime_fails t] is the exception with which the platform's
    [localtime] refuses [t], if it does ([OverflowError] or [OSError],
    as for an instant before the epoch on Windows). *)
Variable utcoffset : Z → Z.
Variable localtime_fails : Z → option exn.

(** *** Discovery *)

(** [has_lock_file]: [True] when some name of the folder starts with the
    shapefile's name minus its last four characters and ends with
    ["lock"]; the method falls off its end ([None], falsy) otherwise. *)
Definition has_lock_file (shapefile : string) : M bool :=
  let shapename := PyStr.drop_last 4 shapefile in
  names ← os_listdir;
  let check_list :=
    List.filter (λ name, PyStr.startswith name shapename &&
                         PyStr.endswith name "lock") names in
  match check_list with
  | _ :: _ =>
      message (shapename +:+ " is locked. Skipping verification");;
      ret true
  | [] => ret false
  end.

Definition create_list_of_shapes_to_verify : M (list string) :=
  names ← os_listdir;
  comprehension names (λ item,
    if PyStr.endswith item ".shp" && negb (PyStr.startswith item "__")
    then locked ← has_lock_file item; ret (negb locked)
    else ret false).

(** *** Verification *)

(** The body of the [for row in ucursor] loop of [verify_key_field], at
    the cursor's row [i]; the state is [(valid_rows, invalid_rows)]. *)
Definition verify_row (item : string) (k i : nat) (counts : nat * nat)
  : M (nat * nat) :=
  let '(valid_rows, invalid_rows) := counts in
  row ← cursor_row item k i;
  let row0 := default Null (row !! 0) in
  (* [row[0].strip()]: the stripped copy is computed and dropped *)
  strip_method row0;;
  updateRow item k i row;;
  size ← len row0;
  if bool_decide (1 < size)
  then ret (S valid_rows, invalid_rows)
  else
    message ("@ '" +:+ str_value row0 +:+ "' is niot a valid " +:+
             shape_key_field self +:+ ". Removed row");;
    ret (valid_rows, S invalid_rows).

Definition verify_key_field (item : string) : M (nat * nat) :=
  '(k, n) ← UpdateCursor_shape item (shape_key_field self);
  for_fold (seq 0 n) (0, 0) (verify_row item k).

Definition del_duds (dud_list : list string) : M unit :=
  for_each dud_list (λ item,
    message ("@ " +:+ item +:+ " was malformed. Please investigate")).

(** The body of the [for item in input_list] loop of [verify_shapes];
    the state is [(dud_list, good_list)]. *)
Definition verify_one (shape_key_field_arg item : string)
    (lists : list string * list string) : M (list string * list string) :=
  let '(dud_list, good_list) := lists in
  try_except
    (field_list ← ListFields_shape item;
     if bool_decide (field_list = [])
     then
       message ("~ " +:+ item +:+ " has no fields. Added to dud list");;
       ret (dud_list ++ [item], good_list)
     else if negb (bool_decide (shape_key_field_arg ∈ field_list))
     then
       message ("~ Field '" +:+ shape_key_field self +:+
                "' not found. Added to dud list");;
       ret (dud_list ++ [item], good_list)
     else
       '(valid_rows, invalid_rows) ← verify_key_field item;
       if bool_decide (valid_rows ≤ 0)
       then
         message ("~ '" +:+ item +:+
                  "' has no valid rows. Added to dud list");;
         ret (dud_list ++ [item], good_list)
       else
         (if bool_decide (0 < invalid_rows)
          then message ("Verified '" +:+ item +:+ "' with " +:+
                        pretty valid_rows +:+ " valid and " +:+
                        pretty invalid_rows +:+ " invalid shape(s)")
          else message ("Completed verifying '" +:+ item +:+ "' with " +:+
                        pretty valid_rows +:+ " valid shape(s)"));;
         ret (dud_list, good_list ++ [item]))
    is_RuntimeError
    (λ e,
       message ("~ Unable to attempt verification on " +:+ item +:+
                ". " +:+ str_exn e);;
       ret (dud_list, good_list)).

Definition verify_loop (shape_key_field_arg : string)
    (input_list : list string) : M (list string * list string) :=
  for_fold input_list ([], []) (verify_one shape_key_field_arg).

Definition verify_shapes (shapefile_folder_arg shape_key_field_arg : string)
  : M (list string) :=
  input_list ← create_list_of_shapes_to_verify;
  '(dud_list, good_list) ← verify_loop shape_key_field_arg input_list;
  (if bool_decide (dud_list ≠ []) then del_duds dud_list else ret tt);;
  ret good_list.

(** *** Renaming and retirement *)

(** [arcpy.Rename_management] on a file of the input folder. *)
Definition Rename_management (item new_name : string) : M unit :=
  λ w, match lookup_file item (w_input w), lookup_file new_name (w_input w) with
       | Some f, None =>
           (Return tt,
            set_input (map (λ e, if decide (e.1 = item) then (new_name, e.2) else e)
                           (w_input w)) w)
       | _, _ => (Raise (ExecuteError "cannot rename"), w)
       end.

Definition rename_shape (item : string) : M unit :=
  (if PyStr.endswith item ".shp" && negb (PyStr.startswith item "__")
   then ret tt else raise AssertionError);;
  let new_name := "__" +:+ item in
  (* [os.path.join(MAIN_SHAPE_PATH, sef.shapefile_folder, new_name)]:
     [sef] is not bound *)
  new_path ← (raise (NameError "sef") : M string);
  try_except
    (Rename_management item new_path;;
     message (item +:+ " renamed to " +:+ new_name))
    is_Exception
    (λ e, message ("~ Unable to rename " +:+ item +:+ ". Please check")).

Definition finally_rename_shapes (good_list : list string) : M unit :=
  for_each good_list (λ item,
    try_except (rename_shape item) is_Exception
      (λ e, message ("~ Unable to rename " +:+ item +:+ ". Please check"))).

(** Local wall-clock time at the instant [t], in seconds since the
    epoch, and the local calendar date, in days since the epoch. *)
Definition local_time (t : Z) : Z := (t + utcoffset t)%Z.
Definition local_day (t : Z) : Z := (local_time t `div` 86400)%Z.

(** [datetime.date.min] and [datetime.date.max], 0001-01-01 and
    9999-12-31, in days since the epoch. *)
Definition date_min_day : Z := (-719162)%Z.
Definition date_max_day : Z := 2932896%Z.

(** [datetime.date.fromtimestamp(t)]: raises when the platform refuses
    the instant or the date falls outside the years 1 to 9999. *)
Definition date_fromtimestamp (t : Z) : M Z :=
  match localtime_fails t with
  | Some e => raise e
  | None =>
      if bool_decide (date_min_day ≤ local_day t ≤ date_max_day)%Z
      then ret (local_day t)
      else raise (ValueError "year is out of range")
  end.

(** [datetime.date.today()], that is [date.fromtimestamp(time.time())] *)
Definition date_today : M Z := λ w, date_fromtimestamp (w_now w) w.

(** [arcpy.Delete_management] on a file of the input folder. *)
Definition Delete_management (item : string) : M unit :=
  λ w, match Delete_management_fails item with
       | Some msg => (Raise (ExecuteError msg), w)
       | None => (Return tt, set_input (remove_file item (w_input w)) w)
       end.

(** The body of the [for item in os.listdir(...)] loop of
    [retire_old_files]. *)
Definition retire_one (today : Z) (item : string) : M unit :=
  if PyStr.startswith item "__" && PyStr.endswith item ".shp"
  then
    last_modified ← os_path_getmtime item;
    time_passed ← date_fromtimestamp last_modified;
    let age_days := (today - time_passed)%Z in
    if bool_decide (30 ≤ age_days)%Z
    then
      try_except
        (Delete_management item;;
         message (item +:+ " deleted as " +:+ pretty age_days +:+ " days old"))
        is_Exception
        (λ e, message ("~ Unable to delete " +:+ item +:+ ". " +:+
                       pretty age_days +:+ " days old." +:+ "
" +:+ str_exn e))
    else ret tt
  else ret tt.

Definition retire_old_files : M unit :=
  today ← date_today;
  names ← os_listdir;
  for_each names (retire_one today).

(** *** Reconciliation *)

(** [arcpy.Exists(name)] in the workspace. *)
Definition Exists (name : string) : M bool :=
  λ w, (Return (bool_decide (is_Some (w_gdb w !! name))), w).

(** [int(arcpy.GetCount_management(name).getOutput(0))]: the tool fails
    on a dataset that does not exist. *)
Definition GetCount_management (name : string) : M nat :=
  λ w, match w_gdb w !! name with
       | Some fc => (Return (length (fc_rows fc)), w)
       | None =>
           (Raise (ExecuteError ("ERROR 000732: Input Rows: Dataset " +:+
                                 name +:+ " does not exist or is not supported")),
            w)
       end.

(** [[field.name for field in arcpy.ListFields(name)]] *)
Definition ListFields (name : string) : M (list string) :=
  λ w, match w_gdb w !! name with
       | Some fc => (Return (fc_fields fc), w)
       | None => (Raise (RuntimeError "cannot open dataset"), w)
       end.

(** The cell of column [k]; a row too short for the column reads as
    null. *)
Definition cell (k : nat) (r : row) : value := default Null (r !! k).

(** [arcpy.da.SearchCursor(name, field_names)]: every row, cut down to
    the requested fields in the requested order. *)
Definition SearchCursor (name : string) (field_names : list string)
  : M (list row) :=
  λ w, match w_gdb w !! name with
       | Some fc =>
           match mapM (λ f, PyStr.index f (fc_fields fc)) field_names with
           | Some cols =>
               (Return (map (λ r, map (λ k, cell k r) cols) (fc_rows fc)), w)
           | None => (Raise (RuntimeError "cannot find field"), w)
           end
       | None => (Raise (RuntimeError "cannot open dataset"), w)
       end.

(** [row[index]] on a cursor row (a tuple). *)
Definition getitem (r : row) (index : option nat) : M value :=
  match index with
  | None => raise (TypeError "tuple indices must be integers, not NoneType")
  | Some i =>
      match r !! i with
      | Some v => ret v
      | None => raise (IndexError "tuple index out of range")
      end
  end.

Definition create_master_list : M (list value) :=
  rows ← SearchCursor (live_fc self) [shape_key_field self];
  ret (map (cell 0) rows).

Definition get_index : M (option nat) :=
  try_except
    (names ← ListFields (poly_fc self);
     match PyStr.index (shape_key_field self) names with
     | Some i => ret (Some i)
     | None => raise (ValueError ("'" +:+ shape_key_field self +:+
                                  "' is not in list"))
     end)
    is_ValueError
    (λ e,
       message ("~ Unable to find " +:+ shape_key_field self +:+ " in " +:+
                poly_fc self +:+ ". " +:+ "
" +:+ str_exn e);;
       ret None).

(** The update cursor of [delete_record] walking the rows of the live
    feature class: a row whose cell in column [k] equals [del_value] is
    deleted unless the store refuses.  Returns the rows left and the
    lines logged. *)
Fixpoint delete_matching (k : nat) (del_value : value) (rows : list row)
  : list row * list string :=
  match rows with
  | [] => ([], [])
  | r :: rest =>
      let '(kept, lines) := delete_matching k del_value rest in
      if bool_decide (cell k r = del_value)
      then
        match deleteRow_fails r with
        | None =>
            (kept,
             ("Old value of " +:+ str_value del_value +:+ " deleted from " +:+
              live_fc self) :: lines)
        | Some msg =>
            (r :: kept,
             ("~ Unable to delete old value of " +:+ str_value del_value +:+
              " from " +:+ live_fc self +:+ ". " +:+ "
" +:+ msg) :: lines)
        end
      else (r :: kept, lines)
  end.

Definition delete_record (del_value : value) : M unit :=
  λ w, match w_gdb w !! live_fc self with
       | Some fc =>
           match PyStr.index (shape_key_field self) (fc_fields fc) with
           | Some k =>
               let '(kept, lines) := delete_matching k del_value (fc_rows fc) in
               (Return tt,
                set_log (w_log w ++ lines)
                  (set_gdb (<[live_fc self := FC (fc_fields fc) kept]> (w_gdb w)) w))
           | None => (Raise (RuntimeError "cannot find field"), w)
           end
       | None => (Raise (RuntimeError "cannot open dataset"), w)
       end.

(** [arcpy.Append_management(input, target, "NO_TEST")]: every input row
    is added after the target's rows; a target field takes the cell of
    the input field of the same name and is null when there is none. *)
Definition Append_management (input target : string) : M unit :=
  λ w, match w_gdb w !! input, w_gdb w !! target with
       | Some src, Some dst =>
           let cols := map (λ f, PyStr.index f (fc_fields src)) (fc_fields dst) in
           let conv (r : row) : row :=
             map (λ c, match c with Some k => cell k r | None => Null end) cols in
           (Return tt,
            set_gdb (<[target := FC (fc_fields dst)
                                    (fc_rows dst ++ map conv (fc_rows src))]>
                       (w_gdb w)) w)
       | _, _ =>
           (Raise (ExecuteError "ERROR 000732: Dataset does not exist or is not supported"),
            w)
       end.

(** Lines 388-394 of [process_updates]: the search cursor over the
    candidate rows.  Returns [(replacement_records, new_records)]. *)
Definition scan_candidates (poly_names : list string)
    (polyindex : option nat) (check_list : list value) : M (nat * nat) :=
  rows ← SearchCursor (poly_fc self) poly_names;
  for_fold rows (0, 0) (λ r '(replacement_records, new_records),
    key ← getitem r polyindex;
    if bool_decide (key ∈ check_list)
    then
      del_value ← getitem r polyindex;
      delete_record del_value;;
      ret (S replacement_records, new_records)
    else ret (replacement_records, S new_records)).

(** Lines 395-401 of [process_updates]: the bulk append. *)
Definition append_to_live (number_to_process new_records
    replacement_records : nat) : M unit :=
  try_except
    (Append_management (poly_fc self) (live_fc self);;
     message (pretty number_to_process +:+ " shapes added to live. " +:+
              pretty new_records +:+ " new and " +:+
              pretty replacement_records +:+ " replacements"))
    is_Exception
    (λ e,
       message ("~ Unable to add new shapes to live. " +:+ str_exn e);;
       raise e).

Definition process_updates : M unit :=
  message "Processing Updates";;
  number_to_process ← GetCount_management (poly_fc self);
  poly_exists ← Exists (poly_fc self);
  if negb poly_exists || bool_decide (number_to_process < 1)
  then message "No updates to process"
  else
    check_list ← create_master_list;
    (* [arcpy.ListFields(self,poly_fc)]: the second argument is the bare
       name [poly_fc], which is not bound *)
    poly_names ← (raise (NameError "poly_fc") : M (list string));
    live_names ← ListFields (live_fc self);
    polyindex ← get_index;
    '(replacement_records, new_records) ←
      scan_candidates poly_names polyindex check_list;
    append_to_live number_to_process new_records replacement_records.

(** *** Tidying, merging and the work flow *)

(** What lies outside the [world] and is only read during a run:
    - [Delete_dataset_fails]: the answer of the store when
      [arcpy.Delete_management] is asked to delete a dataset of the
      workspace ([Some msg] is the text of the exception raised);
    - [workspace_files]: [os.listdir(MAIN_PATH)], the files of the
      geodatabase folder;
    - [Merge_management_fails]: the answer of the store when
      [arcpy.Merge_management] is run on readable inputs;
    - [cpad_view]: the rows behind [self.cpad_view_path], [None] when the
      view cannot be read. *)
Variable Delete_dataset_fails : string → option string.
Variable workspace_files : list string.
Variable Merge_management_fails : list string → option string.
Variable cpad_view : option feature_class.

(** The three methods that work on an arcpy feature layer
    ([MakeFeatureLayer], [AddJoin], [CopyFeatures]).  Layers and joins are
    not part of the [world]; what is proved about their callers holds
    for whatever these three do. *)
Variable create_new_layer : M unit.
Variable perform_join : M unit.
Variable create_final_fc : M unit.

(** [MAIN_PATH] and [MAIN_SHAPE_PATH] of [concerto_v4.py]. *)
Definition MAIN_PATH : string := "\\partially_redacted\Concerto\Data\Concerto.gdb".
Definition MAIN_SHAPE_PATH : string := "\\partially_redacted\GIS\CPAD".

(** [os.path.join(a, b)] for a relative [b] and an [a] that does not end
    in a separator. *)
Definition os_path_join (a b : string) : string := a +:+ "\" +:+ b.

(** [self.shape_input] *)
Definition shape_input : string :=
  os_path_join MAIN_SHAPE_PATH (shapefile_folder self).

(** [arcpy.Delete_management] on a dataset of the workspace. *)
Definition Delete_dataset (item : string) : M unit :=
  λ w, match Delete_dataset_fails item with
       | Some msg => (Raise (ExecuteError msg), w)
       | None => (Return tt, set_gdb (delete item (w_gdb w)) w)
       end.

(** [arcpy.RefreshCatalog] changes nothing that the [world] holds. *)
Definition tidy_delete_old_files (tidy_list : list string) : M unit :=
  for_each tidy_list (λ item,
    item_exists ← Exists item;
    if (item_exists : bool)
    then
      try_except
        (Delete_dataset item;;
         message (item +:+ " deleted"))
        is_Exception
        (λ e, message ("~ Unable to delete " +:+ item +:+ ". " +:+ str_exn e))
    else ret tt).

Definition tidy_start : M (list string) :=
  let tidy_list := [shape_fc self; poly_fc self; cpad_fc self] in
  tidy_delete_old_files tidy_list;;
  ret tidy_list.

Definition print_locked_files : M unit :=
  let lockfiles :=
    List.filter (λ item, PyStr.endswith item ".lock") workspace_files in
  message (pretty (length lockfiles) +:+ " locked files in " +:+ MAIN_PATH);;
  for_each lockfiles (λ locked_file,
    message ("~ Locked file: " +:+ locked_file)).

(** [time.sleep(seconds)] *)
Definition sleep (seconds : Z) : M unit :=
  λ w, (Return tt, World (w_gdb w) (w_input w) (w_log w) (w_now w + seconds)).

(** The attribute table of a shapefile of the input folder, as arcpy
    reads it. *)
Definition shapefile_table (d : list (string * file)) (item : string)
  : option feature_class :=
  match f_content <$> lookup_file item d with
  | Some (Shape fields rows) => Some (FC fields rows)
  | _ => None
  end.

(** A row of a table with fields [src_fields], laid out for a table with
    fields [dst_fields]: cells go by field name, a field the source does
    not have is null. *)
Definition convert_row (src_fields dst_fields : list string) (r : row) : row :=
  map (λ f, match PyStr.index f src_fields with
            | Some k => cell k r
            | None => Null
            end) dst_fields.

(** [arcpy.Append_management(os.path.join(self.shape_input, item), target,
    "NO_TEST")] *)
Definition Append_shapefile (item target : string) : M unit :=
  λ w, match shapefile_table (w_input w) item, w_gdb w !! target with
       | Some src, Some dst =>
           (Return tt,
            set_gdb (<[target := FC (fc_fields dst)
                                    (fc_rows dst ++
                                     map (convert_row (fc_fields src) (fc_fields dst))
                                         (fc_rows src))]>
                       (w_gdb w)) w)
       | _, _ =>
           (Raise (ExecuteError "ERROR 000732: Dataset does not exist or is not supported"),
            w)
       end.

(** The fields of a merge: every field of every input, each name once,
    in order of first appearance. *)
Fixpoint union_fields (acc new : list string) : list string :=
  match new with
  | [] => acc
  | f :: rest =>
      union_fields (if bool_decide (f ∈ acc) then acc else acc ++ [f]) rest
  end.

Definition merged_table (tables : list feature_class) : feature_class :=
  let fields := foldl union_fields [] (map fc_fields tables) in
  FC fields
     (concat (map (λ t, map (convert_row (fc_fields t) fields) (fc_rows t)) tables)).

(** [arcpy.Merge_management([... for item in items], output)]: needs at
    least one input, fails on an input it cannot read, and writes the
    output anew ([env.overwriteOutput] is set). *)
Definition Merge_management (items : list string) (output : string) : M unit :=
  λ w, match items, mapM (shapefile_table (w_input w)) items with
       | _ :: _, Some tables =>
           match Merge_management_fails items with
           | Some msg => (Raise (ExecuteError msg), w)
           | None => (Return tt, set_gdb (<[output := merged_table tables]> (w_gdb w)) w)
           end
       | [], _ => (Raise (ExecuteError "ERROR 000735: Input Datasets: Value is required"), w)
       | _, None =>
           (Raise (ExecuteError "ERROR 000732: Input Datasets: Dataset does not exist or is not supported"),
            w)
       end.

Definition process_new_shapes (verified_shapes : list string) : M unit :=
  message "Beginning processing of new shape data";;
  sleep 60;;
  output_exists ← Exists (shape_fc self);
  (if (output_exists : bool)
   then
     for_each verified_shapes (λ item,
       try_except
         (Append_shapefile item (shape_fc self);;
          (* [.format(item, shape_fc)]: the bare name [shape_fc] is not
             bound *)
          target_name ← (raise (NameError "shape_fc") : M string);
          message (item +:+ " appended to " +:+ target_name))
         is_Exception
         (λ e,
            message ("~ Unable to append " +:+ item +:+
                     ". Also, why am I appending " +:+
                     "rather than merging? Something's up. " +:+ str_exn e);;
            raise e))
   else
     try_except
       (Merge_management verified_shapes (shape_fc self);;
        message ("Successfully merged shapes into " +:+ shape_fc self))
       is_Exception
       (λ e,
          print_locked_files;;
          message ("~ Unable to merge shapes into " +:+ shape_fc self +:+
                   ". " +:+ str_exn e);;
          raise e));;
  message "Processing of new shape data complete".

(** [arcpy.TableToTable_conversion(self.cpad_view_path, MAIN_PATH, name)] *)
Definition TableToTable_conversion (name : string) : M unit :=
  λ w, match cpad_view with
       | Some table => (Return tt, set_gdb (<[name := table]> (w_gdb w)) w)
       | None => (Raise (ExecuteError "ERROR 000732: Input Rows: Dataset does not exist or is not supported"), w)
       end.

Definition import_CPAD_table : M unit :=
  message "Beginning import of CPAD table";;
  try_except
    (TableToTable_conversion (cpad_fc self);;
     message (cpad_fc self +:+ " created"))
    is_Exception
    (λ e,
       message ("~ Unable to create " +:+ cpad_fc self +:+ ". " +:+ str_exn e);;
       raise e).

Definition clean_temp_fc : M unit :=
  let temp_fc := poly_fc self +:+ "_temp" in
  temp_exists ← Exists temp_fc;
  if (temp_exists : bool)
  then
    try_except (Delete_dataset temp_fc) is_Exception
      (λ e,
         message ("~ Unable to delete " +:+ temp_fc +:+ ". Please Check." +:+ "
" +:+ str_exn e);;
         raise e)
  else ret tt.

Definition layer_join_and_copy : M unit :=
  clean_temp_fc;;
  message "Beginning Layer join & copy";;
  create_new_layer;;
  perform_join;;
  create_final_fc.

(** The line of fifty stars the work flow frames its messages with. *)
Definition stars : string := "**************************************************".

Definition wrapper : M unit :=
  message stars;;
  message (PyStr.center ("Starting " +:+ feature_class_prefix self) 50);;
  message stars;;
  tidy_list ← tidy_start;
  verified_shapes ← verify_shapes shape_input (shape_key_field self);
  (match verified_shapes with
   | _ :: _ =>
       try_except
         (process_new_shapes verified_shapes;;
          import_CPAD_table;;
          layer_join_and_copy;;
          process_updates;;
          finally_rename_shapes verified_shapes)
         is_Exception
         (λ e, message ("~ Unable to update " +:+ live_fc self +:+ ". " +:+
                        str_exn e))
   | [] =>
       message stars;;
       message (PyStr.center "No records found for processing" 50);;
       message stars
   end);;
  retire_old_files;;
  cpad_exists ← Exists (cpad_fc self);
  (if negb cpad_exists
   then
     if negb (bool_decide (feature_class_prefix self = "Cases"))
     then import_CPAD_table
     else ret tt
   else ret tt);;
  message stars;;
  message (PyStr.center (feature_class_prefix self +:+ " completed") 50);;
  message stars.

Ltac forget_store :=
  try clear Delete_management_fails; try clear deleteRow_fails;
  try clear utcoffset; try clear localtime_fails;
  try clear Delete_dataset_fails;
  try clear workspace_files; try clear Merge_management_fails;
  try clear cpad_view; try clear create_new_layer; try clear perform_join;
  try clear create_final_fc.

(** ** Definitions used to state the properties *)

(** [logs w lines] is [w] with [lines] added to the log and nothing
    else changed. *)
Definition logs (w : world) (lines : list string) : world :=
  set_log (w_log w ++ lines) w.

(** [locked_by names item]: the test [has_lock_file] makes, some name of
    the folder starting with the item's name minus its last four
    characters and ending with ["lock"]. *)
Definition locked_by (names : list string) (item : string) : bool :=
  existsb (λ name, PyStr.startswith name (PyStr.drop_last 4 item) &&
                   PyStr.endswith name "lock") names.

Definition eligible (names : list string) (item : string) : bool :=
  PyStr.endswith item ".shp" && negb (PyStr.startswith item "__") &&
  negb (locked_by names item).

(** The names the discovery step selects from a folder. *)
Definition discovered (w : world) : list string :=
  List.filter (eligible (w_input w).*1) (w_input w).*1.

(** The cell the verifier looks at in a shapefile row. *)
Definition key_cell (k : nat) (r : row) : value := default Null (r !! k).

Definition is_text (v : value) : bool :=
  match v with Text _ => true | _ => false end.

(** Every row of the table has a text in column [k]. *)
Definition text_keys (k : nat) (rows : list row) : bool :=
  forallb (λ r, is_text (key_cell k r)) rows.

(** The rows before the first one whose cell in column [k] is no text. *)
Fixpoint text_prefix (k : nat) (rows : list row) : list row :=
  match rows with
  | [] => []
  | r :: rest => if is_text (key_cell k r) then r :: text_prefix k rest else []
  end.

(** The test [len(row[0]) > 1] applied to a stored row with a text key:
    the key has more than one character. *)
Definition counted_valid (k : nat) (r : row) : bool :=
  match key_cell k r with
  | Text s => bool_decide (1 < PyStr.len s)
  | _ => false
  end.

Definition count_valid (k : nat) (rows : list row) : nat :=
  length (List.filter (counted_valid k) rows).

Definition count_invalid (k : nat) (rows : list row) : nat :=
  length (List.filter (λ r, negb (counted_valid k r)) rows).

Definition invalid_lines (k : nat) (rows : list row) : list string :=
  map (λ r, "@ '" +:+ str_value (key_cell k r) +:+ "' is niot a valid " +:+
            shape_key_field self +:+ ". Removed row")
      (List.filter (λ r, negb (counted_valid k r)) rows).

(** What [verify_shapes] decides for one item of its input list, when
    it gets past the item. *)
Inductive verdict : Type := Good | Dud | Skipped.

Definition is_good (v : verdict) : bool :=
  match v with Good => true | _ => false end.
Definition is_dud (v : verdict) : bool :=
  match v with Dud => true | _ => false end.

(** The last line logged for a shapefile whose rows were counted. *)
Definition report_line (item : string) (valid_rows invalid_rows : nat) : string :=
  if bool_decide (valid_rows ≤ 0)
  then "~ '" +:+ item +:+ "' has no valid rows. Added to dud list"
  else if bool_decide (0 < invalid_rows)
  then "Verified '" +:+ item +:+ "' with " +:+ pretty valid_rows +:+
       " valid and " +:+ pretty invalid_rows +:+ " invalid shape(s)"
  else "Completed verifying '" +:+ item +:+ "' with " +:+
       pretty valid_rows +:+ " valid shape(s)".

(** The verdict on an item and the lines logged on the way, read off the
    folder. *)
Definition verify_item (key_arg : string) (d : list (string * file))
    (item : string) : verdict * list string :=
  match f_content <$> lookup_file item d with
  | Some (Shape fields rows) =>
      if bool_decide (fields = [])
      then (Dud, ["~ " +:+ item +:+ " has no fields. Added to dud list"])
      else if negb (bool_decide (key_arg ∈ fields))
      then (Dud, ["~ Field '" +:+ shape_key_field self +:+
                  "' not found. Added to dud list"])
      else
        match PyStr.index (shape_key_field self) fields with
        | Some k =>
            (if bool_decide (count_valid k rows ≤ 0) then Dud else Good,
             invalid_lines k rows ++
             [report_line item (count_valid k rows) (count_invalid k rows)])
        | None =>
            (Skipped, ["~ Unable to attempt verification on " +:+ item +:+
                       ". " +:+ "cannot find field"])
        end
  | _ =>
      (Skipped, ["~ Unable to attempt verification on " +:+ item +:+
                 ". " +:+ "cannot open dataset"])
  end.

Definition verdict_of (key_arg : string) (w : world) (item : string) : verdict :=
  (verify_item key_arg (w_input w) item).1.

(** The key cells [verify_shapes] would put to [verify_key_field] for an
    item are all texts: true of an item whose rows are not looked at. *)
Definition keys_are_text (key_arg : string) (d : list (string * file))
    (item : string) : bool :=
  match f_content <$> lookup_file item d with
  | Some (Shape fields rows) =>
      if bool_decide (fields = []) then true
      else if negb (bool_decide (key_arg ∈ fields)) then true
      else
        match PyStr.index (shape_key_field self) fields with
        | Some k => text_keys k rows
        | None => true
        end
  | _ => true
  end.

(** Every key cell that [verify_shapes] would read in the folder is a
    text. *)
Definition text_keyed (key_arg : string) (w : world) : bool :=
  forallb (keys_are_text key_arg (w_input w)) (discovered w).

(** Age in days as [retire_old_files] computes it: the difference of the
    two local calendar dates. *)
Definition age_days (w : world) (f : file) : Z :=
  (local_day (w_now w) - local_day (f_mtime f))%Z.

(** An instant that [datetime.date.fromtimestamp] turns into a date. *)
Definition representable (t : Z) : bool :=
  bool_decide (localtime_fails t = None) &&
  bool_decide (date_min_day ≤ local_day t ≤ date_max_day)%Z.

(** A name carrying the processed marker and the shapefile extension. *)
Definition processed (name : string) : bool :=
  PyStr.startswith name "__" && PyStr.endswith name ".shp".

(** The clock and the last-modified time of every processed shapefile
    of the folder can be turned into dates. *)
Definition dates_ok (w : world) : bool :=
  representable (w_now w) &&
  forallb (λ e, negb (processed e.1) || representable (f_mtime e.2)) (w_input w).

(** A processed shapefile whose age has reached 30 days. *)
Definition expired (w : world) (e : string * file) : bool :=
  PyStr.startswith e.1 "__" && PyStr.endswith e.1 ".shp" &&
  bool_decide (30 ≤ age_days w e.2)%Z.

(** An expired file that the store lets go. *)
Definition retired (w : world) (e : string * file) : bool :=
  expired w e && bool_decide (Delete_management_fails e.1 = None).

Definition deleted_line (w : world) (e : string * file) : string :=
  e.1 +:+ " deleted as " +:+ pretty (age_days w e.2) +:+ " days old".

Definition undeleted_line (w : world) (e : string * file) (msg : string) : string :=
  "~ Unable to delete " +:+ e.1 +:+ ". " +:+ pretty (age_days w e.2) +:+
  " days old." +:+ "
" +:+ msg.

Definition retire_lines (w : world) (e : string * file) : list string :=
  if expired w e
  then match Delete_management_fails e.1 with
       | None => [deleted_line w e]
       | Some msg => [undeleted_line w e msg]
       end
  else [].

(** The key cells of a feature class, by the name of the key field. *)
Definition key_column (fc : feature_class) : list value :=
  match PyStr.index (shape_key_field self) (fc_fields fc) with
  | Some k => map (cell k) (fc_rows fc)
  | None => []
  end.


(** The key values appearing in the candidate set. *)
Definition candidate_keys (w : world) : list value :=
  from_option key_column [] (w_gdb w !! poly_fc self).

(** The rows of the live feature class. *)
Definition live_rows (w : world) : list row :=
  from_option fc_rows [] (w_gdb w !! live_fc self).

(** The key of a row of a feature class with the given fields. *)
Definition row_key (fields : list string) (r : row) : value :=
  match PyStr.index (shape_key_field self) fields with
  | Some k => cell k r
  | None => Null
  end.

(** A row whose key is none of the keys [K]. *)
Definition untouched (K : list value) (fields : list string) (r : row) : bool :=
  negb (bool_decide (row_key fields r ∈ K)).


(** Lines 387-401 of [process_updates]: [get_index], the scan of the
    candidate rows and the bulk append. *)
Definition scan_and_append (poly_names : list string)
    (check_list : list value) (number_to_process : nat) : M unit :=
  polyindex ← get_index;
  '(replacement_records, new_records) ←
    scan_candidates poly_names polyindex check_list;
  append_to_live number_to_process new_records replacement_records.

(** What a run of the scan may do to the live rows [rows0]: the rows
    standing are a sublist of [rows0] that still holds every row whose
    key is not in [K]. *)
Definition frame_inv (K : list value) (fields : list string)
    (rows0 : list row) (w' : world) : Prop :=
  ∃ kept,
    w_gdb w' !! live_fc self = Some (FC fields kept) ∧
    kept `sublist_of` rows0 ∧
    List.filter (untouched K fields) kept = List.filter (untouched K fields) rows0.

(** Where a run of the scan and the append leaves the live rows
    [rows0]: what stands of [rows0], followed by what was added. *)
Definition frame_result (K : list value) (fields : list string)
    (rows0 : list row) (w' : world) : Prop :=
  ∃ kept added,
    w_gdb w' !! live_fc self = Some (FC fields (kept ++ added)) ∧
    kept `sublist_of` rows0 ∧
    List.filter (untouched K fields) kept = List.filter (untouched K fields) rows0 ∧
    ∀ r, r ∈ rows0 → r ∉ kept → row_key fields r ∈ K.

(** ** Reading the outcome of a run *)

Lemma logs_nil w : logs w [] = w.
Proof. destruct w; unfold logs, set_log; simpl. by rewrite app_nil_r. Qed.

Lemma logs_logs w l1 l2 : logs (logs w l1) l2 = logs w (l1 ++ l2).
Proof. unfold logs, set_log; simpl. by rewrite app_assoc. Qed.

Lemma logs_input w l : w_input (logs w l) = w_input w.
Proof. done. Qed.

Lemma logs_gdb w l : w_gdb (logs w l) = w_gdb w.
Proof. done. Qed.

Lemma logs_now w l : w_now (logs w l) = w_now w.
Proof. done. Qed.

Lemma logs_log w l : w_log (logs w l) = w_log w ++ l.
Proof. done. Qed.

Lemma message_logs msg w : message msg w = (Return tt, logs w [msg]).
Proof. done. Qed.

Lemma bind_Return {A B} (m : M A) (k : A → M B) w a w' :
  m w = (Return a, w') → (m ≫= k) w = k a w'.
Proof. intros H. unfold mbind, M_bind. by rewrite H. Qed.

Lemma bind_Raise {A B} (m : M A) (k : A → M B) w e w' :
  m w = (Raise e, w') → (m ≫= k) w = (Raise e, w').
Proof. intros H. unfold mbind, M_bind. by rewrite H. Qed.

Lemma index_Some x l k : PyStr.index x l = Some k → l !! k = Some x.
Proof.
  revert k. induction l as [|y l IH]; intros k; simpl; [done|].
  case_decide as Hy.
  - intros [= <-]. by subst.
  - destruct (PyStr.index x l) as [j|] eqn:E; simpl; [|done].
    intros [= <-]. by apply IH.
Qed.

Lemma index_is_Some x l : x ∈ l ↔ is_Some (PyStr.index x l).
Proof.
  induction l as [|y l IH]; simpl.
  - split; [by intros ?%elem_of_nil | by intros [? ?]].
  - case_decide as Hy.
    + subst. split; [eauto | intros _; left].
    + rewrite elem_of_cons, IH. split.
      * intros [->|[j Hj]]; [done|]. rewrite Hj. eauto.
      * intros [j Hj]. right.
        destruct (PyStr.index x l); [eauto | done].
Qed.

Lemma index_None x l : x ∉ l ↔ PyStr.index x l = None.
Proof.
  rewrite index_is_Some, <- eq_None_not_Some. done.
Qed.

(** *** Discovery *)

Lemma has_lock_file_spec item w :
  ∃ lines, has_lock_file item w =
           (Return (locked_by (w_input w).*1 item), logs w lines).
Proof.
  unfold has_lock_file, locked_by, os_listdir, mbind, M_bind.
  set (p := λ name : string, _ && _).
  assert (Hp : ∀ l, existsb p l = match List.filter p l with [] => false | _ => true end).
  { induction l as [|x l IHl]; simpl; [done|].
    destruct (p x); simpl; [done | apply IHl]. }
  rewrite Hp. destruct (List.filter p _).
  - exists []. by rewrite logs_nil.
  - eexists. rewrite message_logs. reflexivity.
Qed.

Lemma comprehension_discovery l w :
  ∃ lines,
    comprehension l (λ item,
      if PyStr.endswith item ".shp" && negb (PyStr.startswith item "__")
      then locked ← has_lock_file item; ret (negb locked)
      else ret false) w
    = (Return (List.filter (eligible (w_input w).*1) l), logs w lines).
Proof.
  revert w.
  induction l as [|x l IH]; intros w; cbn [comprehension List.filter].
  - exists []. by rewrite logs_nil.
  - unfold eligible at 1.
    destruct (PyStr.endswith x ".shp" && negb (PyStr.startswith x "__")) eqn:E.
    + destruct (has_lock_file_spec x w) as [l1 H1].
      destruct (IH (logs w l1)) as [l2 H2]. rewrite logs_input in H2.
      exists (l1 ++ l2).
      erewrite bind_Return; [|erewrite bind_Return; [|exact H1]; reflexivity].
      erewrite bind_Return; [|exact H2].
      rewrite logs_logs. cbn. by destruct (locked_by _ x).
    + destruct (IH w) as [l2 H2]. exists l2.
      erewrite bind_Return; [|reflexivity].
      erewrite bind_Return; [|exact H2]. done.
Qed.

Lemma create_list_of_shapes_to_verify_spec w :
  ∃ lines, create_list_of_shapes_to_verify w =
           (Return (discovered w), logs w lines).
Proof.
  unfold create_list_of_shapes_to_verify, discovered.
  destruct (comprehension_discovery (w_input w).*1 w) as [lines H].
  exists lines. erewrite bind_Return; [exact H | reflexivity].
Qed.

Lemma discovered_elem w item :
  item ∈ discovered w ↔
  item ∈ (w_input w).*1 ∧ PyStr.endswith item ".shp" = true ∧
  PyStr.startswith item "__" = false ∧ locked_by (w_input w).*1 item = false.
Proof.
  unfold discovered, eligible.
  rewrite list_elem_of_In, filter_In, <- list_elem_of_In.
  rewrite !andb_true_iff, !negb_true_iff. forget_store; tauto.
Qed.

Lemma locked_by_iff names item :
  locked_by names item = true ↔
  ∃ name, name ∈ names ∧
          PyStr.startswith name (PyStr.drop_last 4 item) = true ∧
          PyStr.endswith name "lock" = true.
Proof.
  unfold locked_by. rewrite existsb_exists. split.
  - intros (name & Hin & H). apply andb_true_iff in H.
    exists name. by rewrite list_elem_of_In.
  - intros (name & Hin & H1 & H2). exists name.
    rewrite <- list_elem_of_In, H1, H2. done.
Qed.

(** *** Verification *)

Lemma try_except_Return {A} (m : M A) c h w a w' :
  m w = (Return a, w') → try_except m c h w = (Return a, w').
Proof. intros H. unfold try_except. by rewrite H. Qed.

Lemma try_except_caught {A} (m : M A) c h w e w' :
  m w = (Raise e, w') → c e = true → try_except m c h w = h e w'.
Proof. intros H Hc. unfold try_except. by rewrite H, Hc. Qed.

Lemma try_except_passed {A} (m : M A) c h w e w' :
  m w = (Raise e, w') → c e = false → try_except m c h w = (Raise e, w').
Proof. intros H Hc. unfold try_except. by rewrite H, Hc. Qed.

Lemma set_input_same w : set_input (w_input w) w = w.
Proof. by destruct w. Qed.

Lemma write_file_id name f d :
  lookup_file name d = Some f → write_file name f d = d.
Proof.
  induction d as [|[n g] d IH]; simpl; [done|].
  case_decide; [by intros [= ->] | intros Hl; by rewrite IH].
Qed.

Lemma cursor_row_spec item k i w t fields rows r :
  lookup_file item (w_input w) = Some (File t (Shape fields rows)) →
  rows !! i = Some r →
  cursor_row item k i w = (Return [key_cell k r], w).
Proof. intros H1 H2. unfold cursor_row. by rewrite H1, H2. Qed.

(** Writing the cursor row back stores the cell it was read from. *)
Lemma updateRow_same item k i w t fields rows r :
  lookup_file item (w_input w) = Some (File t (Shape fields rows)) →
  rows !! i = Some r →
  updateRow item k i [key_cell k r] w = (Return tt, w).
Proof.
  intros H1 H2. unfold updateRow. rewrite H1, H2. simpl.
  assert (Hr : <[k := key_cell k r]> r = r).
  { unfold key_cell. destruct (r !! k) as [c|] eqn:E; simpl.
    - by apply list_insert_id.
    - apply list_insert_ge. by apply lookup_ge_None. }
  rewrite Hr, (list_insert_id rows i r H2), (write_file_id _ _ _ H1).
  by rewrite set_input_same.
Qed.

Lemma verify_row_text item k i w t fields rows r s v iv :
  lookup_file item (w_input w) = Some (File t (Shape fields rows)) →
  rows !! i = Some r →
  key_cell k r = Text s →
  verify_row item k i (v, iv) w
  = (Return (if counted_valid k r then (S v, iv) else (v, S iv)),
     logs w (if counted_valid k r then []
             else ["@ '" +:+ s +:+ "' is niot a valid " +:+
                   shape_key_field self +:+ ". Removed row"])).
Proof.
  intros Hf Hr Hs. unfold verify_row, counted_valid. rewrite Hs.
  erewrite bind_Return; [|eapply cursor_row_spec; eauto].
  cbn [lookup list_lookup default]. unfold id. rewrite Hs.
  erewrite bind_Return; [|reflexivity].
  erewrite bind_Return; [|rewrite <- Hs; eapply updateRow_same; eauto].
  erewrite bind_Return; [|reflexivity].
  case_bool_decide.
  - by rewrite logs_nil.
  - erewrite bind_Return; [|apply message_logs]. reflexivity.
Qed.

Lemma verify_row_other item k i w t fields rows r v iv :
  lookup_file item (w_input w) = Some (File t (Shape fields rows)) →
  rows !! i = Some r →
  is_text (key_cell k r) = false →
  verify_row item k i (v, iv) w
  = (Raise (AttributeError ("'" +:+ type_name (key_cell k r) +:+
                            "' object has no attribute 'strip'")), w).
Proof.
  intros Hf Hr Hs. unfold verify_row.
  erewrite bind_Return; [|eapply cursor_row_spec; eauto].
  cbn [lookup list_lookup default]. unfold id.
  erewrite bind_Raise; [reflexivity|].
  by destruct (key_cell k r).
Qed.

Lemma verify_rows_spec item k w t fields pre rest v iv :
  lookup_file item (w_input w) = Some (File t (Shape fields (pre ++ rest))) →
  text_keys k rest = true →
  for_fold (seq (length pre) (length rest)) (v, iv) (verify_row item k) w
  = (Return (v + count_valid k rest, iv + count_invalid k rest),
     logs w (invalid_lines k rest)).
Proof.
  revert pre v iv w.
  induction rest as [|r rest IH]; intros pre v iv w Hf Htext.
  - cbn. unfold count_valid, count_invalid, invalid_lines. cbn.
    by rewrite !Nat.add_0_r, logs_nil.
  - cbn [length seq for_fold].
    cbn [text_keys forallb] in Htext. apply andb_true_iff in Htext as [Hr0 Htext].
    destruct (key_cell k r) as [s| |] eqn:Hs; try done.
    assert (Hr : (pre ++ r :: rest) !! length pre = Some r)
      by apply list_lookup_middle, eq_refl.
    specialize (IH (pre ++ [r])).
    rewrite length_app, Nat.add_1_r in IH.
    erewrite bind_Return; [|by eapply verify_row_text].
    unfold count_valid, count_invalid, invalid_lines.
    cbn [List.filter]. fold (count_valid k rest) (count_invalid k rest).
    destruct (counted_valid k r) eqn:Ev; cbn [negb map length]; cbv iota.
    + rewrite logs_nil.
      rewrite IH by (by rewrite <- ?app_assoc).
      by rewrite Nat.add_succ_r.
    + rewrite IH by (by rewrite ?logs_input, <- ?app_assoc).
      rewrite logs_logs, Nat.add_succ_r, Hs. done.
Qed.

(** The loop on a table with a key cell that is no text: the rows before
    it are counted, then [strip] fails. *)
Lemma verify_rows_crash item k w t fields pre rest v iv :
  lookup_file item (w_input w) = Some (File t (Shape fields (pre ++ rest))) →
  text_keys k rest = false →
  ∃ msg,
    for_fold (seq (length pre) (length rest)) (v, iv) (verify_row item k) w
    = (Raise (AttributeError msg), logs w (invalid_lines k (text_prefix k rest))).
Proof.
  revert pre v iv w.
  induction rest as [|r rest IH]; intros pre v iv w Hf Htext; [done|].
  cbn [length seq for_fold text_prefix].
  assert (Hr : (pre ++ r :: rest) !! length pre = Some r)
    by apply list_lookup_middle, eq_refl.
  destruct (is_text (key_cell k r)) eqn:Hr0.
  - cbn [text_keys forallb] in Htext. rewrite Hr0 in Htext. cbn [andb] in Htext.
    destruct (key_cell k r) as [s| |] eqn:Hs; try done.
    specialize (IH (pre ++ [r])).
    rewrite length_app, Nat.add_1_r in IH.
    erewrite bind_Return; [|by eapply verify_row_text].
    unfold invalid_lines. cbn [List.filter].
    destruct (counted_valid k r) eqn:Ev; cbn [negb map]; cbv iota.
    + rewrite logs_nil.
      destruct (IH (S v) iv w) as [msg Hrun]; [by rewrite <- app_assoc | done |].
      exists msg. rewrite Hrun. done.
    + destruct (IH v (S iv)
                  (logs w ["@ '" +:+ s +:+ "' is niot a valid " +:+
                           shape_key_field self +:+ ". Removed row"]))
        as [msg Hrun]; [by rewrite logs_input, <- app_assoc | done |].
      exists msg. rewrite Hrun, logs_logs, Hs. done.
  - eexists. erewrite bind_Raise; [|by eapply verify_row_other].
    unfold invalid_lines. cbn. by rewrite logs_nil.
Qed.

(** [verify_key_field] on a readable shapefile that has the key field
    and whose key cells are texts: the counts follow the stored cells as
    they are, and the folder is left as it was. *)
Lemma verify_key_field_spec item w t fields rows k :
  lookup_file item (w_input w) = Some (File t (Shape fields rows)) →
  PyStr.index (shape_key_field self) fields = Some k →
  text_keys k rows = true →
  verify_key_field item w
  = (Return (count_valid k rows, count_invalid k rows),
     logs w (invalid_lines k rows)).
Proof.
  intros Hf Hk Htext. unfold verify_key_field.
  erewrite bind_Return.
  2:{ unfold UpdateCursor_shape. rewrite Hf. simpl. rewrite Hk. reflexivity. }
  cbv beta iota.
  exact (verify_rows_spec item k w t fields [] rows 0 0 Hf Htext).
Qed.

(** On a key cell that is a number or null [verify_key_field] raises
    [AttributeError], after the rows before that cell. *)
Lemma verify_key_field_crash item w t fields rows k :
  lookup_file item (w_input w) = Some (File t (Shape fields rows)) →
  PyStr.index (shape_key_field self) fields = Some k →
  text_keys k rows = false →
  ∃ msg,
    verify_key_field item w
    = (Raise (AttributeError msg), logs w (invalid_lines k (text_prefix k rows))).
Proof.
  intros Hf Hk Htext. unfold verify_key_field.
  destruct (verify_rows_crash item k w t fields [] rows 0 0 Hf Htext) as [msg Hrun].
  exists msg.
  erewrite bind_Return.
  2:{ unfold UpdateCursor_shape. rewrite Hf. simpl. rewrite Hk. reflexivity. }
  exact Hrun.
Qed.

Lemma verify_key_field_no_field item w t fields rows :
  lookup_file item (w_input w) = Some (File t (Shape fields rows)) →
  PyStr.index (shape_key_field self) fields = None →
  verify_key_field item w = (Raise (RuntimeError "cannot find field"), w).
Proof.
  intros Hf Hk. unfold verify_key_field.
  erewrite bind_Raise; [done|].
  unfold UpdateCursor_shape. rewrite Hf. simpl. by rewrite Hk.
Qed.

Lemma verify_one_spec key_arg item dud good w :
  keys_are_text key_arg (w_input w) item = true →
  verify_one key_arg item (dud, good) w
  = (Return
       (dud ++ (if is_dud (verdict_of key_arg w item) then [item] else []),
        good ++ (if is_good (verdict_of key_arg w item) then [item] else [])),
     logs w (verify_item key_arg (w_input w) item).2).
Proof.
  unfold keys_are_text, verdict_of, verify_item, verify_one.
  destruct (lookup_file item (w_input w)) as [[t [fields rows|]]|] eqn:Hf;
    cbn [fmap option_fmap option_map f_content].
  - (* a readable shapefile *)
    case_bool_decide as Hnil.
    { intros _. cbn [fst snd is_dud is_good]. rewrite app_nil_r.
      eapply try_except_Return. erewrite bind_Return.
      2:{ unfold ListFields_shape. by rewrite Hf. }
      cbv beta. rewrite bool_decide_eq_true_2 by done.
      erewrite bind_Return; [|apply message_logs]. reflexivity. }
    case_bool_decide as Hkey; cbn [negb].
    2:{ intros _. cbn [fst snd is_dud is_good]. rewrite app_nil_r.
        eapply try_except_Return. erewrite bind_Return.
        2:{ unfold ListFields_shape. by rewrite Hf. }
        cbv beta. rewrite bool_decide_eq_false_2 by done.
        rewrite bool_decide_eq_false_2 by done. cbn [negb].
        erewrite bind_Return; [|apply message_logs]. reflexivity. }
    destruct (PyStr.index (shape_key_field self) fields) as [k|] eqn:Hk.
    + intros Htext. cbn [fst snd].
      eapply try_except_Return. erewrite bind_Return.
      2:{ unfold ListFields_shape. by rewrite Hf. }
      cbv beta. rewrite bool_decide_eq_false_2 by done.
      rewrite bool_decide_eq_true_2 by done. cbn [negb].
      erewrite bind_Return; [|by eapply verify_key_field_spec].
      cbv beta iota. unfold report_line.
      case_bool_decide; cbn [is_dud is_good].
      * erewrite bind_Return; [|apply message_logs].
        by rewrite logs_logs, app_nil_r.
      * case_bool_decide;
          (erewrite bind_Return; [|apply message_logs]);
          by rewrite logs_logs, app_nil_r.
    + intros _. cbn [fst snd is_dud is_good]. rewrite !app_nil_r.
      erewrite try_except_caught; cycle 1;
        [ erewrite bind_Return; [|unfold ListFields_shape; by rewrite Hf];
          cbv beta; rewrite bool_decide_eq_false_2 by done;
          rewrite bool_decide_eq_true_2 by done; cbn [negb];
          erewrite bind_Raise; [reflexivity|];
          by eapply verify_key_field_no_field
        | reflexivity
        | erewrite bind_Return; [|apply message_logs]; reflexivity ].
  - (* not readable *)
    intros _. cbn [fst snd is_dud is_good]. rewrite !app_nil_r.
    erewrite try_except_caught; cycle 1;
      [ erewrite bind_Raise; [reflexivity|];
        unfold ListFields_shape; by rewrite Hf
      | reflexivity
      | erewrite bind_Return; [|apply message_logs]; reflexivity ].
  - (* no such file *)
    intros _. cbn [fst snd is_dud is_good]. rewrite !app_nil_r.
    erewrite try_except_caught; cycle 1;
      [ erewrite bind_Raise; [reflexivity|];
        unfold ListFields_shape; by rewrite Hf
      | reflexivity
      | erewrite bind_Return; [|apply message_logs]; reflexivity ].
Qed.

(** An item with a key cell that is no text: the [AttributeError] is not
    a [RuntimeError], so it leaves the loop of [verify_shapes]. *)
Lemma verify_one_crash key_arg item dud good w :
  keys_are_text key_arg (w_input w) item = false →
  ∃ msg lines,
    verify_one key_arg item (dud, good) w
    = (Raise (AttributeError msg), logs w lines).
Proof.
  unfold keys_are_text, verify_one.
  destruct (lookup_file item (w_input w)) as [[t [fields rows|]]|] eqn:Hf;
    cbn [fmap option_fmap option_map f_content]; try done.
  case_bool_decide as Hnil; [done|].
  case_bool_decide as Hkey; cbn [negb]; [|done].
  destruct (PyStr.index (shape_key_field self) fields) as [k|] eqn:Hk; [|done].
  intros Htext.
  destruct (verify_key_field_crash item w t fields rows k Hf Hk Htext) as [msg Hrun].
  exists msg. eexists.
  eapply try_except_passed; [|reflexivity].
  erewrite bind_Return; [|unfold ListFields_shape; by rewrite Hf].
  cbv beta. rewrite bool_decide_eq_false_2 by done.
  rewrite bool_decide_eq_true_2 by done. cbn [negb].
  erewrite bind_Raise; [reflexivity | exact Hrun].
Qed.

Lemma verify_fold_spec key_arg l dud good w :
  forallb (keys_are_text key_arg (w_input w)) l = true →
  for_fold l (dud, good) (verify_one key_arg) w
  = (Return (dud ++ List.filter (λ i, is_dud (verdict_of key_arg w i)) l,
             good ++ List.filter (λ i, is_good (verdict_of key_arg w i)) l),
     logs w (flat_map (λ i, (verify_item key_arg (w_input w) i).2) l)).
Proof.
  revert dud good w.
  induction l as [|item l IH]; intros dud good w Htext.
  - cbn. by rewrite !app_nil_r, logs_nil.
  - cbn [for_fold List.filter flat_map].
    cbn [forallb] in Htext. apply andb_true_iff in Htext as [Hitem Htext].
    erewrite bind_Return; [|by apply verify_one_spec].
    rewrite IH by (by rewrite logs_input).
    rewrite logs_logs. unfold verdict_of. rewrite logs_input.
    rewrite <- !app_assoc.
    by destruct (verify_item key_arg (w_input w) item).1.
Qed.

Lemma verify_fold_crash key_arg l dud good w :
  forallb (keys_are_text key_arg (w_input w)) l = false →
  ∃ msg lines,
    for_fold l (dud, good) (verify_one key_arg) w
    = (Raise (AttributeError msg), logs w lines).
Proof.
  revert dud good w.
  induction l as [|item l IH]; intros dud good w Htext; [done|].
  cbn [for_fold]. cbn [forallb] in Htext.
  destruct (keys_are_text key_arg (w_input w) item) eqn:Hitem.
  - cbn [andb] in Htext.
    erewrite bind_Return; [|by apply verify_one_spec].
    destruct (IH (dud ++ (if is_dud (verdict_of key_arg w item) then [item] else []))
                 (good ++ (if is_good (verdict_of key_arg w item) then [item] else []))
                 (logs w (verify_item key_arg (w_input w) item).2))
      as (msg & lines & Hrun); [by rewrite logs_input|].
    exists msg. eexists. rewrite Hrun, logs_logs. reflexivity.
  - destruct (verify_one_crash key_arg item dud good w Hitem)
      as (msg & lines & Hrun).
    exists msg, lines. erewrite bind_Raise; [reflexivity | exact Hrun].
Qed.

Lemma verify_loop_spec key_arg l w :
  forallb (keys_are_text key_arg (w_input w)) l = true →
  verify_loop key_arg l w
  = (Return (List.filter (λ i, is_dud (verdict_of key_arg w i)) l,
             List.filter (λ i, is_good (verdict_of key_arg w i)) l),
     logs w (flat_map (λ i, (verify_item key_arg (w_input w) i).2) l)).
Proof. apply (verify_fold_spec key_arg l [] [] w). Qed.

Lemma del_duds_spec l w :
  del_duds l w
  = (Return tt,
     logs w (map (λ item, "@ " +:+ item +:+ " was malformed. Please investigate") l)).
Proof.
  unfold del_duds. revert w. induction l as [|x l IH]; intros w.
  - cbn. by rewrite logs_nil.
  - cbn [for_each map]. erewrite bind_Return; [|apply message_logs].
    by rewrite IH, logs_logs.
Qed.

(** When every key cell it reads is a text [verify_shapes] returns: the
    good list is the discovered names with verdict [Good], in discovery
    order, and the folder is what it was. *)
Lemma verify_shapes_spec folder_arg key_arg w :
  text_keyed key_arg w = true →
  ∃ lines,
    verify_shapes folder_arg key_arg w
    = (Return (List.filter (λ i, is_good (verdict_of key_arg w i)) (discovered w)),
       logs w lines) ∧
    ∀ item, item ∈ discovered w →
            (verify_item key_arg (w_input w) item).2 ⊆ lines.
Proof.
  intros Htext.
  destruct (create_list_of_shapes_to_verify_spec w) as [l1 H1].
  unfold verify_shapes.
  set (dud := List.filter (λ i, is_dud (verdict_of key_arg (logs w l1) i))
                          (discovered w)).
  exists (l1 ++ flat_map (λ i, (verify_item key_arg (w_input w) i).2) (discovered w)
             ++ (if bool_decide (dud ≠ [])
                 then map (λ item, "@ " +:+ item +:+
                                   " was malformed. Please investigate") dud
                 else [])).
  split.
  - erewrite bind_Return; [|exact H1].
    erewrite bind_Return; [|by apply verify_loop_spec].
    cbv beta iota. fold dud.
    erewrite bind_Return.
    2:{ instantiate (1 := logs _ (if bool_decide (dud ≠ []) then _ else [])).
        case_bool_decide; [apply del_duds_spec|].
        unfold ret, mret, M_ret. by rewrite logs_nil. }
    unfold ret, mret, M_ret, verdict_of. rewrite !logs_input.
    by rewrite !logs_logs.
  - intros item Hitem x Hx.
    apply elem_of_app; right. apply elem_of_app; left.
    apply list_elem_of_In, in_flat_map. exists item.
    by rewrite <- !list_elem_of_In.
Qed.

(** When some key cell it reads is a number or null [verify_shapes]
    raises [AttributeError]; the folder is what it was. *)
Lemma verify_shapes_crash folder_arg key_arg w :
  text_keyed key_arg w = false →
  ∃ msg lines,
    verify_shapes folder_arg key_arg w
    = (Raise (AttributeError msg), logs w lines).
Proof.
  intros Htext.
  destruct (create_list_of_shapes_to_verify_spec w) as [l1 H1].
  destruct (verify_fold_crash key_arg (discovered w) [] [] (logs w l1) Htext)
    as (msg & lines & Hrun).
  exists msg. eexists. unfold verify_shapes.
  erewrite bind_Return; [|exact H1].
  erewrite bind_Raise; [|exact Hrun].
  by rewrite logs_logs.
Qed.

Lemma verify_shapes_returns folder_arg key_arg w good_list w' :
  verify_shapes folder_arg key_arg w = (Return good_list, w') →
  text_keyed key_arg w = true.
Proof.
  intros Hrun. destruct (text_keyed key_arg w) eqn:Htext; [done|].
  destruct (verify_shapes_crash folder_arg key_arg w Htext) as (msg & lines & Hc).
  by rewrite Hc in Hrun.
Qed.

Lemma rename_shape_asserted item w :
  PyStr.endswith item ".shp" = true → PyStr.startswith item "__" = false →
  rename_shape item w = (Raise (NameError "sef"), w).
Proof.
  intros H1 H2. unfold rename_shape. rewrite H1, H2. cbn [negb andb].
  erewrite bind_Return; [|reflexivity].
  erewrite bind_Raise; reflexivity.
Qed.

(** What discovery does: it returns normally and leaves the folder as
    it is; the list it returns is the folder listing, in listing order,
    cut down to the names that end in [.shp], do not start with the
    processed marker [__], and for which no name of the folder starts
    with the file's stem (the name minus its last four characters) and
    ends in [lock] -- a prefix test, so a lock file of a longer name
    counts as well. *)
Lemma discovery_rule (w : world) :
  ∃ lines,
    create_list_of_shapes_to_verify w = (Return (discovered w), logs w lines) ∧
    ∀ item,
      item ∈ discovered w ↔
      item ∈ (w_input w).*1 ∧
      PyStr.endswith item ".shp" = true ∧
      PyStr.startswith item "__" = false ∧
      ¬ ∃ name, name ∈ (w_input w).*1 ∧
                PyStr.startswith name (PyStr.drop_last 4 item) = true ∧
                PyStr.endswith name "lock" = true.
Proof.
  destruct (create_list_of_shapes_to_verify_spec w) as [lines H].
  exists lines. split; [exact H|].
  intros item. rewrite discovered_elem, <- locked_by_iff.
  by rewrite not_true_iff_false.
Qed.

(** C10.  Every item of the list [verify_shapes] returns comes from the
    discovery list, ends in [.shp] and does not start with [__]; so the
    [assert] at the head of [rename_shape] holds for it, and
    [rename_shape] does not raise [AssertionError] on it. *)
Theorem rename_assertion_holds (folder_arg key_arg : string)
    (w w' : world) (good_list : list string) (item : string) :
  verify_shapes folder_arg key_arg w = (Return good_list, w') →
  item ∈ good_list →
  item ∈ discovered w ∧
  PyStr.endswith item ".shp" = true ∧
  PyStr.startswith item "__" = false ∧
  ∀ w1, (rename_shape item w1).1 ≠ Raise AssertionError.
Proof.
  intros Hvs Hitem.
  destruct (verify_shapes_spec folder_arg key_arg w) as (lines & Hspec & _);
    [by eapply verify_shapes_returns|].
  rewrite Hspec in Hvs. injection Hvs as <- _.
  apply list_elem_of_In, filter_In in Hitem as [Hd _].
  apply list_elem_of_In in Hd.
  pose proof Hd as (_ & Hshp & Hmark & _)%discovered_elem.
  repeat split; try done.
  intros w1. by rewrite rename_shape_asserted.
Qed.

(** *** Retirement *)

Lemma lookup_file_middle name f kept d :
  name ∉ kept.*1 → lookup_file name (kept ++ (name, f) :: d) = Some f.
Proof.
  induction kept as [|[n g] kept IH]; simpl; intros Hn.
  - by rewrite decide_True.
  - apply not_elem_of_cons in Hn as [Hne Hn].
    rewrite decide_False by done. by apply IH.
Qed.

Lemma remove_file_absent name d : name ∉ d.*1 → remove_file name d = d.
Proof.
  unfold remove_file. induction d as [|[n g] d IH]; simpl; intros Hn; [done|].
  apply not_elem_of_cons in Hn as [Hne Hn].
  rewrite bool_decide_eq_false_2 by done. simpl. by rewrite IH.
Qed.

Lemma remove_file_middle name f kept d :
  name ∉ kept.*1 → name ∉ d.*1 →
  remove_file name (kept ++ (name, f) :: d) = kept ++ d.
Proof.
  intros Hk Hd. unfold remove_file. rewrite List.filter_app. simpl.
  rewrite bool_decide_eq_true_2 by done. simpl.
  fold (remove_file name kept) (remove_file name d).
  by rewrite !remove_file_absent.
Qed.

Lemma date_fromtimestamp_ok t w :
  representable t = true → date_fromtimestamp t w = (Return (local_day t), w).
Proof.
  unfold representable, date_fromtimestamp.
  intros [Hl Hr]%andb_true_iff. apply bool_decide_eq_true in Hl.
  by rewrite Hl, Hr.
Qed.

Lemma date_fromtimestamp_raises t w :
  representable t = false → ∃ e, date_fromtimestamp t w = (Raise e, w).
Proof.
  unfold representable, date_fromtimestamp.
  destruct (localtime_fails t) as [e|]; [by eexists|].
  rewrite bool_decide_eq_true_2 by done. cbn [andb]. intros ->. by eexists.
Qed.

Lemma retire_one_spec w w1 n f :
  lookup_file n (w_input w1) = Some f →
  negb (processed n) || representable (f_mtime f) = true →
  retire_one (local_day (w_now w)) n w1
  = (Return tt,
     logs (if retired w (n, f)
           then set_input (remove_file n (w_input w1)) w1 else w1)
          (retire_lines w (n, f))).
Proof.
  intros Hf Hok.
  assert (Hm : os_path_getmtime n w1 = (Return (f_mtime f), w1)).
  { unfold os_path_getmtime. by rewrite Hf. }
  unfold processed in Hok.
  unfold retired, retire_lines, expired, retire_one. cbn [fst snd].
  destruct (PyStr.startswith n "__" && PyStr.endswith n ".shp");
    cbn [andb]; [|by rewrite logs_nil].
  cbn [negb orb] in Hok.
  erewrite bind_Return; [|exact Hm].
  erewrite bind_Return; [|by apply date_fromtimestamp_ok].
  cbv beta zeta. fold (age_days w f).
  destruct (bool_decide (30 ≤ age_days w f)%Z); cbn [andb];
    [|by rewrite logs_nil].
  destruct (Delete_management_fails n) as [msg|] eqn:Edel.
  - rewrite bool_decide_eq_false_2 by done.
    erewrite try_except_caught; cycle 1.
    + erewrite bind_Raise; [reflexivity|].
      unfold Delete_management. by rewrite Edel.
    + reflexivity.
    + apply message_logs.
  - rewrite bool_decide_eq_true_2 by done.
    eapply try_except_Return.
    erewrite bind_Return.
    2:{ unfold Delete_management. rewrite Edel. reflexivity. }
    apply message_logs.
Qed.

Lemma retire_loop_spec w kept d w1 :
  NoDup (kept ++ d).*1 →
  w_input w1 = kept ++ d →
  forallb (λ e, negb (processed e.1) || representable (f_mtime e.2)) d = true →
  for_each d.*1 (retire_one (local_day (w_now w))) w1
  = (Return tt,
     logs (set_input (kept ++ List.filter (λ e, negb (retired w e)) d) w1)
          (flat_map (retire_lines w) d)).
Proof.
  revert kept w1. induction d as [|[n f] d IH]; intros kept w1 Hnd Hin Hok.
  - cbn. rewrite logs_nil, <- Hin. by rewrite set_input_same.
  - pose proof Hnd as Hnd0.
    rewrite fmap_app, fmap_cons in Hnd. cbn [fst] in Hnd.
    apply NoDup_app in Hnd as (Hk & Hdis & Hd).
    apply NoDup_cons in Hd as [Hnd' Hd].
    cbn [forallb fst snd] in Hok. apply andb_true_iff in Hok as [Hok1 Hok].
    assert (Hnk : n ∉ kept.*1) by (intros Hx; apply (Hdis n Hx); left).
    cbn [fmap list_fmap for_each List.filter flat_map fst].
    erewrite bind_Return.
    2:{ apply (retire_one_spec w w1 n f); [|exact Hok1]. rewrite Hin.
        by apply lookup_file_middle. }
    destruct (retired w (n, f)); cbn [negb].
    + rewrite (IH kept (logs (set_input _ w1) _)).
      * unfold logs, set_log, set_input. cbn [w_gdb w_input w_log w_now].
        by rewrite <- app_assoc.
      * rewrite fmap_app. apply NoDup_app. split; [done|]. split; [|done].
        intros x Hx Hx2. apply (Hdis x Hx). by right.
      * rewrite logs_input. cbn [set_input w_input]. rewrite Hin.
        by apply remove_file_middle.
      * done.
    + rewrite (IH (kept ++ [(n, f)]) (logs w1 _)).
      * unfold logs, set_log, set_input. cbn [w_gdb w_input w_log w_now].
        by rewrite <- !app_assoc.
      * by rewrite <- app_assoc.
      * by rewrite logs_input, <- app_assoc.
      * done.
Qed.

Lemma retire_old_files_spec w :
  NoDup (w_input w).*1 →
  dates_ok w = true →
  retire_old_files w
  = (Return tt,
     logs (set_input (List.filter (λ e, negb (retired w e)) (w_input w)) w)
          (flat_map (retire_lines w) (w_input w))).
Proof.
  intros Hnd [Hnow Hok]%andb_true_iff. unfold retire_old_files.
  erewrite bind_Return; [|by apply date_fromtimestamp_ok].
  erewrite bind_Return; [|reflexivity].
  by rewrite (retire_loop_spec w [] (w_input w) w).
Qed.

(** [date.today()] is outside every [try]: when the clock cannot be
    turned into a date the method raises before it looks at a file. *)
Lemma retire_old_files_clock_raises w :
  representable (w_now w) = false → ∃ e, retire_old_files w = (Raise e, w).
Proof.
  intros Hnow. destruct (date_fromtimestamp_raises _ w Hnow) as [e He].
  exists e. unfold retire_old_files. erewrite bind_Raise; [reflexivity | exact He].
Qed.

Lemma age_days_local w f :
  ((30 * 86400 ≤ local_time (w_now w) - local_time (f_mtime f) → 30 ≤ age_days w f) ∧
   (local_time (w_now w) - local_time (f_mtime f) ≤ 29 * 86400 → age_days w f ≤ 29))%Z.
Proof.
  unfold age_days, local_day.
  generalize (local_time (w_now w)) (local_time (f_mtime f)). intros a b.
  split; intros H; forget_store; Z.div_mod_to_equations; lia.
Qed.

Lemma NoDup_fst_functional {A B} (l : list (A * B)) x y1 y2 :
  NoDup l.*1 → (x, y1) ∈ l → (x, y2) ∈ l → y1 = y2.
Proof.
  induction l as [|[a b] l IH]; simpl; intros Hnd H1 H2.
  - by apply elem_of_nil in H1.
  - apply NoDup_cons in Hnd as [Ha Hnd].
    apply elem_of_cons in H1 as [H1|H1]; apply elem_of_cons in H2 as [H2|H2].
    + congruence.
    + injection H1 as -> ->. exfalso. apply Ha.
      apply list_elem_of_fmap. by exists (a, y2).
    + injection H2 as -> ->. exfalso. apply Ha.
      apply list_elem_of_fmap. by exists (a, y1).
    + by apply IH.
Qed.

Lemma expired_iff w name f :
  expired w (name, f) = true ↔
  PyStr.startswith name "__" = true ∧ PyStr.endswith name ".shp" = true ∧
  (30 ≤ age_days w f)%Z.
Proof.
  unfold expired. cbn [fst snd].
  rewrite !andb_true_iff, bool_decide_eq_true. forget_store; tauto.
Qed.

(** C9 (as amended).  When the clock and the last-modified times of the
    processed shapefiles can be turned into dates, [retire_old_files]
    returns.  A file of the input folder is gone afterwards exactly when
    its name starts with [__] and ends with [.shp], the local calendar
    date of its last modification lies 30 days or more before today's
    local date, and the store carries out the deletion; when the store
    refuses, the file stays, a failure line is logged and the run goes
    on; every other file stays as it is.  The age is reached when the
    local wall-clock times lie at least 30 times 24 hours apart, and not
    reached when they lie at most 29 times 24 hours apart; so a file
    modified 31 days ago or earlier is deleted whenever the UTC offset
    then is at most a day ahead of the offset now, and one modified at
    most 29 days ago is kept whenever the offset now is not ahead of the
    offset then. *)
Theorem retirement_rule (w : world) :
  NoDup (w_input w).*1 →
  dates_ok w = true →
  ∃ w',
    retire_old_files w = (Return tt, w') ∧
    w_gdb w' = w_gdb w ∧
    ∀ name f, (name, f) ∈ w_input w →
      (name ∉ (w_input w').*1 ↔
         PyStr.startswith name "__" = true ∧
         PyStr.endswith name ".shp" = true ∧
         (30 ≤ age_days w f)%Z ∧
         Delete_management_fails name = None) ∧
      (name ∈ (w_input w').*1 → (name, f) ∈ w_input w') ∧
      (∀ msg,
         PyStr.startswith name "__" = true →
         PyStr.endswith name ".shp" = true →
         (30 ≤ age_days w f)%Z →
         Delete_management_fails name = Some msg →
         undeleted_line w (name, f) msg ∈ w_log w') ∧
      (30 * 86400 ≤ local_time (w_now w) - local_time (f_mtime f) →
       30 ≤ age_days w f)%Z ∧
      (local_time (w_now w) - local_time (f_mtime f) ≤ 29 * 86400 →
       age_days w f ≤ 29)%Z ∧
      (utcoffset (f_mtime f) - utcoffset (w_now w) ≤ 86400 →
       31 * 86400 ≤ w_now w - f_mtime f → 30 ≤ age_days w f)%Z ∧
      (utcoffset (w_now w) ≤ utcoffset (f_mtime f) →
       w_now w - f_mtime f ≤ 29 * 86400 → age_days w f ≤ 29)%Z.
Proof.
  intros Hnd Hok. eexists. split; [by apply retire_old_files_spec|].
  split; [done|].
  intros name f Hin. rewrite logs_input, logs_log.
  cbn [set_input w_input].
  assert (Hkept : retired w (name, f) = false →
                  (name, f) ∈ List.filter (λ e, negb (retired w e)) (w_input w)).
  { intros Hr. apply list_elem_of_In, filter_In.
    rewrite <- list_elem_of_In, Hr. done. }
  assert (Hgone : retired w (name, f) = true →
                  name ∉ (List.filter (λ e, negb (retired w e)) (w_input w)).*1).
  { intros Hr [[n f'] [Hn Hf']]%list_elem_of_fmap. cbn in Hn. subst n.
    apply list_elem_of_In, filter_In in Hf' as [Hf' Hneg].
    apply list_elem_of_In in Hf'.
    rewrite (NoDup_fst_functional _ _ _ _ Hnd Hf' Hin), Hr in Hneg. done. }
  assert (Hret : retired w (name, f) = true ↔
                 PyStr.startswith name "__" = true ∧
                 PyStr.endswith name ".shp" = true ∧
                 (30 ≤ age_days w f)%Z ∧
                 Delete_management_fails name = None).
  { unfold retired. cbn [fst]. rewrite andb_true_iff, expired_iff.
    rewrite bool_decide_eq_true. forget_store; tauto. }
  pose proof (age_days_local w f) as [Hold Hnew].
  split; [|split; [|split; [|split; [|split; [|split]]]]].
  - rewrite <- Hret. split; [|done].
    intros Hn. destruct (retired w (name, f)) eqn:Hr; [done|].
    exfalso. apply Hn, list_elem_of_fmap. exists (name, f). split; [done|].
    by apply Hkept.
  - intros Hn. apply Hkept.
    destruct (retired w (name, f)) eqn:Hr; [|done].
    by apply Hgone in Hn.
  - intros msg H1 H2 H3 Hfail. apply elem_of_app; right.
    apply list_elem_of_In, in_flat_map. exists (name, f).
    rewrite <- !list_elem_of_In. split; [done|].
    unfold retire_lines.
    rewrite (proj2 (expired_iff w name f)) by done.
    cbn [fst]. rewrite Hfail. left.
  - exact Hold.
  - exact Hnew.
  - intros Hoff Hage. apply Hold. unfold local_time. forget_store; lia.
  - intros Hoff Hage. apply Hnew. unfold local_time. forget_store; lia.
Qed.

(** *** Reconciliation *)

Lemma bind_inv {A B} (m : M A) (k : A → M B) w o w' :
  (m ≫= k) w = (o, w') →
  (∃ e, m w = (Raise e, w') ∧ o = Raise e) ∨
  (∃ a w1, m w = (Return a, w1) ∧ k a w1 = (o, w')).
Proof.
  unfold mbind, M_bind. destruct (m w) as [[a|e] w1]; intros H.
  - right. eauto.
  - left. injection H as <- <-. eauto.
Qed.

Lemma process_updates_missing w :
  w_gdb w !! poly_fc self = None →
  process_updates w
  = (Raise (ExecuteError ("ERROR 000732: Input Rows: Dataset " +:+
                          poly_fc self +:+
                          " does not exist or is not supported")),
     logs w ["Processing Updates"]).
Proof.
  intros H. unfold process_updates.
  erewrite bind_Return; [|apply message_logs].
  erewrite bind_Raise; [reflexivity|].
  unfold GetCount_management. by rewrite logs_gdb, H.
Qed.

Lemma process_updates_empty w fc :
  w_gdb w !! poly_fc self = Some fc → fc_rows fc = [] →
  process_updates w
  = (Return tt, logs w ["Processing Updates"; "No updates to process"]).
Proof.
  intros H Hrows. unfold process_updates.
  erewrite bind_Return; [|apply message_logs].
  erewrite bind_Return.
  2:{ unfold GetCount_management. rewrite logs_gdb, H. reflexivity. }
  erewrite bind_Return; [|reflexivity].
  rewrite Hrows. cbn [length].
  rewrite (bool_decide_eq_true_2 (0 < 1)) by lia. rewrite orb_true_r.
  by rewrite message_logs, logs_logs.
Qed.

Lemma process_updates_nonempty w fc :
  w_gdb w !! poly_fc self = Some fc → fc_rows fc ≠ [] →
  ∃ e, process_updates w = (Raise e, logs w ["Processing Updates"]) ∧
       (is_Some (w_gdb w !! live_fc self ≫= λ live,
                 PyStr.index (shape_key_field self) (fc_fields live)) →
        e = NameError "poly_fc").
Proof.
  intros H Hrows. unfold process_updates.
  assert (Hlen : ¬ length (fc_rows fc) < 1)
    by (destruct (fc_rows fc); [done | cbn; lia]).
  destruct (create_master_list (logs w ["Processing Updates"]))
    as [[check_list|e] w1] eqn:Hcm.
  - exists (NameError "poly_fc"). split; [|done].
    erewrite bind_Return; [|apply message_logs].
    erewrite bind_Return.
    2:{ unfold GetCount_management. rewrite logs_gdb, H. reflexivity. }
    erewrite bind_Return; [|reflexivity].
    cbn [w_gdb logs set_log]. rewrite H.
    rewrite (bool_decide_eq_true_2 (is_Some _)) by eauto.
    rewrite (bool_decide_eq_false_2 _ Hlen). cbn [negb orb].
    erewrite bind_Return; [|exact Hcm].
    erewrite bind_Raise; [|reflexivity].
    f_equal.
    unfold create_master_list, SearchCursor, mbind, M_bind in Hcm.
    destruct (w_gdb _ !! live_fc self); [|done].
    destruct (mapM _ _); [|done]. by injection Hcm as _ <-.
  - exists e. split.
    + erewrite bind_Return; [|apply message_logs].
      erewrite bind_Return.
      2:{ unfold GetCount_management. rewrite logs_gdb, H. reflexivity. }
      erewrite bind_Return; [|reflexivity].
      cbn [w_gdb logs set_log]. rewrite H.
      rewrite (bool_decide_eq_true_2 (is_Some _)) by eauto.
      rewrite (bool_decide_eq_false_2 _ Hlen). cbn [negb orb].
      erewrite bind_Raise; [|exact Hcm].
      f_equal.
      unfold create_master_list, SearchCursor, mbind, M_bind in Hcm.
      destruct (w_gdb _ !! live_fc self); [|by injection Hcm as _ <-].
      destruct (mapM _ _); [done|]. by injection Hcm as _ <-.
    + intros [k Hk]. exfalso.
      unfold create_master_list, SearchCursor, mbind, M_bind in Hcm.
      rewrite logs_gdb in Hcm.
      destruct (w_gdb w !! live_fc self) as [live|]; [|done].
      cbn in Hk. cbn in Hcm. rewrite Hk in Hcm. done.
Qed.

(** Whatever its outcome, [process_updates] only adds to the log. *)
Lemma process_updates_only_logs w o w' :
  process_updates w = (o, w') → ∃ lines, w' = logs w lines.
Proof.
  intros Hrun.
  destruct (w_gdb w !! poly_fc self) as [fc|] eqn:Hp.
  - destruct (fc_rows fc) as [|r rows] eqn:Hrows.
    + rewrite (process_updates_empty w fc Hp Hrows) in Hrun.
      injection Hrun as _ <-. eauto.
    + destruct (process_updates_nonempty w fc Hp) as (e & He & _).
      { by rewrite Hrows. }
      rewrite He in Hrun. injection Hrun as _ <-. eauto.
  - rewrite (process_updates_missing w Hp) in Hrun.
    injection Hrun as _ <-. eauto.
Qed.

(** [process_updates] returns normally only on its "no updates" path. *)
Lemma process_updates_returns w w' :
  process_updates w = (Return tt, w') →
  w' = logs w ["Processing Updates"; "No updates to process"] ∧
  ∃ fc, w_gdb w !! poly_fc self = Some fc ∧ fc_rows fc = [].
Proof.
  intros Hrun.
  destruct (w_gdb w !! poly_fc self) as [fc|] eqn:Hp.
  - destruct (fc_rows fc) as [|r rows] eqn:Hrows.
    + rewrite (process_updates_empty w fc Hp Hrows) in Hrun.
      injection Hrun as <-. eauto.
    + destruct (process_updates_nonempty w fc Hp) as (e & He & _).
      { by rewrite Hrows. }
      rewrite He in Hrun. done.
  - by rewrite (process_updates_missing w Hp) in Hrun.
Qed.

(** The tail of [process_updates] is [scan_and_append]. *)
Lemma process_updates_tail :
  process_updates =
  (message "Processing Updates";;
   number_to_process ← GetCount_management (poly_fc self);
   poly_exists ← Exists (poly_fc self);
   if negb poly_exists || bool_decide (number_to_process < 1)
   then message "No updates to process"
   else
     check_list ← create_master_list;
     poly_names ← (raise (NameError "poly_fc") : M (list string));
     live_names ← ListFields (live_fc self);
     scan_and_append poly_names check_list number_to_process).
Proof. reflexivity. Qed.

Lemma frame_inv_logs K fields rows0 w lines :
  frame_inv K fields rows0 w → frame_inv K fields rows0 (logs w lines).
Proof. intros (kept & H). exists kept. by rewrite logs_gdb. Qed.

Lemma delete_matching_frame K fields k v rows :
  PyStr.index (shape_key_field self) fields = Some k →
  v ∈ K →
  (delete_matching k v rows).1 `sublist_of` rows ∧
  List.filter (untouched K fields) (delete_matching k v rows).1
  = List.filter (untouched K fields) rows.
Proof.
  intros Hk Hv. induction rows as [|r rows [IH1 IH2]]; cbn [delete_matching].
  - done.
  - destruct (delete_matching k v rows) as [kept lines]. cbn [fst] in *.
    case_bool_decide as Hcell.
    + assert (Hu : untouched K fields r = false).
      { unfold untouched, row_key. rewrite Hk, Hcell.
        by rewrite bool_decide_eq_true_2. }
      destruct (deleteRow_fails r); cbn [fst List.filter]; rewrite Hu.
      * split; [by apply sublist_skip | done].
      * split; [by apply sublist_cons | done].
    + cbn [fst List.filter]. split; [by apply sublist_skip|].
      by rewrite IH2.
Qed.

Lemma delete_record_frame K fields rows0 v w o w' :
  v ∈ K →
  frame_inv K fields rows0 w →
  delete_record v w = (o, w') →
  frame_inv K fields rows0 w'.
Proof.
  intros Hv (kept & Hlive & Hsub & Hfil). unfold delete_record.
  rewrite Hlive. cbn [fc_fields fc_rows].
  destruct (PyStr.index (shape_key_field self) fields) as [k|] eqn:Hk.
  - destruct (delete_matching_frame K fields k v kept Hk Hv) as [H1 H2].
    destruct (delete_matching k v kept) as [kept' lines]. cbn [fst] in *.
    intros [= _ <-]. exists kept'.
    cbn [w_gdb set_log set_gdb]. rewrite lookup_insert_eq.
    split; [done|]. split; [by etrans | by rewrite H2].
  - intros [= _ <-]. by exists kept.
Qed.

Lemma scan_loop_frame K fields rows0 polyindex (check_list : list value)
    prows acc w o w' :
  (∀ r j v, r ∈ prows → polyindex = Some j → r !! j = Some v → v ∈ K) →
  frame_inv K fields rows0 w →
  for_fold prows acc (λ r '(replacement_records, new_records),
    key ← getitem r polyindex;
    if bool_decide (key ∈ check_list)
    then
      del_value ← getitem r polyindex;
      delete_record del_value;;
      ret (S replacement_records, new_records)
    else ret (replacement_records, S new_records)) w = (o, w') →
  frame_inv K fields rows0 w'.
Proof.
  revert acc w. induction prows as [|r prows IH]; intros [rep new] w HK Hinv.
  - cbn. by intros [= _ <-].
  - cbn [for_fold]. intros Hrun.
    assert (HK' : ∀ r' j v, r' ∈ prows → polyindex = Some j →
                            r' !! j = Some v → v ∈ K)
      by (intros r' j v Hr'; apply HK; by right).
    assert (Hget : ∀ w0, (∃ e, getitem r polyindex w0 = (Raise e, w0)) ∨
                         (∃ v, getitem r polyindex w0 = (Return v, w0) ∧ v ∈ K)).
    { intros w0. unfold getitem. destruct polyindex as [j|]; [|left; eauto].
      destruct (r !! j) as [v|] eqn:Hrj; [|left; eauto].
      right. exists v. split; [done|]. apply (HK r j v); [left|done..]. }
    apply bind_inv in Hrun as [(e & Hstep & _)|(acc' & w1 & Hstep & Hrest)].
    + (* the body raised *)
      destruct (Hget w) as [(e' & Hg)|(v & Hg & Hv)].
      * erewrite bind_Raise in Hstep; [|exact Hg]. by injection Hstep as _ <-.
      * erewrite bind_Return in Hstep; [|exact Hg].
        case_bool_decide; [|done].
        erewrite bind_Return in Hstep; [|exact Hg].
        apply bind_inv in Hstep as [(e' & Hdel & _)|(? & w2 & Hdel & Hret)].
        -- by eapply delete_record_frame.
        -- done.
    + (* the body went through *)
      apply (IH acc' w1); [done| |done].
      destruct (Hget w) as [(e' & Hg)|(v & Hg & Hv)].
      * erewrite bind_Raise in Hstep; [|exact Hg]. done.
      * erewrite bind_Return in Hstep; [|exact Hg].
        case_bool_decide.
        -- erewrite bind_Return in Hstep; [|exact Hg].
           apply bind_inv in Hstep as [(e' & Hdel & ?)|(? & w2 & Hdel & Hret)];
             [done|].
           injection Hret as _ <-. by eapply delete_record_frame.
        -- by injection Hstep as _ <-.
Qed.

Lemma index_lookup_first f fields j c :
  fields !! j = Some f →
  PyStr.index f fields = Some c →
  ∀ key, PyStr.index key fields = Some j → c = j.
Proof.
  intros Hj Hc key Hkey. pose proof (index_Some _ _ _ Hkey) as Hl.
  rewrite Hj in Hl. injection Hl as ->. congruence.
Qed.

Lemma scan_candidates_frame fields rows0 fc check_list w o w' :
  w_gdb w !! poly_fc self = Some fc →
  frame_inv (key_column fc) fields rows0 w →
  scan_candidates (fc_fields fc)
    (PyStr.index (shape_key_field self) (fc_fields fc)) check_list w = (o, w') →
  frame_inv (key_column fc) fields rows0 w'.
Proof.
  intros Hp Hinv. unfold scan_candidates. intros Hrun.
  apply bind_inv in Hrun as [(e & Hsc & _)|(prows & w1 & Hsc & Hloop)].
  - unfold SearchCursor in Hsc. rewrite Hp in Hsc.
    destruct (mapM _ _); by injection Hsc as _ <-.
  - unfold SearchCursor in Hsc. rewrite Hp in Hsc.
    destruct (mapM (λ f, PyStr.index f (fc_fields fc)) (fc_fields fc))
      as [cols|] eqn:Hcols; [|done].
    injection Hsc as <- <-.
    eapply scan_loop_frame; [|exact Hinv|exact Hloop].
    intros r' j v Hr' Hj Hv.
    apply list_elem_of_fmap in Hr' as (r & -> & Hr).
    assert (Hv' : (λ k, cell k r) <$> (cols !! j) = Some v)
      by (rewrite <- list_lookup_fmap; exact Hv).
    destruct (cols !! j) as [c|] eqn:Hc; [|done]. injection Hv' as <-.
    apply mapM_Some_1 in Hcols.
    destruct (Forall2_lookup_r _ _ _ _ _ Hcols Hc) as (f & Hf & Hfc).
    rewrite (index_lookup_first f (fc_fields fc) j c Hf Hfc _ Hj).
    unfold key_column. rewrite Hj.
    apply list_elem_of_fmap. by exists r.
Qed.

Lemma get_index_spec w fc :
  w_gdb w !! poly_fc self = Some fc →
  ∃ lines,
    get_index w
    = (Return (PyStr.index (shape_key_field self) (fc_fields fc)), logs w lines) ∧
    (is_Some (PyStr.index (shape_key_field self) (fc_fields fc)) → lines = []) ∧
    (PyStr.index (shape_key_field self) (fc_fields fc) = None →
     ∃ line, lines = [line] ∧ is_abort_line line = true).
Proof.
  intros Hp. unfold get_index.
  destruct (PyStr.index (shape_key_field self) (fc_fields fc)) as [j|] eqn:Hj.
  - exists []. split; [|split; [done | done]].
    rewrite logs_nil. eapply try_except_Return.
    erewrite bind_Return.
    2:{ unfold ListFields. rewrite Hp. reflexivity. }
    by rewrite Hj.
  - eexists. split.
    { erewrite try_except_caught; cycle 1.
      + erewrite bind_Return.
        2:{ unfold ListFields. rewrite Hp. reflexivity. }
        rewrite Hj. reflexivity.
      + reflexivity.
      + erewrite bind_Return; [|apply message_logs]. reflexivity. }
    split; [intros [? ?]; discriminate | intros _; eauto].
Qed.

Lemma filter_untouched_gone K fields (rows0 kept : list row) :
  List.filter (untouched K fields) kept = List.filter (untouched K fields) rows0 →
  ∀ r, r ∈ rows0 → r ∉ kept → row_key fields r ∈ K.
Proof.
  intros Hfil r Hr Hnk.
  destruct (decide (row_key fields r ∈ K)) as [|Hn]; [done|].
  exfalso. apply Hnk.
  assert (Hin : r ∈ List.filter (untouched K fields) rows0).
  { apply list_elem_of_In, filter_In. rewrite <- list_elem_of_In.
    split; [done|]. unfold untouched. by rewrite bool_decide_eq_false_2. }
  rewrite <- Hfil in Hin.
  apply list_elem_of_In, filter_In in Hin as [Hin _].
  by apply list_elem_of_In.
Qed.

Lemma frame_inv_result K fields rows0 w :
  frame_inv K fields rows0 w → frame_result K fields rows0 w.
Proof.
  intros (kept & Hlive & Hsub & Hfil). exists kept, [].
  rewrite app_nil_r. split; [done|]. split; [done|]. split; [done|].
  by apply filter_untouched_gone.
Qed.

Lemma frame_result_logs K fields rows0 w lines :
  frame_result K fields rows0 w → frame_result K fields rows0 (logs w lines).
Proof. intros (kept & added & H). exists kept, added. by rewrite logs_gdb. Qed.

Lemma append_to_live_frame K fields rows0 n a b w o w' :
  frame_inv K fields rows0 w →
  append_to_live n a b w = (o, w') →
  frame_result K fields rows0 w'.
Proof.
  intros Hinv. unfold append_to_live, try_except.
  destruct (Append_management (poly_fc self) (live_fc self) w)
    as [[[]|e] w1] eqn:Happ.
  - erewrite bind_Return; [|exact Happ]. rewrite message_logs.
    intros [= _ <-]. apply frame_result_logs.
    destruct Hinv as (kept & Hlive & Hsub & Hfil).
    unfold Append_management in Happ. rewrite Hlive in Happ.
    destruct (w_gdb w !! poly_fc self) as [src|]; [|done].
    injection Happ as <-. cbn [fc_fields fc_rows].
    eexists kept, _. cbn [w_gdb set_gdb]. rewrite lookup_insert_eq.
    split; [done|]. split; [done|]. split; [done|].
    by apply filter_untouched_gone.
  - erewrite bind_Raise; [|exact Happ]. cbn [is_Exception].
    erewrite bind_Return; [|apply message_logs]. unfold raise.
    intros [= _ <-]. apply frame_result_logs, frame_inv_result.
    unfold Append_management in Happ.
    destruct (w_gdb w !! poly_fc self), (w_gdb w !! live_fc self);
      simplify_eq; done.
Qed.

Lemma scan_and_append_frame w fc_poly fc_live check_list n o w' :
  w_gdb w !! poly_fc self = Some fc_poly →
  w_gdb w !! live_fc self = Some fc_live →
  scan_and_append (fc_fields fc_poly) check_list n w = (o, w') →
  frame_result (key_column fc_poly) (fc_fields fc_live) (fc_rows fc_live) w'.
Proof.
  intros Hp Hl. unfold scan_and_append.
  destruct (get_index_spec w fc_poly Hp) as (lines & Hgi & _).
  erewrite bind_Return; [|exact Hgi].
  assert (Hinv0 : frame_inv (key_column fc_poly) (fc_fields fc_live)
                            (fc_rows fc_live) (logs w lines)).
  { apply frame_inv_logs. exists (fc_rows fc_live). by destruct fc_live. }
  intros Hrun.
  apply bind_inv in Hrun as [(e & Hscan & _)|([rep new] & w1 & Hscan & Happ)].
  - apply frame_inv_result.
    eapply scan_candidates_frame; [|exact Hinv0|exact Hscan].
    by rewrite logs_gdb.
  - eapply append_to_live_frame; [|exact Happ].
    eapply scan_candidates_frame; [|exact Hinv0|exact Hscan].
    by rewrite logs_gdb.
Qed.

(** *** What the scan and the append do on a well-formed candidate set *)







(** The search cursor over a feature class, asked for all of its fields,
    hands out rows that hold the key cell at the key's index. *)
Lemma SearchCursor_all_fields w fc j :
  w_gdb w !! poly_fc self = Some fc →
  PyStr.index (shape_key_field self) (fc_fields fc) = Some j →
  ∃ prows,
    SearchCursor (poly_fc self) (fc_fields fc) w = (Return prows, w) ∧
    Forall (λ r : row, is_Some (r !! j)) prows ∧
    map (cell j) prows = map (cell j) (fc_rows fc).
Proof.
  intros Hp Hj. unfold SearchCursor. rewrite Hp.
  destruct (mapM (λ f, PyStr.index f (fc_fields fc)) (fc_fields fc))
    as [cols|] eqn:Hcols.
  2:{ exfalso. apply eq_None_not_Some in Hcols. apply Hcols.
      apply mapM_is_Some, Forall_forall. intros f Hf.
      by apply index_is_Some. }
  eexists. split; [reflexivity|].
  apply mapM_Some_1 in Hcols.
  assert (Hcj : cols !! j = Some j).
  { destruct (Forall2_lookup_l _ _ _ j _ Hcols (index_Some _ _ _ Hj))
      as (c & Hc & Hidx).
    rewrite Hc. congruence. }
  assert (Hrow : ∀ r : row, map (λ c, cell c r) cols !! j = Some (cell j r)).
  { intros r.
    assert (Hm : (λ c, cell c r) <$> (cols !! j) = Some (cell j r))
      by (by rewrite Hcj).
    rewrite <- list_lookup_fmap in Hm. exact Hm. }
  split.
  - apply Forall_forall. intros r' Hr'.
    apply list_elem_of_fmap in Hr' as (r & -> & _). rewrite Hrow. eauto.
  - rewrite map_map. apply map_ext. intros r. unfold cell at 1.
    by rewrite Hrow.
Qed.



(** C3.  With [K] the key values of the candidate set:
    (1) after a run of [process_updates] that returns normally, the
    live rows whose key is not in [K] are the ones that were there, in
    the same order, and a live row that is gone has its key in [K];
    (2) the same holds of the scan and bulk append of lines 387-401 run
    on the candidate's field list, whatever their outcome: the live rows
    are then what stands of the former rows followed by the rows added,
    every former row whose key is not in [K] stands, in order, and a
    former row that does not stand has its key in [K]. *)
Theorem reconcile_frame (w : world) (fc_poly fc_live : feature_class) :
  w_gdb w !! poly_fc self = Some fc_poly →
  w_gdb w !! live_fc self = Some fc_live →
  (∀ w', process_updates w = (Return tt, w') →
         List.filter (untouched (candidate_keys w) (fc_fields fc_live)) (live_rows w')
         = List.filter (untouched (candidate_keys w) (fc_fields fc_live)) (live_rows w) ∧
         ∀ r, r ∈ live_rows w → r ∉ live_rows w' →
              row_key (fc_fields fc_live) r ∈ candidate_keys w) ∧
  (∀ (check_list : list value) (n : nat) o w',
     scan_and_append (fc_fields fc_poly) check_list n w = (o, w') →
     ∃ kept added,
       w_gdb w' !! live_fc self = Some (FC (fc_fields fc_live) (kept ++ added)) ∧
       kept `sublist_of` fc_rows fc_live ∧
       List.filter (untouched (candidate_keys w) (fc_fields fc_live)) kept
       = List.filter (untouched (candidate_keys w) (fc_fields fc_live))
                     (fc_rows fc_live) ∧
       ∀ r, r ∈ fc_rows fc_live → r ∉ kept →
            row_key (fc_fields fc_live) r ∈ candidate_keys w).
Proof.
  intros Hp Hl. split.
  - intros w' Hrun.
    destruct (process_updates_only_logs w _ _ Hrun) as [lines ->].
    unfold live_rows. rewrite logs_gdb. by split.
  - intros check_list n o w' Hrun.
    unfold candidate_keys. rewrite Hp. cbn [from_option].
    by eapply scan_and_append_frame.
Qed.

(** ** Further properties of the reconciliation methods *)

Lemma index_first x l i :
  PyStr.index x l = Some i → ∀ j, j < i → l !! j ≠ Some x.
Proof.
  revert i. induction l as [|y l IH]; intros i; cbn [PyStr.index]; [done|].
  case_decide as Hy.
  - intros [= <-] j Hj. lia.
  - destruct (PyStr.index x l) as [i'|] eqn:E; cbn; [|done].
    intros [= <-] [|j] Hj; cbn.
    + by intros [= ?].
    + apply (IH i' eq_refl). lia.
Qed.

(** X1.  On an existing candidate feature class [get_index] returns
    without raising and changes nothing but the log: either the first
    position at which the field list holds the key field, logging
    nothing, or [None] when the field list does not hold it, logging
    exactly one failure line. *)
Theorem get_index_position (w : world) (fc : feature_class) :
  w_gdb w !! poly_fc self = Some fc →
  ∃ r lines,
    get_index w = (Return r, logs w lines) ∧
    match r with
    | Some i =>
        fc_fields fc !! i = Some (shape_key_field self) ∧
        (∀ j, j < i → fc_fields fc !! j ≠ Some (shape_key_field self)) ∧
        lines = []
    | None =>
        (shape_key_field self ∉ fc_fields fc) ∧
        ∃ line, lines = [line] ∧ is_abort_line line = true
    end.
Proof.
  intros Hp. destruct (get_index_spec w fc Hp) as (lines & Hrun & Hsome & Hnone).
  exists (PyStr.index (shape_key_field self) (fc_fields fc)), lines.
  split; [exact Hrun|].
  destruct (PyStr.index (shape_key_field self) (fc_fields fc)) as [i|] eqn:Hi.
  - split; [by apply index_Some|]. split; [by apply index_first|].
    apply Hsome. eauto.
  - split; [by apply index_None|]. by apply Hnone.
Qed.

Lemma delete_matching_spec k v rows :
  (delete_matching k v rows).1
  = List.filter (λ r, negb (bool_decide (cell k r = v) &&
                            bool_decide (deleteRow_fails r = None))) rows ∧
  length (delete_matching k v rows).2
  = length (List.filter (λ r, bool_decide (cell k r = v)) rows) ∧
  length (List.filter is_abort_line (delete_matching k v rows).2)
  = length (List.filter (λ r, bool_decide (cell k r = v) &&
                              negb (bool_decide (deleteRow_fails r = None))) rows).
Proof.
  induction rows as [|r rows (IH1 & IH2 & IH3)]; cbn [delete_matching List.filter].
  - done.
  - destruct (delete_matching k v rows) as [kept lines]. cbn [fst snd] in *.
    case_bool_decide as Hcell; cbn [andb negb].
    + destruct (deleteRow_fails r) as [msg|] eqn:Hdel.
      * rewrite bool_decide_eq_false_2 by done.
        cbn [fst snd negb List.filter length].
        replace (is_abort_line _) with true by reflexivity.
        cbn [length]. by rewrite IH1, IH2, IH3.
      * rewrite bool_decide_eq_true_2 by done.
        cbn [fst snd negb List.filter length].
        replace (is_abort_line _) with false by reflexivity.
        by rewrite IH1, IH2, IH3.
    + cbn [fst snd length]. by rewrite IH1, IH2, IH3.
Qed.

Lemma delete_record_effect_aux w fc k v :
  w_gdb w !! live_fc self = Some fc →
  PyStr.index (shape_key_field self) (fc_fields fc) = Some k →
  ∃ lines,
    delete_record v w
    = (Return tt,
       logs (set_gdb
               (<[live_fc self :=
                    FC (fc_fields fc)
                       (List.filter
                          (λ r, negb (bool_decide (cell k r = v) &&
                                      bool_decide (deleteRow_fails r = None)))
                          (fc_rows fc))]> (w_gdb w)) w) lines).
Proof.
  intros Hl Hk. unfold delete_record. rewrite Hl, Hk.
  destruct (delete_matching_spec k v (fc_rows fc)) as (H1 & _).
  destruct (delete_matching k v (fc_rows fc)) as [kept lines].
  cbn [fst] in *. exists lines. by rewrite H1.
Qed.

(** X2.  [delete_record] on a live feature class that has the key field
    walks every row: a row goes exactly when its key equals the value
    and the store carries out the deletion, every other row stays, in
    order; one line is logged per row with that key, a failure line for
    each refused one; no other dataset, the input folder and the clock
    are not touched, and the call returns even when deletions are
    refused. *)
Theorem delete_record_effect (w : world) (fc : feature_class) (k : nat)
    (v : value) :
  w_gdb w !! live_fc self = Some fc →
  PyStr.index (shape_key_field self) (fc_fields fc) = Some k →
  ∃ lines,
    delete_record v w
    = (Return tt,
       logs (set_gdb
               (<[live_fc self :=
                    FC (fc_fields fc)
                       (List.filter
                          (λ r, negb (bool_decide (cell k r = v) &&
                                      bool_decide (deleteRow_fails r = None)))
                          (fc_rows fc))]> (w_gdb w)) w) lines) ∧
    length lines = length (List.filter (λ r, bool_decide (cell k r = v)) (fc_rows fc)) ∧
    length (List.filter is_abort_line lines)
    = length (List.filter (λ r, bool_decide (cell k r = v) &&
                                negb (bool_decide (deleteRow_fails r = None)))
                          (fc_rows fc)).
Proof.
  intros Hl Hk. unfold delete_record. rewrite Hl, Hk.
  destruct (delete_matching_spec k v (fc_rows fc)) as (H1 & H2 & H3).
  destruct (delete_matching k v (fc_rows fc)) as [kept lines].
  cbn [fst snd] in *. exists lines. by rewrite H1.
Qed.

Lemma create_master_list_spec w fc k :
  w_gdb w !! live_fc self = Some fc →
  PyStr.index (shape_key_field self) (fc_fields fc) = Some k →
  create_master_list w = (Return (map (cell k) (fc_rows fc)), w).
Proof.
  intros Hl Hk. unfold create_master_list.
  erewrite bind_Return.
  2:{ unfold SearchCursor. rewrite Hl. cbn [mapM]. rewrite Hk. reflexivity. }
  unfold ret, mret, M_ret. rewrite map_map. reflexivity.
Qed.

(** X3.  Deleting and then listing: after [delete_record] of a value
    none of whose rows the store refuses to delete, [create_master_list]
    returns the former key list without that value, other keys in their
    order; in particular the value is no longer among the live keys. *)
Theorem delete_then_master_list (w w' : world) (fc : feature_class)
    (k : nat) (v : value) :
  w_gdb w !! live_fc self = Some fc →
  PyStr.index (shape_key_field self) (fc_fields fc) = Some k →
  (∀ r, r ∈ fc_rows fc → cell k r = v → deleteRow_fails r = None) →
  delete_record v w = (Return tt, w') →
  ∃ keys,
    create_master_list w = (Return keys, w) ∧
    create_master_list w'
    = (Return (List.filter (λ x, negb (bool_decide (x = v))) keys), w') ∧
    v ∉ List.filter (λ x, negb (bool_decide (x = v))) keys.
Proof.
  intros Hl Hk Hok Hrun.
  destruct (delete_record_effect_aux w fc k v Hl Hk) as (lines & Hdel).
  rewrite Hdel in Hrun. injection Hrun as <-.
  exists (map (cell k) (fc_rows fc)).
  split; [by apply create_master_list_spec|]. split.
  - erewrite create_master_list_spec; cycle 1.
    + rewrite logs_gdb. cbn [set_gdb w_gdb]. apply lookup_insert_eq.
    + exact Hk.
    + cbn [fc_rows]. f_equal. f_equal.
      clear Hl Hdel. induction (fc_rows fc) as [|r rows IH]; [done|].
      cbn [List.filter map].
      assert (Hrest : ∀ r', r' ∈ rows → cell k r' = v → deleteRow_fails r' = None)
        by (intros r' Hr'; apply Hok; by right).
      destruct (decide (cell k r = v)) as [Heq|Hne].
      * rewrite !(bool_decide_eq_true_2 (cell k r = v)) by done.
        rewrite bool_decide_eq_true_2 by (apply Hok; [left | done]).
        cbn [andb negb]. by apply IH.
      * rewrite !(bool_decide_eq_false_2 (cell k r = v)) by done.
        cbn [andb negb map]. by rewrite IH.
  - intros Hin. apply list_elem_of_In, filter_In in Hin as [_ Hin].
    by rewrite bool_decide_eq_true_2 in Hin.
Qed.

Lemma delete_record_keeps_folder v w o w' :
  delete_record v w = (o, w') →
  w_input w' = w_input w ∧ w_now w' = w_now w.
Proof.
  unfold delete_record.
  destruct (w_gdb w !! live_fc self) as [fc|]; [|by intros [= _ <-]].
  destruct (PyStr.index (shape_key_field self) (fc_fields fc));
    [|by intros [= _ <-]].
  destruct (delete_matching _ _ _). by intros [= _ <-].
Qed.

Lemma scan_loop_counts j (check_list : list value) prows :
  Forall (λ r : row, is_Some (r !! j)) prows →
  ∀ rep0 new0 w rep new w',
    for_fold prows (rep0, new0) (λ r '(replacement_records, new_records),
      key ← getitem r (Some j);
      if bool_decide (key ∈ check_list)
      then
        del_value ← getitem r (Some j);
        delete_record del_value;;
        ret (S replacement_records, new_records)
      else ret (replacement_records, S new_records)) w
    = (Return (rep, new), w') →
    rep = rep0 + length (List.filter (λ v, bool_decide (v ∈ check_list))
                                     (map (cell j) prows)) ∧
    new = new0 + length (List.filter (λ v, negb (bool_decide (v ∈ check_list)))
                                     (map (cell j) prows)) ∧
    w_input w' = w_input w ∧ w_now w' = w_now w.
Proof.
  induction 1 as [|r prows [v Hv] Hall IH]; intros rep0 new0 w rep new w' Hrun.
  - cbn in Hrun. injection Hrun as <- <- <-. cbn. by rewrite !Nat.add_0_r.
  - cbn [for_fold map List.filter] in *.
    assert (Hget : ∀ w0, getitem r (Some j) w0 = (Return v, w0))
      by (intros w0; unfold getitem, row in *; by rewrite Hv).
    assert (Hcell : cell j r = v)
      by (unfold cell, row in *; by rewrite Hv).
    rewrite Hcell.
    apply bind_inv in Hrun as [(e & _ & ?)|(acc' & w1 & Hstep & Hrest)]; [done|].
    erewrite bind_Return in Hstep; [|apply Hget].
    destruct (bool_decide (v ∈ check_list)) eqn:Hin; cbn [negb length].
    + erewrite bind_Return in Hstep; [|apply Hget].
      apply bind_inv in Hstep as [(e & _ & ?)|([] & w2 & Hdel & Hret)]; [done|].
      injection Hret as <- <-.
      destruct (delete_record_keeps_folder _ _ _ _ Hdel) as [Hi Hn].
      destruct (IH _ _ _ _ _ _ Hrest) as (-> & -> & Hi' & Hn').
      rewrite Hi', Hn', Hi, Hn. repeat split; lia.
    + injection Hstep as <- <-.
      destruct (IH _ _ _ _ _ _ Hrest) as (-> & -> & Hi' & Hn').
      repeat split; try done; lia.
Qed.

Lemma filter_length_split {A} (p : A → bool) (l : list A) :
  length (List.filter p l) + length (List.filter (λ x, negb (p x)) l) = length l.
Proof.
  induction l as [|x l IH]; cbn [List.filter length]; [done|].
  destruct (p x); cbn [negb length]; lia.
Qed.

(** X4.  When the scan of the candidate rows (lines 388-394, with the
    candidate's field list and the key's position in it) runs to its end,
    the replacement count is the number of candidate rows whose key is in
    [check_list], the new count the number of those whose key is not, and
    the two add up to the number of candidate rows; the input folder and
    the clock are as before. *)
Theorem scan_candidates_counts (w w' : world) (fc : feature_class)
    (check_list : list value) (replacement_records new_records : nat) :
  w_gdb w !! poly_fc self = Some fc →
  scan_candidates (fc_fields fc)
    (PyStr.index (shape_key_field self) (fc_fields fc)) check_list w
  = (Return (replacement_records, new_records), w') →
  replacement_records
  = length (List.filter (λ v, bool_decide (v ∈ check_list)) (key_column fc)) ∧
  new_records
  = length (List.filter (λ v, negb (bool_decide (v ∈ check_list))) (key_column fc)) ∧
  replacement_records + new_records = length (fc_rows fc) ∧
  w_input w' = w_input w ∧ w_now w' = w_now w.
Proof.
  intros Hp Hrun. unfold key_column.
  destruct (PyStr.index (shape_key_field self) (fc_fields fc)) as [j|] eqn:Hj.
  - destruct (SearchCursor_all_fields w fc j Hp Hj) as (prows & Hsc & Hall & Hkeys).
    unfold scan_candidates in Hrun.
    erewrite bind_Return in Hrun; [|exact Hsc].
    destruct (scan_loop_counts j check_list prows Hall _ _ _ _ _ _ Hrun)
      as (Hr & Hn & Hi & Hc).
    rewrite Hkeys in Hr, Hn. cbn [Nat.add] in Hr, Hn.
    split; [exact Hr|]. split; [exact Hn|]. split; [|done].
    rewrite Hr, Hn.
    rewrite (filter_length_split (λ v, bool_decide (v ∈ check_list))).
    by rewrite length_map.
  - unfold scan_candidates in Hrun.
    apply bind_inv in Hrun as [(e & _ & ?)|(prows & w1 & Hsc & Hloop)]; [done|].
    unfold SearchCursor in Hsc. rewrite Hp in Hsc.
    destruct (mapM _ _) as [cols|]; [|done].
    injection Hsc as <- <-.
    destruct (fc_rows fc) as [|r rows]; cbn [map for_fold] in Hloop.
    + injection Hloop as <- <- <-. done.
    + apply bind_inv in Hloop as [(e & _ & ?)|(acc' & w2 & Hstep & _)]; [done|].
      apply bind_inv in Hstep as [(e & _ & ?)|(key & w3 & Hget & _)]; done.
Qed.




(** X6.  When the candidate or the live feature class is not there, the
    bulk append fails: [append_to_live] logs exactly one failure line
    carrying the error text, raises the same error again and leaves the
    workspace and the input folder as they were. *)
Theorem append_to_live_failure (w : world)
    (number_to_process new_records replacement_records : nat) :
  w_gdb w !! poly_fc self = None ∨ w_gdb w !! live_fc self = None →
  ∃ msg,
    append_to_live number_to_process new_records replacement_records w
    = (Raise (ExecuteError msg),
       logs w ["~ Unable to add new shapes to live. " +:+ msg]) ∧
    is_abort_line ("~ Unable to add new shapes to live. " +:+ msg) = true.
Proof.
  intros Hmiss. eexists. split; [|reflexivity].
  unfold append_to_live.
  erewrite try_except_caught; cycle 1.
  - erewrite bind_Raise; [reflexivity|].
    unfold Append_management.
    destruct Hmiss as [-> | Hl]; [done|].
    rewrite Hl. by destruct (w_gdb w !! poly_fc self).
  - reflexivity.
  - erewrite bind_Return; [|apply message_logs]. reflexivity.
Qed.

(** X7.  [process_updates], whatever its outcome, changes nothing but
    the log: the workspace (the live feature class included), the input
    folder and the clock are as before; and it returns normally exactly
    when the candidate feature class exists and has no rows. *)
Theorem process_updates_changes_only_log (w w' : world) (o : outcome unit) :
  process_updates w = (o, w') →
  w_gdb w' = w_gdb w ∧ w_input w' = w_input w ∧ w_now w' = w_now w ∧
  (o = Return tt ↔ ∃ fc, w_gdb w !! poly_fc self = Some fc ∧ fc_rows fc = []).
Proof.
  intros Hrun.
  destruct (process_updates_only_logs w o w' Hrun) as [lines ->].
  split; [done|]. split; [done|]. split; [done|]. split.
  - intros ->. by apply process_updates_returns in Hrun as [_ ?].
  - intros (fc & Hp & Hrows).
    rewrite (process_updates_empty w fc Hp Hrows) in Hrun. by injection Hrun.
Qed.



(** ** Further properties of the verifier *)

(** X9.  On a readable shapefile that has the key field, when every
    key cell is a text [verify_key_field] returns without raising: the
    valid count is the number of rows whose stored key has more than one
    character, the two counts add up to the number of rows, one line is
    logged per invalid row, and the shapefile is left exactly as it
    was.  When some key cell is a number or null it raises
    [AttributeError] at the first such row, after one line for each
    invalid row before it, and the shapefile is again as it was. *)
Theorem verify_key_field_counts (w : world) (item : string) (t : Z)
    (fields : list string) (rows : list row) (k : nat) :
  lookup_file item (w_input w) = Some (File t (Shape fields rows)) →
  PyStr.index (shape_key_field self) fields = Some k →
  (text_keys k rows = true →
   ∃ valid_rows invalid_rows lines,
     verify_key_field item w = (Return (valid_rows, invalid_rows), logs w lines) ∧
     valid_rows
     = length (List.filter (λ r, match key_cell k r with
                                 | Text s => bool_decide (1 < PyStr.len s)
                                 | _ => false
                                 end) rows) ∧
     valid_rows + invalid_rows = length rows ∧
     length lines = invalid_rows) ∧
  (text_keys k rows = false →
   ∃ msg lines,
     verify_key_field item w = (Raise (AttributeError msg), logs w lines) ∧
     length lines = count_invalid k (text_prefix k rows)).
Proof.
  intros Hf Hk. split; intros Htext.
  - eexists _, _, _.
    split; [by eapply verify_key_field_spec|].
    split; [done|]. split.
    + apply (filter_length_split (counted_valid k)).
    + unfold invalid_lines, count_invalid. by rewrite length_map.
  - destruct (verify_key_field_crash item w t fields rows k Hf Hk Htext)
      as [msg Hrun].
    exists msg. eexists. split; [exact Hrun|].
    unfold invalid_lines, count_invalid. by rewrite length_map.
Qed.

Lemma filter_sublist_of {A} (p : A → bool) (l : list A) :
  List.filter p l `sublist_of` l.
Proof.
  induction l as [|x l IH]; cbn [List.filter]; [done|].
  destruct (p x); [by apply sublist_skip | by apply sublist_cons].
Qed.

Lemma discovered_same_folder w1 w2 :
  w_input w1 = w_input w2 → discovered w1 = discovered w2.
Proof. unfold discovered. by intros ->. Qed.

Lemma verdict_same_folder key_arg w1 w2 item :
  w_input w1 = w_input w2 → verdict_of key_arg w1 item = verdict_of key_arg w2 item.
Proof. unfold verdict_of. by intros ->. Qed.

(** The whole of what [verify_shapes] returns and logs. *)
Lemma verify_shapes_full folder_arg key_arg w :
  text_keyed key_arg w = true →
  ∃ lines1,
    verify_shapes folder_arg key_arg w
    = (Return (List.filter (λ i, is_good (verdict_of key_arg w i)) (discovered w)),
       logs w (lines1 ++
               flat_map (λ i, (verify_item key_arg (w_input w) i).2) (discovered w) ++
               (if bool_decide
                     (List.filter (λ i, is_dud (verdict_of key_arg w i)) (discovered w) ≠ [])
                then map (λ item, "@ " +:+ item +:+ " was malformed. Please investigate")
                         (List.filter (λ i, is_dud (verdict_of key_arg w i)) (discovered w))
                else []))).
Proof.
  intros Htext.
  destruct (create_list_of_shapes_to_verify_spec w) as [l1 H1].
  exists l1. unfold verify_shapes.
  set (dud := List.filter (λ i, is_dud (verdict_of key_arg w i)) (discovered w)).
  erewrite bind_Return; [|exact H1].
  erewrite bind_Return; [|by apply verify_loop_spec].
  cbv beta iota.
  change (verdict_of key_arg (logs w l1)) with (verdict_of key_arg w).
  fold dud.
  erewrite bind_Return.
  2:{ instantiate (1 := logs _ (if bool_decide (dud ≠ []) then _ else [])).
      case_bool_decide; [apply del_duds_spec|].
      unfold ret, mret, M_ret. by rewrite logs_nil. }
  unfold ret, mret, M_ret. rewrite !logs_input.
  by rewrite !logs_logs.
Qed.

(** X10.  When every key cell it reads is a text, [verify_shapes]
    returns without raising whatever else the files of the folder hold
    (unreadable files, files without fields or without the key field,
    blank keys); the dud list and the verified list it builds are both
    taken from the discovery list in discovery order, no file is in
    both, and the workspace, the input folder and the clock are left as
    they were.  When some key cell it reads is a number or null, it
    raises [AttributeError], which its [except RuntimeError] does not
    catch; again only the log has changed. *)
Theorem verify_shapes_partition (folder_arg key_arg : string) (w : world) :
  (text_keyed key_arg w = true →
   ∃ lines1 dud_list good_list w1 w',
     create_list_of_shapes_to_verify w = (Return (discovered w), logs w lines1) ∧
     verify_loop key_arg (discovered w) (logs w lines1)
     = (Return (dud_list, good_list), w1) ∧
     verify_shapes folder_arg key_arg w = (Return good_list, w') ∧
     good_list `sublist_of` discovered w ∧
     dud_list `sublist_of` discovered w ∧
     (∀ item, item ∈ good_list → item ∉ dud_list) ∧
     w_input w' = w_input w ∧ w_gdb w' = w_gdb w ∧ w_now w' = w_now w) ∧
  (text_keyed key_arg w = false →
   ∃ msg w',
     verify_shapes folder_arg key_arg w = (Raise (AttributeError msg), w') ∧
     w_input w' = w_input w ∧ w_gdb w' = w_gdb w ∧ w_now w' = w_now w).
Proof.
  split; intros Htext.
  - destruct (create_list_of_shapes_to_verify_spec w) as [lines1 H1].
    destruct (verify_shapes_full folder_arg key_arg w Htext) as [lines1' Hvs].
    eexists lines1, _, _, _, _.
    split; [exact H1|]. split; [by apply verify_loop_spec|].
    change (verdict_of key_arg (logs w lines1)) with (verdict_of key_arg w).
    split; [exact Hvs|].
    split; [apply filter_sublist_of|]. split; [apply filter_sublist_of|].
    split; [|done].
    intros item Hg Hd.
    apply list_elem_of_In, filter_In in Hg as [_ Hg].
    apply list_elem_of_In, filter_In in Hd as [_ Hd].
    by destruct (verdict_of key_arg w item).
  - destruct (verify_shapes_crash folder_arg key_arg w Htext)
      as (msg & lines & Hrun).
    by exists msg, (logs w lines).
Qed.

(** X11.  A discovered file that cannot be read does not stop the
    verification: in a folder whose key cells are texts [verify_shapes]
    still returns, the file is in neither the verified nor the dud list,
    and one failure line naming it is logged. *)
Theorem verify_shapes_skips_unreadable (folder_arg key_arg : string)
    (w : world) (item : string) (t : Z) :
  text_keyed key_arg w = true →
  item ∈ discovered w →
  lookup_file item (w_input w) = Some (File t Unreadable) →
  ∃ lines1 dud_list good_list w1 w' msg,
    verify_loop key_arg (discovered w) (logs w lines1)
    = (Return (dud_list, good_list), w1) ∧
    verify_shapes folder_arg key_arg w = (Return good_list, w') ∧
    (item ∉ good_list) ∧ (item ∉ dud_list) ∧
    ("~ Unable to attempt verification on " +:+ item +:+ ". " +:+ msg) ∈ w_log w'.
Proof.
  intros Htext Hdisc Hf.
  destruct (verify_shapes_full folder_arg key_arg w Htext) as [lines1 Hvs].
  assert (Hitem : verify_item key_arg (w_input w) item
                  = (Skipped, ["~ Unable to attempt verification on " +:+ item +:+
                               ". " +:+ "cannot open dataset"])).
  { unfold verify_item. by rewrite Hf. }
  eexists lines1, _, _, _, _, _.
  split; [by apply verify_loop_spec|].
  change (verdict_of key_arg (logs w lines1)) with (verdict_of key_arg w).
  split; [exact Hvs|].
  split; [|split].
  - intros [_ Hg]%list_elem_of_In%filter_In.
    unfold verdict_of in Hg. by rewrite Hitem in Hg.
  - intros [_ Hd]%list_elem_of_In%filter_In.
    unfold verdict_of in Hd. by rewrite Hitem in Hd.
  - rewrite logs_log. apply elem_of_app; right. apply elem_of_app; right.
    apply elem_of_app; left.
    apply list_elem_of_In, in_flat_map. exists item.
    rewrite <- !list_elem_of_In. split; [done|]. rewrite Hitem. left.
Qed.

(** X12.  In a folder whose key cells are texts, a discovered, readable
    shapefile that has no field at all, or lacks the key field
    [verify_shapes] is asked for, is put on the dud list and not on the
    verified list; [del_duds] logs one line asking to investigate it and
    the file stays in the folder as it was. *)
Theorem verify_shapes_duds (folder_arg key_arg : string) (w : world)
    (item : string) (t : Z) (fields : list string) (rows : list row) :
  text_keyed key_arg w = true →
  item ∈ discovered w →
  lookup_file item (w_input w) = Some (File t (Shape fields rows)) →
  fields = [] ∨ key_arg ∉ fields →
  ∃ lines1 dud_list good_list w1 w',
    verify_loop key_arg (discovered w) (logs w lines1)
    = (Return (dud_list, good_list), w1) ∧
    verify_shapes folder_arg key_arg w = (Return good_list, w') ∧
    item ∈ dud_list ∧ (item ∉ good_list) ∧
    ("@ " +:+ item +:+ " was malformed. Please investigate") ∈ w_log w' ∧
    lookup_file item (w_input w') = Some (File t (Shape fields rows)).
Proof.
  intros Htext Hdisc Hf Hbad.
  assert (Hv : verdict_of key_arg w item = Dud).
  { unfold verdict_of, verify_item. rewrite Hf.
    change (f_content <$> Some (File t (Shape fields rows)))
      with (Some (Shape fields rows)).
    cbv beta iota.
    case_bool_decide; [done|].
    destruct Hbad as [?|Hk]; [done|].
    by rewrite bool_decide_eq_false_2. }
  assert (Hdud : item ∈ List.filter (λ i, is_dud (verdict_of key_arg w i)) (discovered w)).
  { apply list_elem_of_In, filter_In. rewrite <- list_elem_of_In, Hv. done. }
  destruct (verify_shapes_full folder_arg key_arg w Htext) as [lines1 Hvs].
  eexists lines1, _, _, _, _.
  split; [by apply verify_loop_spec|].
  change (verdict_of key_arg (logs w lines1)) with (verdict_of key_arg w).
  split; [exact Hvs|].
  split; [exact Hdud|]. split; [|split; [|done]].
  - intros [_ Hg]%list_elem_of_In%filter_In. by rewrite Hv in Hg.
  - rewrite logs_log. apply elem_of_app; right. apply elem_of_app; right.
    apply elem_of_app; right.
    rewrite bool_decide_eq_true_2.
    + apply list_elem_of_fmap. by exists item.
    + intros Hnil. rewrite Hnil in Hdud. by apply elem_of_nil in Hdud.
Qed.

(** ** Further properties of renaming and retirement *)

Lemma rename_shape_raises item w :
  ∃ e, rename_shape item w = (Raise e, w).
Proof.
  unfold rename_shape.
  destruct (PyStr.endswith item ".shp" && negb (PyStr.startswith item "__")).
  - exists (NameError "sef").
    erewrite bind_Return; [|reflexivity]. erewrite bind_Raise; reflexivity.
  - exists AssertionError. erewrite bind_Raise; reflexivity.
Qed.

(** X13.  [finally_rename_shapes] never renames: whatever list it is
    given, every call of [rename_shape] raises before it reaches
    [Rename_management], the exception is caught, one failure line is
    logged per item, and the call returns with the input folder and the
    workspace as they were. *)
Theorem finally_rename_never_renames (good_list : list string) (w : world) :
  finally_rename_shapes good_list w
  = (Return tt,
     logs w (map (λ item, "~ Unable to rename " +:+ item +:+ ". Please check")
                 good_list)) ∧
  w_input (finally_rename_shapes good_list w).2 = w_input w.
Proof.
  assert (Hrun : ∀ w0,
            finally_rename_shapes good_list w0
            = (Return tt,
               logs w0 (map (λ item, "~ Unable to rename " +:+ item +:+ ". Please check")
                            good_list))).
  { unfold finally_rename_shapes.
    induction good_list as [|item l IH]; intros w0.
    - cbn. by rewrite logs_nil.
    - cbn [for_each map]. destruct (rename_shape_raises item w0) as [e He].
      erewrite bind_Return.
      2:{ erewrite try_except_caught; [apply message_logs | exact He | reflexivity]. }
      by rewrite IH, logs_logs. }
  split; [apply Hrun | by rewrite Hrun].
Qed.

Lemma filter_filter_same {A} (p : A → bool) (l : list A) :
  List.filter p (List.filter p l) = List.filter p l.
Proof.
  induction l as [|x l IH]; cbn [List.filter]; [done|].
  destruct (p x) eqn:E; [|done]. cbn [List.filter]. by rewrite E, IH.
Qed.

Lemma filter_fst_sublist {A B} (p : A * B → bool) (l : list (A * B)) :
  (List.filter p l).*1 `sublist_of` l.*1.
Proof.
  induction l as [|x l IH]; cbn [List.filter]; [done|].
  destruct (p x); rewrite ?fmap_cons; [by apply sublist_skip | by apply sublist_cons].
Qed.

Lemma dates_ok_same w1 w2 :
  w_now w1 = w_now w2 → w_input w1 = w_input w2 → dates_ok w1 = dates_ok w2.
Proof. unfold dates_ok. by intros -> ->. Qed.

Lemma forallb_filter {A} (p q : A → bool) (l : list A) :
  forallb q l = true → forallb q (List.filter p l) = true.
Proof.
  induction l as [|x l IH]; cbn [forallb List.filter]; [done|].
  intros [Hx Hl]%andb_true_iff.
  destruct (p x); cbn [forallb]; rewrite ?Hx; auto.
Qed.

Lemma dates_ok_after_retirement w lines :
  dates_ok w = true →
  dates_ok (logs (set_input (List.filter (λ e, negb (retired w e)) (w_input w)) w)
                 lines) = true.
Proof.
  unfold dates_ok. rewrite logs_input, logs_now. cbn [set_input w_input w_now].
  intros [-> Hl]%andb_true_iff. cbn [andb]. by apply forallb_filter.
Qed.

(** X14.  Retirement is idempotent on the folder: when the clock and the
    processed files' times can be turned into dates, a second
    [retire_old_files] at the same clock, right after the first, deletes
    nothing more, and every line it logs is a failure line (one for each
    expired file the store still refuses to delete). *)
Theorem retire_old_files_twice (w : world) :
  NoDup (w_input w).*1 →
  dates_ok w = true →
  ∃ w1 w2 lines,
    retire_old_files w = (Return tt, w1) ∧
    retire_old_files w1 = (Return tt, w2) ∧
    w_input w2 = w_input w1 ∧
    w_log w2 = w_log w1 ++ lines ∧
    ∀ line, line ∈ lines → is_abort_line line = true.
Proof.
  intros Hnd Hok. eexists _, _, _.
  split; [by apply retire_old_files_spec|].
  split.
  { apply retire_old_files_spec; [|by apply dates_ok_after_retirement].
    rewrite logs_input. cbn [set_input w_input].
    eapply sublist_NoDup; [exact Hnd | apply filter_fst_sublist]. }
  rewrite !logs_input, logs_log. cbn [set_input w_input].
  split; [|split; [reflexivity|]].
  - change (retired (logs (set_input ?d w) ?l)) with (retired w).
    apply filter_filter_same.
  - intros line Hline.
    apply list_elem_of_In, in_flat_map in Hline as (e & He & Hline).
    apply filter_In in He as [_ He].
    change (retire_lines (logs (set_input ?d w) ?l)) with (retire_lines w) in Hline.
    unfold retire_lines in Hline. unfold retired in He.
    destruct (expired w e); [|by destruct Hline].
    destruct (Delete_management_fails e.1) as [msg|]; [|done].
    destruct Hline as [<-|[]]. reflexivity.
Qed.

Lemma endswith_shp_not_lock name :
  PyStr.endswith name ".shp" = true → PyStr.endswith name "lock" = false.
Proof.
  unfold PyStr.endswith. cbn [String.length].
  destruct (bool_decide (4 ≤ String.length name)); [|done].
  cbn [andb]. intros H%String.eqb_eq. by rewrite H.
Qed.

Lemma retired_not_lock w e :
  retired w e = true →
  PyStr.startswith e.1 "__" = true ∧ PyStr.endswith e.1 "lock" = false.
Proof.
  unfold retired, expired. rewrite !andb_true_iff.
  intros [[[H1 H2] _] _]. split; [done|]. by apply endswith_shp_not_lock.
Qed.

Lemma locked_by_after_retirement w d item :
  locked_by (List.filter (λ e, negb (retired w e)) d).*1 item = locked_by d.*1 item.
Proof.
  unfold locked_by.
  induction d as [|e d IH]; cbn [List.filter]; [done|].
  destruct (retired w e) eqn:E; cbn [negb]; rewrite !fmap_cons; cbn [existsb].
  - apply retired_not_lock in E as [_ ->]. by rewrite andb_false_r, IH.
  - by rewrite IH.
Qed.

Lemma filter_after_retirement w (q : string → bool) (d : list (string * file)) :
  (∀ e, retired w e = true → q e.1 = false) →
  List.filter q (List.filter (λ e, negb (retired w e)) d).*1 = List.filter q d.*1.
Proof.
  intros Hq. induction d as [|e d IH]; cbn [List.filter]; [done|].
  destruct (retired w e) eqn:E; cbn [negb]; rewrite !fmap_cons;
    cbn [List.filter].
  - by rewrite (Hq e E), IH.
  - by rewrite IH.
Qed.

Lemma discovered_after_retirement w lines :
  discovered
    (logs (set_input (List.filter (λ e, negb (retired w e)) (w_input w)) w) lines)
  = discovered w.
Proof.
  unfold discovered. rewrite logs_input. cbn [set_input w_input].
  transitivity (List.filter (eligible (w_input w).*1)
                            (List.filter (λ e, negb (retired w e)) (w_input w)).*1).
  { apply filter_ext. intros item. unfold eligible.
    by rewrite locked_by_after_retirement. }
  apply filter_after_retirement.
  intros e [He _]%retired_not_lock. unfold eligible.
  by rewrite He, andb_false_r.
Qed.

(** X15.  Retirement does not change what discovery finds: the files
    [retire_old_files] deletes are processed shapefiles, which discovery
    never selects and which lock nothing, so after a retirement that
    returns (the clock and the processed files' times can be turned
    into dates) [create_list_of_shapes_to_verify] returns the same list
    as before. *)
Theorem retire_old_files_keeps_discovery (w : world) :
  NoDup (w_input w).*1 →
  dates_ok w = true →
  ∃ w1 lines lines1,
    retire_old_files w = (Return tt, w1) ∧
    create_list_of_shapes_to_verify w = (Return (discovered w), logs w lines) ∧
    create_list_of_shapes_to_verify w1 = (Return (discovered w), logs w1 lines1).
Proof.
  intros Hnd Hok.
  destruct (create_list_of_shapes_to_verify_spec w) as [lines Hl].
  destruct (create_list_of_shapes_to_verify_spec
              (logs (set_input (List.filter (λ e, negb (retired w e)) (w_input w)) w)
                    (flat_map (retire_lines w) (w_input w)))) as [lines1 Hl1].
  rewrite discovered_after_retirement in Hl1.
  eexists _, lines, lines1.
  split; [by apply retire_old_files_spec|]. by split.
Qed.

(** ** Properties of the tidying and merging steps *)

Lemma set_gdb_same w : set_gdb (w_gdb w) w = w.
Proof. by destruct w. Qed.

Lemma logs_set_gdb_logs g1 g2 w l1 l2 :
  logs (set_gdb g2 (logs (set_gdb g1 w) l1)) l2 = logs (set_gdb g2 w) (l1 ++ l2).
Proof. unfold logs, set_log, set_gdb; simpl. by rewrite app_assoc. Qed.

Lemma tidy_delete_one item w :
  ∃ lines g,
    (item_exists ← Exists item;
     if (item_exists : bool)
     then
       try_except
         (Delete_dataset item;;
          message (item +:+ " deleted"))
         is_Exception
         (λ e, message ("~ Unable to delete " +:+ item +:+ ". " +:+ str_exn e))
     else ret tt) w
    = (Return tt, logs (set_gdb g w) lines) ∧
    ∀ name,
      g !! name
      = if bool_decide (name = item ∧ Delete_dataset_fails name = None)
        then None else w_gdb w !! name.
Proof.
  erewrite bind_Return; [|reflexivity].
  case_bool_decide as Hex.
  - destruct (Delete_dataset_fails item) as [msg|] eqn:Hd.
    + exists ["~ Unable to delete " +:+ item +:+ ". " +:+ msg], (w_gdb w).
      split.
      * erewrite try_except_caught; cycle 1.
        -- erewrite bind_Raise; [reflexivity|]. unfold Delete_dataset.
           by rewrite Hd.
        -- reflexivity.
        -- rewrite message_logs. by rewrite set_gdb_same.
      * intros name. case_bool_decide as Hn; [|done].
        destruct Hn as [-> Hn]. congruence.
    + exists [item +:+ " deleted"], (delete item (w_gdb w)).
      split.
      * erewrite try_except_Return; [reflexivity|].
        erewrite bind_Return; [apply message_logs|].
        unfold Delete_dataset. by rewrite Hd.
      * intros name. case_bool_decide as Hn.
        -- destruct Hn as [-> _]. apply lookup_delete_eq.
        -- destruct (decide (name = item)) as [->|Hne].
           ++ by destruct Hn.
           ++ by apply lookup_delete_ne.
  - exists [], (w_gdb w). split.
    + unfold ret, mret, M_ret. by rewrite logs_nil, set_gdb_same.
    + intros name. case_bool_decide as Hn; [|done].
      destruct Hn as [-> _]. by apply eq_None_not_Some.
Qed.

Lemma tidy_delete_old_files_spec tidy_list w :
  ∃ lines g,
    tidy_delete_old_files tidy_list w = (Return tt, logs (set_gdb g w) lines) ∧
    ∀ name,
      g !! name
      = if bool_decide (name ∈ tidy_list ∧ Delete_dataset_fails name = None)
        then None else w_gdb w !! name.
Proof.
  unfold tidy_delete_old_files.
  revert w. induction tidy_list as [|item l IH]; intros w.
  - exists [], (w_gdb w). split.
    + cbn. by rewrite logs_nil, set_gdb_same.
    + intros name. case_bool_decide as Hn; [|done].
      destruct Hn as [Hn _]. by apply elem_of_nil in Hn.
  - destruct (tidy_delete_one item w) as (l1 & g1 & H1 & Hg1).
    destruct (IH (logs (set_gdb g1 w) l1)) as (l2 & g2 & H2 & Hg2).
    exists (l1 ++ l2), g2. split.
    + cbn [for_each]. erewrite bind_Return; [|exact H1].
      rewrite H2. by rewrite logs_set_gdb_logs.
    + intros name. rewrite Hg2, logs_gdb. cbn [set_gdb w_gdb]. rewrite Hg1.
      repeat case_bool_decide; try done; exfalso; forget_store;
        rewrite ?elem_of_cons in *; intuition.
Qed.

Lemma append_inj_prefix (p a b : string) : p +:+ a = p +:+ b → a = b.
Proof. induction p as [|c p IH]; cbn; [done|]. intros [= H]. by apply IH. Qed.

Lemma live_fc_not_tidied : live_fc self ∉ [shape_fc self; poly_fc self; cpad_fc self].
Proof.
  unfold live_fc, shape_fc, poly_fc, cpad_fc.
  rewrite !elem_of_cons, elem_of_nil.
  intros [H|[H|[H|[]]]]; by apply append_inj_prefix in H.
Qed.

(** X16.  [tidy_start] never raises and returns the three working names
    of the section.  Afterwards a working feature class whose deletion
    the store carries out is gone; every other dataset of the workspace,
    the live feature class in particular, is as before (a refused
    deletion is logged and skipped), and so are the input folder and the
    clock. *)
Theorem tidy_start_effect (w : world) :
  ∃ w',
    tidy_start w = (Return [shape_fc self; poly_fc self; cpad_fc self], w') ∧
    (∀ name, name ∈ [shape_fc self; poly_fc self; cpad_fc self] →
             Delete_dataset_fails name = None → w_gdb w' !! name = None) ∧
    (∀ name, (name ∉ [shape_fc self; poly_fc self; cpad_fc self]) ∨
             Delete_dataset_fails name ≠ None →
             w_gdb w' !! name = w_gdb w !! name) ∧
    w_gdb w' !! live_fc self = w_gdb w !! live_fc self ∧
    w_input w' = w_input w ∧ w_now w' = w_now w.
Proof.
  destruct (tidy_delete_old_files_spec
              [shape_fc self; poly_fc self; cpad_fc self] w) as (lines & g & Hrun & Hg).
  eexists. split.
  { unfold tidy_start. erewrite bind_Return; [|exact Hrun]. reflexivity. }
  rewrite logs_gdb. cbn [set_gdb w_gdb].
  split; [|split; [|split; [|done]]].
  - intros name Hin Hok. rewrite Hg. by rewrite bool_decide_eq_true_2.
  - intros name Hno. rewrite Hg. rewrite bool_decide_eq_false_2; [done|].
    intros [? ?]. by destruct Hno.
  - rewrite Hg. rewrite bool_decide_eq_false_2; [done|].
    intros [? _]. by apply live_fc_not_tidied.
Qed.

Lemma for_each_message {A} (f : A → string) (l : list A) w :
  for_each l (λ x, message (f x)) w = (Return tt, logs w (map f l)).
Proof.
  revert w. induction l as [|x l IH]; intros w.
  - cbn. by rewrite logs_nil.
  - cbn [for_each map]. erewrite bind_Return; [|apply message_logs].
    by rewrite IH, logs_logs.
Qed.

Lemma print_locked_files_spec w :
  print_locked_files w
  = (Return tt,
     logs w ((pretty (length (List.filter (λ item, PyStr.endswith item ".lock")
                                          workspace_files))
              +:+ " locked files in " +:+ MAIN_PATH)
             :: map (λ locked_file, "~ Locked file: " +:+ locked_file)
                    (List.filter (λ item, PyStr.endswith item ".lock")
                                 workspace_files))).
Proof.
  unfold print_locked_files. cbv zeta.
  erewrite bind_Return; [|apply message_logs].
  by rewrite for_each_message, logs_logs.
Qed.

Lemma Merge_management_failure items output w :
  items = [] ∨ mapM (shapefile_table (w_input w)) items = None ∨
  is_Some (Merge_management_fails items) →
  ∃ msg, Merge_management items output w = (Raise (ExecuteError msg), w).
Proof.
  intros Hcause. unfold Merge_management.
  destruct items as [|item items]; [by eexists|].
  destruct (mapM (shapefile_table (w_input w)) (item :: items)); [|by eexists].
  destruct (Merge_management_fails (item :: items)); [by eexists|].
  destruct Hcause as [?|[?|[? ?]]]; done.
Qed.

Lemma merged_table_rows (tables : list feature_class) :
  length (fc_rows (merged_table tables))
  = sum_list (map (λ t, length (fc_rows t)) tables).
Proof.
  unfold merged_table. cbn [fc_rows].
  generalize (foldl union_fields [] (map fc_fields tables)) as fields.
  intros fields. induction tables as [|t tables IH]; cbn [map concat sum_list_with sum_list]; [done|].
  by rewrite length_app, length_map, IH.
Qed.

(** X17.  When the working feature class is still in the workspace,
    [process_new_shapes] takes the append branch, and that branch cannot
    get past its first shapefile: after the append the success message
    names the unbound [shape_fc], the handler logs one failure line and
    raises again.  So the call raises, at most the first shapefile's rows
    have been added, and the closing message is never logged. *)
Theorem process_new_shapes_append_branch (w : world) (target : feature_class)
    (item : string) (rest : list string) :
  w_gdb w !! shape_fc self = Some target →
  ∃ e w',
    process_new_shapes (item :: rest) w = (Raise e, w') ∧
    w_log w'
    = w_log w ++
      ["Beginning processing of new shape data";
       "~ Unable to append " +:+ item +:+ ". Also, why am I appending " +:+
       "rather than merging? Something's up. " +:+ str_exn e] ∧
    match shapefile_table (w_input w) item with
    | Some src =>
        e = NameError "shape_fc" ∧
        w_gdb w'
        = <[shape_fc self :=
              FC (fc_fields target)
                 (fc_rows target ++
                  map (convert_row (fc_fields src) (fc_fields target)) (fc_rows src))]>
            (w_gdb w)
    | None => w_gdb w' = w_gdb w
    end ∧
    w_input w' = w_input w ∧ w_now w' = (w_now w + 60)%Z.
Proof.
  intros Ht. unfold process_new_shapes.
  erewrite bind_Return; [|apply message_logs].
  erewrite bind_Return; [|reflexivity].
  erewrite bind_Return; [|reflexivity].
  cbn [w_gdb logs set_log]. rewrite Ht.
  rewrite bool_decide_eq_true_2; [|by eexists].
  cbn [for_each].
  destruct (shapefile_table (w_input w) item) as [src|] eqn:Hsrc.
  - eexists (NameError "shape_fc"), _. split.
    + erewrite bind_Raise; [reflexivity|].
      erewrite bind_Raise; [reflexivity|].
      erewrite try_except_caught; cycle 1.
      * erewrite bind_Return.
        2:{ unfold Append_shapefile. cbn [w_input w_gdb logs set_log]. rewrite Hsrc, Ht.
            reflexivity. }
        erewrite bind_Raise; reflexivity.
      * reflexivity.
      * erewrite bind_Return; [|apply message_logs]. reflexivity.
    + cbn. by rewrite <- app_assoc.
  - eexists (ExecuteError _), _. split.
    + erewrite bind_Raise; [reflexivity|].
      erewrite bind_Raise; [reflexivity|].
      erewrite try_except_caught; cycle 1.
      * erewrite bind_Raise; [reflexivity|].
        unfold Append_shapefile. cbn [w_input w_gdb logs set_log]. rewrite Hsrc.
        reflexivity.
      * reflexivity.
      * erewrite bind_Return; [|apply message_logs]. reflexivity.
    + cbn. by rewrite <- app_assoc.
Qed.

(** X18.  With the working feature class absent and a merge that goes
    through, [process_new_shapes] returns normally after one minute of
    waiting; the working feature class then holds the merged table, with
    one row for every row of every verified shapefile, no other dataset
    of the workspace has changed, the input folder is as before and three
    lines have been logged. *)
Theorem process_new_shapes_merges (w : world) (verified_shapes : list string)
    (tables : list feature_class) :
  w_gdb w !! shape_fc self = None →
  verified_shapes ≠ [] →
  mapM (shapefile_table (w_input w)) verified_shapes = Some tables →
  Merge_management_fails verified_shapes = None →
  ∃ w',
    process_new_shapes verified_shapes w = (Return tt, w') ∧
    w_gdb w' = <[shape_fc self := merged_table tables]> (w_gdb w) ∧
    length (fc_rows (merged_table tables))
    = sum_list (map (λ t, length (fc_rows t)) tables) ∧
    w_log w'
    = w_log w ++
      ["Beginning processing of new shape data";
       "Successfully merged shapes into " +:+ shape_fc self;
       "Processing of new shape data complete"] ∧
    w_input w' = w_input w ∧ w_now w' = (w_now w + 60)%Z.
Proof.
  intros Ht Hne Htables Hok. unfold process_new_shapes.
  eexists. split.
  - erewrite bind_Return; [|apply message_logs].
    erewrite bind_Return; [|reflexivity].
    erewrite bind_Return; [|reflexivity].
    cbn [w_gdb logs set_log]. rewrite Ht.
    rewrite bool_decide_eq_false_2; [|by intros [? ?]].
    erewrite bind_Return; [apply message_logs|].
    erewrite try_except_Return; [reflexivity|].
    erewrite bind_Return; [apply message_logs|].
    destruct verified_shapes as [|item rest]; [done|].
    unfold Merge_management. cbn [w_input logs set_log].
    by rewrite Htables, Hok.
  - split; [done|]. split; [apply merged_table_rows|].
    cbn. by rewrite <- !app_assoc.
Qed.

Lemma process_new_shapes_merge_failure_aux (w : world) (verified_shapes : list string) :
  w_gdb w !! shape_fc self = None →
  verified_shapes = [] ∨
  mapM (shapefile_table (w_input w)) verified_shapes = None ∨
  is_Some (Merge_management_fails verified_shapes) →
  ∃ msg w',
    process_new_shapes verified_shapes w = (Raise (ExecuteError msg), w') ∧
    w_log w'
    = w_log w ++
      ["Beginning processing of new shape data";
       pretty (length (List.filter (λ item, PyStr.endswith item ".lock")
                                   workspace_files))
       +:+ " locked files in " +:+ MAIN_PATH] ++
      map (λ locked_file, "~ Locked file: " +:+ locked_file)
          (List.filter (λ item, PyStr.endswith item ".lock") workspace_files) ++
      ["~ Unable to merge shapes into " +:+ shape_fc self +:+ ". " +:+ msg] ∧
    w_gdb w' = w_gdb w ∧ w_input w' = w_input w ∧ w_now w' = (w_now w + 60)%Z.
Proof.
  intros Ht Hcause. unfold process_new_shapes.
  set (w1 := World (w_gdb w) (w_input w)
                   (w_log w ++ ["Beginning processing of new shape data"])
                   (w_now w + 60)).
  destruct (Merge_management_failure verified_shapes (shape_fc self) w1 Hcause)
    as [msg Hm].
  exists msg. eexists. split.
  - erewrite bind_Return; [|apply message_logs].
    erewrite bind_Return; [|reflexivity].
    erewrite bind_Return; [|reflexivity].
    cbn [w_gdb logs set_log]. rewrite Ht.
    rewrite bool_decide_eq_false_2; [|by intros [? ?]].
    erewrite bind_Raise; [reflexivity|].
    erewrite try_except_caught; cycle 1.
    + erewrite bind_Raise; [reflexivity|]. exact Hm.
    + reflexivity.
    + erewrite bind_Return; [|apply print_locked_files_spec].
      erewrite bind_Return; [|apply message_logs].
      reflexivity.
  - cbn. split; [|done]. rewrite <- !app_assoc. reflexivity.
Qed.

(** X19.  With the working feature class absent and a merge that fails
    (no input, an input that cannot be read, or the tool refusing),
    [process_new_shapes] logs the number of lock files of the workspace
    folder and one line per lock file, then the failure line, and raises
    the merge error again; the workspace and the input folder are as
    before and the closing message is not logged. *)
Theorem process_new_shapes_merge_failure (w : world) (verified_shapes : list string) :
  w_gdb w !! shape_fc self = None →
  verified_shapes = [] ∨
  mapM (shapefile_table (w_input w)) verified_shapes = None ∨
  is_Some (Merge_management_fails verified_shapes) →
  ∃ msg w',
    process_new_shapes verified_shapes w = (Raise (ExecuteError msg), w') ∧
    w_log w'
    = w_log w ++
      ["Beginning processing of new shape data";
       pretty (length (List.filter (λ item, PyStr.endswith item ".lock")
                                   workspace_files))
       +:+ " locked files in " +:+ MAIN_PATH] ++
      map (λ locked_file, "~ Locked file: " +:+ locked_file)
          (List.filter (λ item, PyStr.endswith item ".lock") workspace_files) ++
      ["~ Unable to merge shapes into " +:+ shape_fc self +:+ ". " +:+ msg] ∧
    w_gdb w' = w_gdb w ∧ w_input w' = w_input w ∧ w_now w' = (w_now w + 60)%Z.
Proof. apply process_new_shapes_merge_failure_aux. Qed.

(** ** Properties of the work flow *)

Lemma logs_set_gdb g w l1 l2 :
  logs (set_gdb g (logs w l1)) l2 = logs (set_gdb g w) (l1 ++ l2).
Proof. unfold logs, set_log, set_gdb; simpl. by rewrite app_assoc. Qed.

Lemma import_CPAD_table_spec w :
  match cpad_view with
  | Some table =>
      import_CPAD_table w
      = (Return tt,
         logs (set_gdb (<[cpad_fc self := table]> (w_gdb w)) w)
              ["Beginning import of CPAD table"; cpad_fc self +:+ " created"])
  | None =>
      ∃ msg,
        import_CPAD_table w
        = (Raise (ExecuteError msg),
           logs w ["Beginning import of CPAD table";
                   "~ Unable to create " +:+ cpad_fc self +:+ ". " +:+ msg])
  end.
Proof.
  unfold import_CPAD_table.
  destruct cpad_view as [table|] eqn:Hview.
  - erewrite bind_Return; [|apply message_logs].
    erewrite try_except_Return; [reflexivity|].
    erewrite bind_Return; [rewrite message_logs|].
    2:{ unfold TableToTable_conversion. rewrite Hview. reflexivity. }
    by rewrite logs_set_gdb.
  - eexists.
    erewrite bind_Return; [|apply message_logs].
    erewrite try_except_caught; cycle 1.
    + erewrite bind_Raise; [reflexivity|].
      unfold TableToTable_conversion. rewrite Hview. reflexivity.
    + reflexivity.
    + erewrite bind_Return; [|apply message_logs].
      by rewrite logs_logs.
Qed.

Lemma cpad_live_distinct : cpad_fc self ≠ live_fc self.
Proof. unfold cpad_fc, live_fc. by intros H%append_inj_prefix. Qed.

(** What [wrapper] does after the try block: retirement, the late import
    of the CPAD table, and the closing banner. *)
Lemma wrapper_tail_spec w0 :
  NoDup (w_input w0).*1 →
  dates_ok w0 = true →
  ∃ o w' lines,
    (retire_old_files;;
     cpad_exists ← Exists (cpad_fc self);
     (if negb cpad_exists
      then
        if negb (bool_decide (feature_class_prefix self = "Cases"))
        then import_CPAD_table
        else ret tt
      else ret tt);;
     message stars;;
     message (PyStr.center (feature_class_prefix self +:+ " completed") 50);;
     message stars) w0 = (o, w') ∧
    w_gdb w' !! live_fc self = w_gdb w0 !! live_fc self ∧
    w_input w' = List.filter (λ e, negb (retired w0 e)) (w_input w0) ∧
    w_log w' = w_log w0 ++ lines ∧
    (is_Some cpad_view ∨ feature_class_prefix self = "Cases" → o = Return tt).
Proof.
  intros Hnd Hok.
  erewrite bind_Return; [|by apply retire_old_files_spec].
  erewrite bind_Return; [|reflexivity].
  rewrite logs_gdb. cbn [set_input w_gdb].
  destruct (bool_decide (is_Some (w_gdb w0 !! cpad_fc self))); cbn [negb].
  { eexists _, _, _. split.
    - erewrite bind_Return; [|reflexivity].
      erewrite bind_Return; [|apply message_logs].
      erewrite bind_Return; [|apply message_logs].
      rewrite message_logs. rewrite !logs_logs. reflexivity.
    - rewrite logs_log, logs_input, logs_gdb. cbn [set_input w_input w_gdb w_log].
      done. }
  case_bool_decide as Hcases; cbn [negb].
  { eexists _, _, _. split.
    - erewrite bind_Return; [|reflexivity].
      erewrite bind_Return; [|apply message_logs].
      erewrite bind_Return; [|apply message_logs].
      rewrite message_logs. rewrite !logs_logs. reflexivity.
    - rewrite logs_log, logs_input, logs_gdb. cbn [set_input w_input w_gdb w_log].
      done. }
  match goal with |- ∃ _ _ _, ?f ?w1 = _ ∧ _ =>
    pose proof (import_CPAD_table_spec w1) as Himp end.
  destruct cpad_view as [table|].
  - eexists _, _, _. split.
    + erewrite bind_Return; [|exact Himp].
      erewrite bind_Return; [|apply message_logs].
      erewrite bind_Return; [|apply message_logs].
      rewrite message_logs. rewrite !logs_logs, logs_set_gdb. reflexivity.
    + rewrite logs_log, logs_input, logs_gdb.
      cbn [set_input set_gdb w_input w_gdb w_log].
      split; [|done]. apply lookup_insert_ne, cpad_live_distinct.
  - destruct Himp as [msg Himp].
    eexists _, _, _. split.
    + erewrite bind_Raise; [reflexivity|]. rewrite Himp, logs_logs. reflexivity.
    + rewrite logs_log, logs_input, logs_gdb. cbn [set_input w_input w_gdb w_log].
      split; [done|]. split; [done|]. split; [done|].
      intros [[? ?]|?]; done.
Qed.

(** The start of [wrapper]: the banner, [tidy_start] and
    [verify_shapes], followed by whatever comes next. *)
Lemma wrapper_head_spec {A} (k : list string → M A) w :
  text_keyed (shape_key_field self) w = true →
  ∃ lines g,
    (message stars;;
     message (PyStr.center ("Starting " +:+ feature_class_prefix self) 50);;
     message stars;;
     tidy_list ← tidy_start;
     verified_shapes ← verify_shapes shape_input (shape_key_field self);
     k verified_shapes) w
    = k (List.filter (λ i, is_good (verdict_of (shape_key_field self) w i))
                     (discovered w))
        (logs (set_gdb g w) lines) ∧
    ∀ name,
      g !! name
      = if bool_decide (name ∈ [shape_fc self; poly_fc self; cpad_fc self] ∧
                        Delete_dataset_fails name = None)
        then None else w_gdb w !! name.
Proof.
  intros Htext.
  destruct (tidy_delete_old_files_spec
              [shape_fc self; poly_fc self; cpad_fc self]
              (logs w [stars;
                       PyStr.center ("Starting " +:+ feature_class_prefix self) 50;
                       stars])) as (l1 & g & Htidy & Hg).
  destruct (verify_shapes_spec shape_input (shape_key_field self)
              (logs (set_gdb g w)
                    ([stars;
                      PyStr.center ("Starting " +:+ feature_class_prefix self) 50;
                      stars] ++ l1))) as (l2 & Hv & _); [exact Htext|].
  eexists _, g. split; [|exact Hg].
  erewrite bind_Return; [|apply message_logs].
  erewrite bind_Return; [|apply message_logs].
  erewrite bind_Return; [|apply message_logs].
  rewrite !logs_logs. cbn [app].
  erewrite bind_Return.
  2:{ unfold tidy_start. erewrite bind_Return; [|exact Htidy]. reflexivity. }
  rewrite logs_set_gdb.
  erewrite bind_Return; [|exact Hv].
  rewrite logs_logs. reflexivity.
Qed.

Lemma retired_same_clock w1 w2 e :
  w_now w1 = w_now w2 → retired w1 e = retired w2 e.
Proof. unfold retired, expired, age_days. by intros ->. Qed.

Lemma verify_shapes_good_list w w1 (good_list : list string) :
  verify_shapes shape_input (shape_key_field self) w = (Return good_list, w1) →
  List.filter (λ i, is_good (verdict_of (shape_key_field self) w i)) (discovered w)
  = good_list.
Proof.
  intros Hrun.
  destruct (verify_shapes_spec shape_input (shape_key_field self) w) as (l & Hv & _);
    [by eapply verify_shapes_returns|].
  rewrite Hv in Hrun. by injection Hrun as -> _.
Qed.

(** X20.  When verification accepts no shapefile, [wrapper] skips the
    whole update: it logs the "No records found" banner, leaves the live
    feature class as it was, and still retires the old processed files
    of the input folder (the clock and their times being such as can be
    turned into dates).  It returns normally unless the late import of
    the CPAD table fails. *)
Theorem wrapper_nothing_verified (w w1 : world) :
  NoDup (w_input w).*1 →
  dates_ok w = true →
  verify_shapes shape_input (shape_key_field self) w = (Return [], w1) →
  ∃ o w',
    wrapper w = (o, w') ∧
    w_gdb w' !! live_fc self = w_gdb w !! live_fc self ∧
    w_input w' = List.filter (λ e, negb (retired w e)) (w_input w) ∧
    PyStr.center "No records found for processing" 50 ∈ w_log w' ∧
    (is_Some cpad_view ∨ feature_class_prefix self = "Cases" → o = Return tt).
Proof.
  intros Hnd Hok Hv.
  pose proof (verify_shapes_returns _ _ _ _ _ Hv) as Htext.
  apply verify_shapes_good_list in Hv.
  unfold wrapper.
  match goal with
  | |- context [verify_shapes shape_input (shape_key_field self) ≫= ?k] =>
      destruct (wrapper_head_spec k w Htext) as (lines & g & Hhead & Hg)
  end.
  rewrite Hv in Hhead. cbv beta iota in Hhead.
  match type of Hhead with
  | _ = (_ ≫= _) ?w0 =>
      destruct (wrapper_tail_spec
                  (logs w0 [stars; PyStr.center "No records found for processing" 50;
                            stars]))
        as (o & w' & lines' & Htail & Hlive & Hin & Hlog & Ho);
        [exact Hnd | exact Hok |]
  end.
  exists o, w'. split.
  { rewrite Hhead.
    erewrite bind_Return; [exact Htail|].
    erewrite bind_Return; [|apply message_logs].
    erewrite bind_Return; [|apply message_logs].
    rewrite message_logs, !logs_logs. reflexivity. }
  split.
  { rewrite Hlive, !logs_gdb. cbn [set_gdb w_gdb]. rewrite Hg.
    rewrite bool_decide_eq_false_2; [done|].
    intros [? _]. by apply live_fc_not_tidied. }
  split; [exact Hin|]. split; [|exact Ho].
  rewrite Hlog, !logs_log. apply elem_of_app; left. apply elem_of_app; right.
  set_solver.
Qed.

(** X21.  When verification accepts at least one shapefile, the working
    feature class has been cleared, and the merge fails, [wrapper]
    contains the failure: it logs the merge failure and "Unable to
    update" for the live feature class with the error text, leaves the
    live feature class as it was, and still retires the processed files
    that are old enough at the clock of that moment, one minute after
    the start (that clock and their times being such as can be turned
    into dates).  It returns normally unless the late import of the CPAD
    table fails. *)
Theorem wrapper_merge_failure (w w1 : world) (item : string) (rest : list string) :
  NoDup (w_input w).*1 →
  dates_ok (World (w_gdb w) (w_input w) (w_log w) (w_now w + 60)) = true →
  verify_shapes shape_input (shape_key_field self) w = (Return (item :: rest), w1) →
  Delete_dataset_fails (shape_fc self) = None →
  is_Some (Merge_management_fails (item :: rest)) →
  ∃ o w' msg,
    wrapper w = (o, w') ∧
    w_gdb w' !! live_fc self = w_gdb w !! live_fc self ∧
    w_input w'
    = List.filter
        (λ e, negb (retired (World (w_gdb w) (w_input w) (w_log w) (w_now w + 60)) e))
        (w_input w) ∧
    ("~ Unable to merge shapes into " +:+ shape_fc self +:+ ". " +:+ msg) ∈ w_log w' ∧
    ("~ Unable to update " +:+ live_fc self +:+ ". " +:+ msg) ∈ w_log w' ∧
    (is_Some cpad_view ∨ feature_class_prefix self = "Cases" → o = Return tt).
Proof.
  intros Hnd Hok Hv Hdel Hmerge.
  pose proof (verify_shapes_returns _ _ _ _ _ Hv) as Htext.
  apply verify_shapes_good_list in Hv.
  unfold wrapper.
  match goal with
  | |- context [verify_shapes shape_input (shape_key_field self) ≫= ?k] =>
      destruct (wrapper_head_spec k w Htext) as (lines & g & Hhead & Hg)
  end.
  rewrite Hv in Hhead. cbv beta iota in Hhead.
  assert (Hshape : g !! shape_fc self = None).
  { rewrite Hg. rewrite bool_decide_eq_true_2; [done|].
    split; [set_solver|exact Hdel]. }
  destruct (process_new_shapes_merge_failure_aux
              (logs (set_gdb g w) lines) (item :: rest))
    as (msg & wp & Hp & Hplog & Hpgdb & Hpin & Hpnow); [exact Hshape|by right; right|].
  destruct (wrapper_tail_spec
              (logs wp ["~ Unable to update " +:+ live_fc self +:+ ". " +:+ msg]))
    as (o & w' & lines' & Htail & Hlive & Hin & Hlog & Ho).
  { rewrite logs_input, Hpin. exact Hnd. }
  { rewrite <- Hok. apply dates_ok_same; [by rewrite logs_now, Hpnow|].
    by rewrite logs_input, Hpin. }
  exists o, w', msg. split.
  { rewrite Hhead.
    erewrite bind_Return; [exact Htail|].
    erewrite try_except_caught; cycle 1.
    - erewrite bind_Raise; [reflexivity|exact Hp].
    - reflexivity.
    - apply message_logs. }
  split.
  { rewrite Hlive, logs_gdb, Hpgdb, logs_gdb. cbn [set_gdb w_gdb]. rewrite Hg.
    rewrite bool_decide_eq_false_2; [done|].
    intros [? _]. by apply live_fc_not_tidied. }
  split.
  { rewrite Hin, logs_input, Hpin. apply filter_ext. intros e. f_equal.
    apply retired_same_clock. by rewrite logs_now, Hpnow. }
  split; [|split; [|exact Ho]].
  - rewrite Hlog, logs_log, Hplog. set_solver.
  - rewrite Hlog, logs_log. set_solver.
Qed.

End Methods.

(** On the scenario of the specification the scan and bulk append of
    lines 387-401, given the candidate's field list, delete the old [A],
    add both candidate rows and report 1 new and 1 replacement. *)
Lemma scan_and_append_scenario :
  scan_and_append Sites never_fails ["UPRN"; "VERSION"] [Text "A"; Text "B"] 2
    (world_with live_AB (Some poly_AC))
  = (Return tt,
     World (<["Sites_Live" :=
               FC ["UPRN"; "VERSION"]
                  [[Text "B"; Text "v1"]; [Text "A"; Text "v2"];
                   [Text "C"; Text "v1"]]]>
              (w_gdb (world_with live_AB (Some poly_AC))))
           [] ["Old value of A deleted from Sites_Live";
               "2 shapes added to live. 1 new and 1 replacements"] 0).
Proof. vm_compute. reflexivity. Qed.

(** The same lines on a candidate set that holds the key [A] twice: the
    old [A] is deleted and both candidate rows are added. *)
Lemma scan_and_append_repeated_key :
  live_rows Sites
    (scan_and_append Sites never_fails ["UPRN"; "VERSION"]
       [Text "A"; Text "B"] 2 (world_with live_AB (Some poly_AA))).2
  = [[Text "B"; Text "v1"]; [Text "A"; Text "v2"]; [Text "A"; Text "v3"]].
Proof. vm_compute. reflexivity. Qed.

(** The same lines when the store refuses every deletion: the old [A]
    stays and the candidate rows are added all the same. *)
Lemma scan_and_append_refused_deletion :
  live_rows Sites
    (scan_and_append Sites (λ _, Some "locked") ["UPRN"; "VERSION"]
       [Text "A"; Text "B"] 2 (world_with live_AB (Some poly_AC))).2
  = [[Text "A"; Text "v1"]; [Text "B"; Text "v1"];
     [Text "A"; Text "v2"]; [Text "C"; Text "v1"]].
Proof. vm_compute. reflexivity. Qed.

(** [get_index] on a candidate set without the key field logs one
    failure line and returns [None]. *)
Lemma get_index_no_key :
  get_index Sites (world_with live_AB (Some poly_no_key))
  = (Return None,
     logs (world_with live_AB (Some poly_no_key))
          ["~ Unable to find UPRN in Sites_Poly. " +:+ "
" +:+ "'UPRN' is not in list"]).
Proof. vm_compute. reflexivity. Qed.

(** C2.  On live rows [A:v1], [B:v1] and candidate rows [A:v2], [C:v1],
    [process_updates] raises [NameError] at the [ListFields(self,poly_fc)]
    line: the live feature class is left as it was and no count is
    reported. *)
Theorem reconcile_scenario_raises :
  process_updates Sites never_fails (world_with live_AB (Some poly_AC))
  = (Raise (NameError "poly_fc"),
     logs (world_with live_AB (Some poly_AC)) ["Processing Updates"]) ∧
  live_rows Sites
    (process_updates Sites never_fails (world_with live_AB (Some poly_AC))).2
  = [[Text "A"; Text "v1"]; [Text "B"; Text "v1"]].
Proof. split; vm_compute; reflexivity. Qed.

(** C4.  When the candidate set does not exist, [process_updates] raises
    the error of [GetCount_management], which it calls before it asks
    [Exists]: the live feature class is not touched, but "No updates to
    process" is not logged and the call does not return normally. *)
Theorem missing_candidate_raises :
  process_updates Sites never_fails (world_with live_AB None)
  = (Raise (ExecuteError
              "ERROR 000732: Input Rows: Dataset Sites_Poly does not exist or is not supported"),
     logs (world_with live_AB None) ["Processing Updates"]).
Proof. vm_compute. reflexivity. Qed.

(** C5.  On a candidate set that has a row but not the key field,
    [process_updates] raises [NameError] before [get_index] is reached:
    the live feature class is left as it was and the log holds no failure
    line. *)
Theorem missing_key_field_no_abort_line :
  process_updates Sites never_fails (world_with live_AB (Some poly_no_key))
  = (Raise (NameError "poly_fc"),
     logs (world_with live_AB (Some poly_no_key)) ["Processing Updates"]) ∧
  List.filter is_abort_line
    (w_log (process_updates Sites never_fails
              (world_with live_AB (Some poly_no_key))).2)
  = [].
Proof. split; vm_compute; reflexivity. Qed.

(** C6.  On keys [" A"], ["  "], ["AB "] [verify_key_field] counts three
    valid rows and leaves every stored key as it was, where trimming
    gives ["A"], [""], ["AB"], of which one is longer than 1. *)
Theorem verify_key_field_keeps_whitespace :
  verify_key_field Sites "a.shp" padded_world = (Return (3, 0), padded_world) ∧
  map PyStr.strip [" A"; "  "; "AB "] = ["A"; ""; "AB"] ∧
  map spec_valid [" A"; "  "; "AB "] = [false; false; true].
Proof. repeat split; vm_compute; reflexivity. Qed.

(** C7.  A file whose only key is one character behind a blank has no
    valid row by the rule of the specification (length above 1 after
    trimming), and neither has a file whose keys are blanks; yet
    [verify_shapes] counts the untrimmed keys, reports one and two valid
    shapes and puts both files on the verified list, none on the dud
    list. *)
Theorem untrimmed_keys_accepted :
  spec_valid_rows 0 [[Text " A"]] = 0 ∧
  spec_valid_rows 0 [[Text "  "]; [Text "   "]] = 0 ∧
  verify_shapes Sites "Sites" "UPRN" blank_keys_world
  = (Return ["a.shp"; "b.shp"],
     logs blank_keys_world
          ["Completed verifying 'a.shp' with 1 valid shape(s)";
           "Completed verifying 'b.shp' with 2 valid shape(s)"]).
Proof. repeat split; vm_compute; reflexivity. Qed.

(** C8.  In the folder [X.shp], [XY.shp], [XY.shp.lock] the file [X.shp]
    has no lock file of its own, and the rule of the specification
    selects it.  [has_lock_file] reports it locked all the same, because
    [XY.shp.lock] starts with [X] and ends with [lock]: it logs that [X]
    is locked, and discovery returns no file at all. *)
Theorem lock_of_longer_name_excludes :
  spec_discovery (w_input prefix_world).*1 = ["X.shp"] ∧
  has_lock_file "X.shp" prefix_world
  = (Return true, logs prefix_world ["X is locked. Skipping verification"]) ∧
  create_list_of_shapes_to_verify prefix_world
  = (Return [],
     logs prefix_world ["X is locked. Skipping verification";
                        "XY is locked. Skipping verification"]).
Proof. repeat split; vm_compute; reflexivity. Qed.

(** C9, as stated, fails: a processed file whose timestamp is 29 days and
    2 hours old is deleted, because the two calendar dates lie 30 days
    apart. *)
Lemma retirement_elapsed_counterexample :
  ¬ (∀ w name f,
       (name, f) ∈ w_input w →
       (name ∉ (w_input (retire_old_files never_fails utc localtime_ok w).2).*1 ↔
        spec_expired w (name, f) = true)).
Proof.
  intros H.
  specialize (H late_evening_world "__X.shp" (File 82800 Unreadable)).
  assert (Hin : ("__X.shp", File 82800 Unreadable) ∈ w_input late_evening_world)
    by by_computation.
  apply H in Hin as [Hgone _].
  assert (Hfalse : spec_expired late_evening_world
                     ("__X.shp", File 82800 Unreadable) = false)
    by (vm_compute; reflexivity).
  rewrite Hfalse in Hgone. discriminate Hgone.
  vm_compute. intros Hx. by apply elem_of_nil in Hx.
Qed.

(** The run behind the counterexample. *)
Lemma retirement_late_evening :
  (w_now late_evening_world - 82800 < 30 * 86400)%Z ∧
  retire_old_files never_fails utc localtime_ok late_evening_world
  = (Return tt,
     World ∅ [] ["__X.shp deleted as 30 days old"] (30 * 86400 + 3600)).
Proof. split; vm_compute; reflexivity. Qed.

(** Across a move to summer time a processed file modified exactly 29
    days ago is 30 calendar days old, and deleted. *)
Lemma retirement_summer_time :
  (w_now summer_world - 84600 = 29 * 86400)%Z ∧
  retire_old_files never_fails summer_time localtime_ok summer_world
  = (Return tt,
     World ∅ [] ["__X.shp deleted as 30 days old"] (84600 + 29 * 86400)).
Proof. split; vm_compute; reflexivity. Qed.

(** With the clock in the year 10000 [date.today()] raises, and
    [retire_old_files] with it. *)
Lemma retirement_year_10000 :
  retire_old_files never_fails utc localtime_ok far_future_world
  = (Raise (ValueError "year is out of range"), far_future_world).
Proof. vm_compute. reflexivity. Qed.

(** A key of one character outside ASCII is one character long: of the
    keys [é], [ab], [£] one is counted valid. *)
Lemma verify_key_field_accented :
  verify_key_field Sites "a.shp" accented_world
  = (Return (1, 2),
     logs accented_world ["@ 'é' is niot a valid UPRN. Removed row";
                          "@ '£' is niot a valid UPRN. Removed row"]).
Proof. vm_compute. reflexivity. Qed.

(** A number in the key column: the row before it is counted, then
    [strip] fails, and the error leaves [verify_shapes], the file after
    it not being looked at.  A null key does the same. *)
Lemma verify_shapes_numeric_key :
  verify_key_field Sites "sites.shp" numeric_world
  = (Raise (AttributeError "'int' object has no attribute 'strip'"),
     logs numeric_world ["@ '' is niot a valid UPRN. Removed row"]) ∧
  verify_shapes Sites "Sites" "UPRN" numeric_world
  = (Raise (AttributeError "'int' object has no attribute 'strip'"),
     logs numeric_world ["@ '' is niot a valid UPRN. Removed row"]) ∧
  verify_shapes Sites "Sites" "UPRN" null_world
  = (Raise (AttributeError "'NoneType' object has no attribute 'strip'"),
     null_world).
Proof. repeat split; vm_compute; reflexivity. Qed.



Lemma reconcile_frame_witness :
  ∃ kept added,
    w_gdb (scan_and_append Sites never_fails ["UPRN"; "VERSION"]
             [Text "A"; Text "B"] 2 (world_with live_AB (Some poly_AC))).2
      !! live_fc Sites
    = Some (FC ["UPRN"; "VERSION"] (kept ++ added)) ∧
    kept `sublist_of` fc_rows live_AB ∧
    List.filter (untouched Sites (candidate_keys Sites (world_with live_AB (Some poly_AC)))
                           ["UPRN"; "VERSION"]) kept
    = List.filter (untouched Sites (candidate_keys Sites (world_with live_AB (Some poly_AC)))
                             ["UPRN"; "VERSION"]) (fc_rows live_AB) ∧
    ∀ r, r ∈ fc_rows live_AB → r ∉ kept →
         row_key Sites ["UPRN"; "VERSION"] r
         ∈ candidate_keys Sites (world_with live_AB (Some poly_AC)).
Proof.
  assert (Hp : w_gdb (world_with live_AB (Some poly_AC)) !! poly_fc Sites
               = Some poly_AC) by (vm_compute; reflexivity).
  assert (Hl : w_gdb (world_with live_AB (Some poly_AC)) !! live_fc Sites
               = Some live_AB) by (vm_compute; reflexivity).
  exact (proj2 (reconcile_frame Sites never_fails _ poly_AC live_AB Hp Hl)
               [Text "A"; Text "B"] 2 _ _ (surjective_pairing _)).
Defined.

Lemma retirement_rule_witness :
  ∃ w',
    retire_old_files never_fails utc localtime_ok aged_world = (Return tt, w') ∧
    ("__old.shp" ∉ (w_input w').*1) ∧
    ("__new.shp" ∈ (w_input w').*1) ∧
    ("other.shp" ∈ (w_input w').*1).
Proof.
  assert (Hnd : NoDup (w_input aged_world).*1) by by_computation.
  assert (Hok : dates_ok utc localtime_ok aged_world = true)
    by (vm_compute; reflexivity).
  destruct (retirement_rule never_fails utc localtime_ok aged_world Hnd Hok)
    as (w' & Hrun & _ & Hall).
  exists w'. split; [exact Hrun|].
  split; [|split].
  - apply (Hall "__old.shp" (File 0 Unreadable)); [by_computation|].
    repeat split; vm_compute; congruence.
  - destruct (decide ("__new.shp" ∈ (w_input w').*1)) as [|Hn]; [done|].
    exfalso.
    apply (Hall "__new.shp" (File (2 * 86400) Unreadable)) in Hn as (_ & _ & Hage & _);
      [|by_computation].
    vm_compute in Hage. by apply Hage.
  - destruct (decide ("other.shp" ∈ (w_input w').*1)) as [|Hn]; [done|].
    exfalso.
    apply (Hall "other.shp" (File 0 Unreadable)) in Hn as (Hmark & _);
      [|by_computation].
    vm_compute in Hmark. discriminate Hmark.
Defined.

Lemma rename_assertion_holds_witness :
  "plots.shp" ∈ discovered input_world ∧
  PyStr.endswith "plots.shp" ".shp" = true ∧
  PyStr.startswith "plots.shp" "__" = false ∧
  (rename_shape "plots.shp" input_world).1 ≠ Raise AssertionError.
Proof.
  destruct (rename_assertion_holds Sites "Sites" "UPRN" input_world
              (verify_shapes Sites "Sites" "UPRN" input_world).2
              ["plots.shp"] "plots.shp")
    as (H1 & H2 & H3 & H4).
  - vm_compute. reflexivity.
  - by_computation.
  - exact (conj H1 (conj H2 (conj H3 (H4 input_world)))).
Defined.

(** ** Worked runs of the further properties *)

Lemma get_index_position_witness :
  ∃ r lines,
    get_index Sites (world_with live_AB (Some poly_AC))
    = (Return r, logs (world_with live_AB (Some poly_AC)) lines).
Proof.
  destruct (get_index_position Sites (world_with live_AB (Some poly_AC)) poly_AC)
    as (r & lines & Hrun & _).
  - vm_compute. reflexivity.
  - by exists r, lines.
Defined.

Lemma delete_record_effect_witness :
  ∃ lines : list string,
    w_gdb (delete_record Sites never_fails (Text "A")
             (world_with live_AB (Some poly_AC))).2 !! live_fc Sites
    = Some (FC ["UPRN"; "VERSION"] [[Text "B"; Text "v1"]]) ∧
    length lines = 1.
Proof.
  destruct (delete_record_effect Sites never_fails
              (world_with live_AB (Some poly_AC)) live_AB 0 (Text "A"))
    as (lines & Hrun & Hlen & _).
  - vm_compute. reflexivity.
  - vm_compute. reflexivity.
  - exists lines. split; [|exact Hlen].
    rewrite Hrun. vm_compute. reflexivity.
Defined.

Lemma delete_then_master_list_witness :
  ∃ keys,
    create_master_list Sites (world_with live_AB (Some poly_AC))
    = (Return keys, world_with live_AB (Some poly_AC)) ∧
    Text "A" ∉ List.filter (λ x, negb (bool_decide (x = Text "A"))) keys.
Proof.
  destruct (delete_then_master_list Sites never_fails
              (world_with live_AB (Some poly_AC))
              (delete_record Sites never_fails (Text "A")
                 (world_with live_AB (Some poly_AC))).2
              live_AB 0 (Text "A"))
    as (keys & Hbefore & _ & Hgone).
  - vm_compute. reflexivity.
  - vm_compute. reflexivity.
  - reflexivity.
  - vm_compute. reflexivity.
  - by exists keys.
Defined.

Lemma scan_candidates_counts_witness :
  1 + 1 = length (fc_rows poly_AC).
Proof.
  destruct (scan_candidates_counts Sites never_fails
              (world_with live_AB (Some poly_AC))
              (scan_candidates Sites never_fails ["UPRN"; "VERSION"] (Some 0)
                 [Text "A"; Text "B"] (world_with live_AB (Some poly_AC))).2
              poly_AC [Text "A"; Text "B"] 1 1)
    as (_ & _ & Hsum & _).
  - vm_compute. reflexivity.
  - vm_compute. reflexivity.
  - exact Hsum.
Defined.


Lemma append_to_live_failure_witness :
  ∃ msg,
    append_to_live Sites 2 1 1 (world_with live_AB None)
    = (Raise (ExecuteError msg),
       logs (world_with live_AB None)
            ["~ Unable to add new shapes to live. " +:+ msg]).
Proof.
  destruct (append_to_live_failure Sites (world_with live_AB None) 2 1 1)
    as (msg & Hrun & _).
  - left. vm_compute. reflexivity.
  - by exists msg.
Defined.

Lemma process_updates_changes_only_log_witness :
  w_gdb (process_updates Sites never_fails (world_with live_AB (Some poly_AC))).2
  = w_gdb (world_with live_AB (Some poly_AC)).
Proof.
  exact (proj1 (process_updates_changes_only_log Sites never_fails
                  (world_with live_AB (Some poly_AC)) _ _ (surjective_pairing _))).
Defined.

Lemma verify_key_field_counts_witness :
  ∃ invalid_rows lines,
    verify_key_field Sites "a.shp" accented_world
    = (Return (1, invalid_rows), logs accented_world lines) ∧
    1 + invalid_rows = 3 ∧ length lines = invalid_rows.
Proof.
  destruct (verify_key_field_counts Sites accented_world "a.shp" 0 ["UPRN"]
              [[Text "é"]; [Text "ab"]; [Text "£"]] 0)
    as [Htext _].
  - vm_compute. reflexivity.
  - vm_compute. reflexivity.
  - destruct Htext as (valid_rows & invalid_rows & lines & Hrun & Hvalid & Hsum & Hlines);
      [vm_compute; reflexivity|].
    vm_compute in Hvalid. subst valid_rows.
    by exists invalid_rows, lines.
Defined.

Lemma verify_shapes_skips_unreadable_witness :
  ∃ good_list w',
    verify_shapes Sites "Sites" "UPRN" aged_world = (Return good_list, w') ∧
    "other.shp" ∉ good_list.
Proof.
  destruct (verify_shapes_skips_unreadable Sites "Sites" "UPRN" aged_world
              "other.shp" 0)
    as (_ & _ & good_list & _ & w' & _ & _ & Hrun & Hgood & _).
  - vm_compute. reflexivity.
  - by_computation.
  - vm_compute. reflexivity.
  - by exists good_list, w'.
Defined.

Lemma verify_shapes_duds_witness :
  ∃ good_list w',
    verify_shapes Sites "Sites" "UPRN" malformed_world = (Return good_list, w') ∧
    ("nokey.shp" ∉ good_list) ∧
    "@ nokey.shp was malformed. Please investigate" ∈ w_log w'.
Proof.
  destruct (verify_shapes_duds Sites "Sites" "UPRN" malformed_world
              "nokey.shp" 0 ["PARCEL"] [[Text "P1"]])
    as (_ & _ & good_list & _ & w' & _ & Hrun & _ & Hgood & Hline & _).
  - vm_compute. reflexivity.
  - by_computation.
  - vm_compute. reflexivity.
  - right. by_computation.
  - by exists good_list, w'.
Defined.

Lemma retire_old_files_twice_witness :
  ∃ w1 w2,
    retire_old_files never_fails utc localtime_ok aged_world = (Return tt, w1) ∧
    retire_old_files never_fails utc localtime_ok w1 = (Return tt, w2) ∧
    w_input w2 = w_input w1.
Proof.
  destruct (retire_old_files_twice never_fails utc localtime_ok aged_world)
    as (w1 & w2 & _ & H1 & H2 & Hsame & _).
  - by_computation.
  - vm_compute. reflexivity.
  - by exists w1, w2.
Defined.

Lemma retire_old_files_keeps_discovery_witness :
  ∃ w1 lines1,
    retire_old_files never_fails utc localtime_ok aged_world = (Return tt, w1) ∧
    create_list_of_shapes_to_verify w1
    = (Return (discovered aged_world), logs w1 lines1).
Proof.
  destruct (retire_old_files_keeps_discovery never_fails utc localtime_ok aged_world)
    as (w1 & _ & lines1 & H1 & _ & H2).
  - by_computation.
  - vm_compute. reflexivity.
  - by exists w1, lines1.
Defined.

Lemma process_new_shapes_append_branch_witness :
  ∃ e w',
    process_new_shapes Sites gdb_folder never_fails ["plots.shp"] workspace_world
    = (Raise e, w') ∧
    w_input w' = input_folder.
Proof.
  destruct (process_new_shapes_append_branch Sites gdb_folder never_fails
              workspace_world (FC ["UPRN"] []) "plots.shp" [])
    as (e & w' & Hrun & _ & _ & Hin & _).
  - vm_compute. reflexivity.
  - by exists e, w'.
Defined.

Lemma process_new_shapes_merges_witness :
  ∃ w',
    process_new_shapes Sites gdb_folder never_fails ["plots.shp"] live_input_world
    = (Return tt, w') ∧
    w_input w' = input_folder.
Proof.
  destruct (process_new_shapes_merges Sites gdb_folder never_fails
              live_input_world ["plots.shp"]
              [FC ["UPRN"] [[Text "S1"]; [Text ""]; [Text "S2"]; [Text ""]; [Text "S3"]]])
    as (w' & Hrun & _ & _ & _ & Hin & _).
  - vm_compute. reflexivity.
  - discriminate.
  - vm_compute. reflexivity.
  - reflexivity.
  - by exists w'.
Defined.

Lemma process_new_shapes_merge_failure_witness :
  ∃ msg w',
    process_new_shapes Sites gdb_folder always_fails ["plots.shp"] live_input_world
    = (Raise (ExecuteError msg), w') ∧
    w_gdb w' = w_gdb live_input_world.
Proof.
  destruct (process_new_shapes_merge_failure Sites gdb_folder always_fails
              live_input_world ["plots.shp"])
    as (msg & w' & Hrun & _ & Hgdb & _).
  - vm_compute. reflexivity.
  - right. right. eexists. reflexivity.
  - by exists msg, w'.
Defined.

Lemma wrapper_nothing_verified_witness :
  ∃ o w',
    wrapper Sites never_fails never_fails utc localtime_ok never_fails gdb_folder
            never_fails (Some cpad_sites) (ret tt) (ret tt) (ret tt) idle_world
    = (o, w') ∧
    w_gdb w' !! live_fc Sites = w_gdb idle_world !! live_fc Sites ∧
    o = Return tt.
Proof.
  destruct (wrapper_nothing_verified Sites never_fails never_fails utc
              localtime_ok never_fails
              gdb_folder never_fails (Some cpad_sites) (ret tt) (ret tt) (ret tt)
              idle_world
              (verify_shapes Sites (shape_input Sites) "UPRN" idle_world).2)
    as (o & w' & Hrun & Hlive & _ & _ & Ho).
  - by_computation.
  - vm_compute. reflexivity.
  - vm_compute. reflexivity.
  - exists o, w'. split; [exact Hrun|]. split; [exact Hlive|].
    apply Ho. left. by eexists.
Defined.

Lemma wrapper_merge_failure_witness :
  ∃ o w',
    wrapper Sites never_fails never_fails utc localtime_ok never_fails gdb_folder
            always_fails (Some cpad_sites) (ret tt) (ret tt) (ret tt)
            live_input_world
    = (o, w') ∧
    w_gdb w' !! live_fc Sites = w_gdb live_input_world !! live_fc Sites ∧
    o = Return tt.
Proof.
  destruct (wrapper_merge_failure Sites never_fails never_fails utc
              localtime_ok never_fails
              gdb_folder always_fails (Some cpad_sites) (ret tt) (ret tt) (ret tt)
              live_input_world
              (verify_shapes Sites (shape_input Sites) "UPRN" live_input_world).2
              "plots.shp" [])
    as (o & w' & msg & Hrun & Hlive & _ & _ & _ & Ho).
  - by_computation.
  - vm_compute. reflexivity.
  - vm_compute. reflexivity.
  - reflexivity.
  - eexists. reflexivity.
  - exists o, w'. split; [exact Hrun|]. split; [exact Hlive|].
    apply Ho. left. by eexists.
Defined.

